(** * IT inventory: asset lifecycle and warranty alerts

    A shallow embedding of the backend's lifecycle handlers
    ([app/routes/assets.py]) and of the warranty notification service
    ([app/services/warranty_service.py]), over the tables declared in
    [app/models.py] and the request schemas of [app/schemas.py];
    and, around them, of the handlers that deactivate an employee
    ([app/routes/employees.py]), of the dashboard
    ([app/routes/dashboard.py]) and of the mail service
    ([app/services/email_service.py], configured by [app/config.py]).

    Conventions of the embedding.
    - A table is the list of its rows, in insertion order; [.first()] is
      [find], [.all()] is [filter], [db.add] appends.
    - A column that the Python code can hold as [None] is an [option];
      the primary key of a stored row is a plain [Z].
    - A [date] is its proleptic Gregorian ordinal, so that
      [(d1 - d2).days] is the difference of two integers.  A [datetime]
      is a count of microseconds; [timedelta(days=n)] is [n] times the
      microseconds of a day.
    - A Python [str] is a [string]; each character stands for one code
      point, so [len] is [String.length].
    - A Python [float] is a binary64 [float] with its IEEE comparison.
    - [created_at] and [updated_at] are written by the database server
      ([server_default], [onupdate]) and are read by none of the code
      embedded here; they are left out of the rows, as are the surrogate
      keys of the two append-only tables [audit_logs] and
      [warranty_notifications].
    - What the program leaves to its environment is an argument of the
      function that uses it: the SMTP exchange, the rendering of a
      Jinja template, SQL's [SUM] and Python's [sum] over floats. *)

From Stdlib Require Import ZArith List String Bool Lia Floats.
From Stdlib Require Import DecimalString Permutation Sorted.
Import ListNotations.

Local Open Scope string_scope.
Local Open Scope list_scope.
Local Open Scope Z_scope.

(* ================================================================== *)
(** ** app/models.py *)

Definition date := Z.
Definition datetime := Z.

Definition timedelta_days (days : Z) : Z := days * 86400000000.

Inductive AssetType :=
  LAPTOP | MONITOR | DOCK | HEADSET | CAMERA | KEYBOARD | MOUSE | OTHER.

Inductive AssetStatus := ACTIVE | AVAILABLE | REPAIR | DECOMMISSIONED.

Inductive UserRole := ADMIN | TECHNICIAN | VIEWER.

Definition AssetType_value (t : AssetType) : string :=
  match t with
  | LAPTOP => "laptop" | MONITOR => "monitor" | DOCK => "dock"
  | HEADSET => "headset" | CAMERA => "camera" | KEYBOARD => "keyboard"
  | MOUSE => "mouse" | OTHER => "other"
  end.

Definition AssetType_eqb (a b : AssetType) : bool :=
  match a, b with
  | LAPTOP, LAPTOP | MONITOR, MONITOR | DOCK, DOCK | HEADSET, HEADSET
  | CAMERA, CAMERA | KEYBOARD, KEYBOARD | MOUSE, MOUSE | OTHER, OTHER => true
  | _, _ => false
  end.

Definition AssetStatus_eqb (a b : AssetStatus) : bool :=
  match a, b with
  | ACTIVE, ACTIVE | AVAILABLE, AVAILABLE | REPAIR, REPAIR
  | DECOMMISSIONED, DECOMMISSIONED => true
  | _, _ => false
  end.

Definition UserRole_eqb (a b : UserRole) : bool :=
  match a, b with
  | ADMIN, ADMIN | TECHNICIAN, TECHNICIAN | VIEWER, VIEWER => true
  | _, _ => false
  end.

Module User.
Record t := mk {
  id : Z;
  email : string;
  username : string;
  hashed_password : string;
  full_name : string;
  role : option UserRole;
  is_active : option bool
}.
End User.

Module Employee.
Record t := mk {
  id : Z;
  employee_id : option string;
  email : string;
  full_name : string;
  department : option string;
  location : option string;
  manager : option string;
  is_active : option bool
}.
End Employee.

Module Asset.
Record t := mk {
  id : Z;
  asset_tag : string;
  asset_type : option AssetType;
  name : option string;
  manufacturer : option string;
  model : option string;
  serial_number : option string;
  purchase_date : option date;
  purchase_price : option float;
  warranty_end : option date;
  vendor : option string;
  po_number : option string;
  status : option AssetStatus;
  assigned_to : option Z;
  assigned_date : option date;
  decommission_date : option date;
  decommission_reason : option string;
  notes : option string;
  location : option string
}.

(** [setattr(asset, field, v)], one function per attribute. *)
Definition set_asset_type (a : t) (v : option AssetType) : t :=
  mk (id a) (asset_tag a) v (name a) (manufacturer a) (model a)
     (serial_number a) (purchase_date a) (purchase_price a)
     (warranty_end a) (vendor a) (po_number a) (status a) (assigned_to a)
     (assigned_date a) (decommission_date a) (decommission_reason a)
     (notes a) (location a).

Definition set_name (a : t) (v : option string) : t :=
  mk (id a) (asset_tag a) (asset_type a) v (manufacturer a) (model a)
     (serial_number a) (purchase_date a) (purchase_price a)
     (warranty_end a) (vendor a) (po_number a) (status a) (assigned_to a)
     (assigned_date a) (decommission_date a) (decommission_reason a)
     (notes a) (location a).

Definition set_manufacturer (a : t) (v : option string) : t :=
  mk (id a) (asset_tag a) (asset_type a) (name a) v (model a)
     (serial_number a) (purchase_date a) (purchase_price a)
     (warranty_end a) (vendor a) (po_number a) (status a) (assigned_to a)
     (assigned_date a) (decommission_date a) (decommission_reason a)
     (notes a) (location a).

Definition set_model (a : t) (v : option string) : t :=
  mk (id a) (asset_tag a) (asset_type a) (name a) (manufacturer a) v
     (serial_number a) (purchase_date a) (purchase_price a)
     (warranty_end a) (vendor a) (po_number a) (status a) (assigned_to a)
     (assigned_date a) (decommission_date a) (decommission_reason a)
     (notes a) (location a).

Definition set_serial_number (a : t) (v : option string) : t :=
  mk (id a) (asset_tag a) (asset_type a) (name a) (manufacturer a)
     (model a) v (purchase_date a) (purchase_price a) (warranty_end a)
     (vendor a) (po_number a) (status a) (assigned_to a) (assigned_date a)
     (decommission_date a) (decommission_reason a) (notes a) (location a).

Definition set_purchase_date (a : t) (v : option date) : t :=
  mk (id a) (asset_tag a) (asset_type a) (name a) (manufacturer a)
     (model a) (serial_number a) v (purchase_price a) (warranty_end a)
     (vendor a) (po_number a) (status a) (assigned_to a) (assigned_date a)
     (decommission_date a) (decommission_reason a) (notes a) (location a).

Definition set_purchase_price (a : t) (v : option float) : t :=
  mk (id a) (asset_tag a) (asset_type a) (name a) (manufacturer a)
     (model a) (serial_number a) (purchase_date a) v (warranty_end a)
     (vendor a) (po_number a) (status a) (assigned_to a) (assigned_date a)
     (decommission_date a) (decommission_reason a) (notes a) (location a).

Definition set_warranty_end (a : t) (v : option date) : t :=
  mk (id a) (asset_tag a) (asset_type a) (name a) (manufacturer a)
     (model a) (serial_number a) (purchase_date a) (purchase_price a) v
     (vendor a) (po_number a) (status a) (assigned_to a) (assigned_date a)
     (decommission_date a) (decommission_reason a) (notes a) (location a).

Definition set_vendor (a : t) (v : option string) : t :=
  mk (id a) (asset_tag a) (asset_type a) (name a) (manufacturer a)
     (model a) (serial_number a) (purchase_date a) (purchase_price a)
     (warranty_end a) v (po_number a) (status a) (assigned_to a)
     (assigned_date a) (decommission_date a) (decommission_reason a)
     (notes a) (location a).

Definition set_po_number (a : t) (v : option string) : t :=
  mk (id a) (asset_tag a) (asset_type a) (name a) (manufacturer a)
     (model a) (serial_number a) (purchase_date a) (purchase_price a)
     (warranty_end a) (vendor a) v (status a) (assigned_to a)
     (assigned_date a) (decommission_date a) (decommission_reason a)
     (notes a) (location a).

Definition set_status (a : t) (v : option AssetStatus) : t :=
  mk (id a) (asset_tag a) (asset_type a) (name a) (manufacturer a)
     (model a) (serial_number a) (purchase_date a) (purchase_price a)
     (warranty_end a) (vendor a) (po_number a) v (assigned_to a)
     (assigned_date a) (decommission_date a) (decommission_reason a)
     (notes a) (location a).

Definition set_assigned_to (a : t) (v : option Z) : t :=
  mk (id a) (asset_tag a) (asset_type a) (name a) (manufacturer a)
     (model a) (serial_number a) (purchase_date a) (purchase_price a)
     (warranty_end a) (vendor a) (po_number a) (status a) v
     (assigned_date a) (decommission_date a) (decommission_reason a)
     (notes a) (location a).

Definition set_assigned_date (a : t) (v : option date) : t :=
  mk (id a) (asset_tag a) (asset_type a) (name a) (manufacturer a)
     (model a) (serial_number a) (purchase_date a) (purchase_price a)
     (warranty_end a) (vendor a) (po_number a) (status a) (assigned_to a)
     v (decommission_date a) (decommission_reason a) (notes a)
     (location a).

Definition set_decommission_date (a : t) (v : option date) : t :=
  mk (id a) (asset_tag a) (asset_type a) (name a) (manufacturer a)
     (model a) (serial_number a) (purchase_date a) (purchase_price a)
     (warranty_end a) (vendor a) (po_number a) (status a) (assigned_to a)
     (assigned_date a) v (decommission_reason a) (notes a) (location a).

Definition set_decommission_reason (a : t) (v : option string) : t :=
  mk (id a) (asset_tag a) (asset_type a) (name a) (manufacturer a)
     (model a) (serial_number a) (purchase_date a) (purchase_price a)
     (warranty_end a) (vendor a) (po_number a) (status a) (assigned_to a)
     (assigned_date a) (decommission_date a) v (notes a) (location a).

Definition set_notes (a : t) (v : option string) : t :=
  mk (id a) (asset_tag a) (asset_type a) (name a) (manufacturer a)
     (model a) (serial_number a) (purchase_date a) (purchase_price a)
     (warranty_end a) (vendor a) (po_number a) (status a) (assigned_to a)
     (assigned_date a) (decommission_date a) (decommission_reason a) v
     (location a).

Definition set_location (a : t) (v : option string) : t :=
  mk (id a) (asset_tag a) (asset_type a) (name a) (manufacturer a)
     (model a) (serial_number a) (purchase_date a) (purchase_price a)
     (warranty_end a) (vendor a) (po_number a) (status a) (assigned_to a)
     (assigned_date a) (decommission_date a) (decommission_reason a)
     (notes a) v.
End Asset.

Module Repair.
(** [id] is [None] until the row is flushed. *)
Record t := mk {
  id : option Z;
  asset_id : Z;
  repair_date : date;
  issue_description : string;
  resolution : option string;
  cost : float;
  is_warranty_repair : bool;
  vendor : option string;
  ticket_number : option string
}.
End Repair.

(** Python values that reach [json.dumps] through [log_action].
    [PEnum cls member] is a member of one of the [str]-based enums of
    [app/models.py]; [PStrOf v] is the text [str(v)]. *)
#[local] Set Warnings "-register-all".
Inductive pyval :=
| PNone
| PBool (b : bool)
| PInt (z : Z)
| PFloat (f : float)
| PStr (s : string)
| PDate (d : date)
| PEnum (cls member : string)
| PStrOf (v : pyval)
| PDict (items : list (string * pyval)).

Module AuditLog.
(** [changes] holds the JSON document written by [json.dumps],
    represented by the value it encodes. *)
Record t := mk {
  user_id : option Z;
  asset_id : option Z;
  action : string;
  entity_type : string;
  entity_id : option Z;
  changes : option pyval
}.
End AuditLog.

Module WarrantyNotification.
Record t := mk {
  asset_id : Z;
  notification_type : string;
  sent_at : datetime
}.
End WarrantyNotification.

(** The database: one list per table. *)
Record Db := mkDb {
  users : list User.t;
  employees : list Employee.t;
  assets : list Asset.t;
  repairs : list Repair.t;
  audit_logs : list AuditLog.t;
  warranty_notifications : list WarrantyNotification.t
}.

Definition set_assets (db : Db) (l : list Asset.t) : Db :=
  mkDb (users db) (employees db) l (repairs db) (audit_logs db)
       (warranty_notifications db).

Definition set_repairs (db : Db) (l : list Repair.t) : Db :=
  mkDb (users db) (employees db) (assets db) l (audit_logs db)
       (warranty_notifications db).

Definition set_audit_logs (db : Db) (l : list AuditLog.t) : Db :=
  mkDb (users db) (employees db) (assets db) (repairs db) l
       (warranty_notifications db).

Definition set_warranty_notifications
    (db : Db) (l : list WarrantyNotification.t) : Db :=
  mkDb (users db) (employees db) (assets db) (repairs db) (audit_logs db) l.

(** [db.query(Asset).filter(Asset.id == asset_id).first()] *)
Definition query_asset (db : Db) (asset_id : Z) : option Asset.t :=
  find (fun a => Asset.id a =? asset_id) (assets db).

(** [db.query(Employee).filter(Employee.id == employee_id).first()] *)
Definition query_employee (db : Db) (employee_id : Z) : option Employee.t :=
  find (fun e => Employee.id e =? employee_id) (employees db).

(** The relationship [Asset.assigned_employee]: the employee row the
    foreign key [assigned_to] points at, if any. *)
Definition assigned_employee (db : Db) (a : Asset.t) : option Employee.t :=
  match Asset.assigned_to a with
  | Some e => query_employee db e
  | None => None
  end.

(* ================================================================== *)
(** ** app/services/warranty_service.py *)

Module WarrantyNotificationService.

(** The dictionary [asset_data] handed to the mail template.  The text
    of [warranty_end.isoformat()] is represented by the date it prints. *)
Record AssetData := mkAssetData {
  data_asset_tag : string;
  data_name : option string;
  data_serial_number : option string;
  data_warranty_end : date;
  data_days_remaining : Z;
  data_assigned_to : option string
}.

(** The dictionary [asset_info] of the dashboard summary. *)
Record AssetInfo := mkAssetInfo {
  info_id : Z;
  info_asset_tag : string;
  info_name : option string;
  info_warranty_end : date;
  info_days_remaining : Z;
  info_assigned_to : option string
}.

(** One call of [email_service.send_warranty_alert] and its answer. *)
Record Delivery := mkDelivery {
  to_emails : list string;
  alert_assets : list AssetData;
  alert_type : string;
  success : bool
}.

(** The mail service, as the run sees it: [send_warranty_alert] returns
    a boolean and raises nothing ([send_email] answers [False] when it
    is not configured or when the SMTP exchange fails). *)
Definition Mailer := list string -> list AssetData -> string -> bool.

Definition get_admin_emails (db : Db) : list string :=
  map User.email
    (filter
       (fun u =>
          match User.role u, User.is_active u with
          | Some r, Some true =>
              UserRole_eqb r ADMIN || UserRole_eqb r TECHNICIAN
          | _, _ => false
          end)
       (users db)).

Definition check_warranty_already_notified
    (db : Db) (utcnow : datetime)
    (asset_id : Z) (notification_type : string) (days_lookback : Z) : bool :=
  let cutoff := utcnow - timedelta_days days_lookback in
  let existing :=
    find
      (fun n =>
         (WarrantyNotification.asset_id n =? asset_id)
         && String.eqb (WarrantyNotification.notification_type n)
                       notification_type
         && (cutoff <=? WarrantyNotification.sent_at n))
      (warranty_notifications db) in
  match existing with Some _ => true | None => false end.

(** [sent_at] is filled by the column's server default, the time of
    the insertion. *)
Definition record_notification
    (db : Db) (now : datetime) (asset_id : Z) (notification_type : string)
    : Db :=
  set_warranty_notifications db
    (warranty_notifications db
       ++ [WarrantyNotification.mk asset_id notification_type now]).

(** The query shared by the alert run and the summary.  In SQL a row
    whose [status] is NULL does not satisfy [status != 'decommissioned']. *)
Definition warranty_candidates (db : Db) : list Asset.t :=
  filter
    (fun a =>
       match Asset.status a, Asset.warranty_end a with
       | Some s, Some _ => negb (AssetStatus_eqb s DECOMMISSIONED)
       | _, _ => false
       end)
    (assets db).

Definition full_name_of (e : option Employee.t) : option string :=
  match e with
  | Some e => Some (Employee.full_name e)
  | None => None
  end.

Definition asset_data_of
    (db : Db) (asset : Asset.t) (warranty_end : date) (days_remaining : Z)
    : AssetData :=
  mkAssetData (Asset.asset_tag asset) (Asset.name asset)
    (Asset.serial_number asset) warranty_end days_remaining
    (full_name_of (assigned_employee db asset)).

(** The three lists the first loop fills. *)
Record Batches := mkBatches {
  expiring_90 : list (Asset.t * AssetData);
  expiring_30 : list (Asset.t * AssetData);
  expired : list (Asset.t * AssetData)
}.

Definition no_batches : Batches := mkBatches [] [] [].

(** Body of [for asset in assets] in [check_and_send_warranty_alerts].
    [None] is the [TypeError] of [None - today]. *)
Definition classify_asset
    (db : Db) (today : date) (utcnow : datetime)
    (acc : Batches) (asset : Asset.t) : option Batches :=
  match Asset.warranty_end asset with
  | None => None
  | Some warranty_end =>
      let days_remaining := warranty_end - today in
      let asset_data := asset_data_of db asset warranty_end days_remaining in
      if days_remaining <? 0 then
        if negb (check_warranty_already_notified
                   db utcnow (Asset.id asset) "expired" 30)
        then Some (mkBatches (expiring_90 acc) (expiring_30 acc)
                             (expired acc ++ [(asset, asset_data)]))
        else Some acc
      else if days_remaining <=? 30 then
        if negb (check_warranty_already_notified
                   db utcnow (Asset.id asset) "30_day" 7)
        then Some (mkBatches (expiring_90 acc)
                             (expiring_30 acc ++ [(asset, asset_data)])
                             (expired acc))
        else Some acc
      else if days_remaining <=? 90 then
        if negb (check_warranty_already_notified
                   db utcnow (Asset.id asset) "90_day" 14)
        then Some (mkBatches (expiring_90 acc ++ [(asset, asset_data)])
                             (expiring_30 acc) (expired acc))
        else Some acc
      else Some acc
  end.

Fixpoint classify_assets
    (db : Db) (today : date) (utcnow : datetime)
    (acc : Batches) (assets : list Asset.t) : option Batches :=
  match assets with
  | [] => Some acc
  | asset :: rest =>
      match classify_asset db today utcnow acc asset with
      | Some acc' => classify_assets db today utcnow acc' rest
      | None => None
      end
  end.

(** [for asset, _ in batch: record_notification(db, asset.id, ty)] *)
Definition record_batch
    (db : Db) (now : datetime)
    (batch : list (Asset.t * AssetData)) (notification_type : string) : Db :=
  fold_left
    (fun db entry => record_notification db now (Asset.id (fst entry))
                       notification_type)
    batch db.

(** One of the three blocks [if batch: success = await send(...);
    if success: for ...: record_notification(...)]. *)
Definition send_and_record
    (send : Mailer) (now : datetime) (admin_emails : list string)
    (batch : list (Asset.t * AssetData))
    (alert : string) (notification_type : string)
    (st : Db * list Delivery) : Db * list Delivery :=
  let (db, sent) := st in
  match batch with
  | [] => (db, sent)
  | _ :: _ =>
      let data := map snd batch in
      let ok := send admin_emails data alert in
      let sent' := sent ++ [mkDelivery admin_emails data alert ok] in
      if ok then (record_batch db now batch notification_type, sent')
      else (db, sent')
  end.

(** The batches of a run started on [db]. *)
Definition alert_batches
    (db : Db) (today : date) (utcnow : datetime) : option Batches :=
  classify_assets db today utcnow no_batches (warranty_candidates db).

(** One run: the database it leaves and the mails it asked for.  The
    run is taken to happen at one instant [now], which is both the
    reading of [datetime.utcnow()] in the cooldown checks and the
    [sent_at] of the rows it writes. *)
Definition check_and_send_warranty_alerts
    (send : Mailer) (today : date) (now : datetime) (db : Db)
    : Db * list Delivery :=
  match alert_batches db today now with
  | None => (db, [])
  | Some b =>
      let admin_emails := get_admin_emails db in
      match admin_emails with
      | [] => (db, [])
      | _ :: _ =>
          let st := (db, []) in
          let st := send_and_record send now admin_emails
                      (expired b) "expired" "expired" st in
          let st := send_and_record send now admin_emails
                      (expiring_30 b) "expiring_30" "30_day" st in
          let st := send_and_record send now admin_emails
                      (expiring_90 b) "expiring_90" "90_day" st in
          st
      end
  end.

(** The dictionary built by [get_warranty_summary]. *)
Record Summary := mkSummary {
  summary_expired : list AssetInfo;
  summary_critical_30 : list AssetInfo;
  summary_warning_90 : list AssetInfo;
  summary_active : list AssetInfo
}.

Definition asset_info_of
    (db : Db) (asset : Asset.t) (warranty_end : date) (days_remaining : Z)
    : AssetInfo :=
  mkAssetInfo (Asset.id asset) (Asset.asset_tag asset) (Asset.name asset)
    warranty_end days_remaining
    (full_name_of (assigned_employee db asset)).

(** Body of [for asset in assets] in [get_warranty_summary]. *)
Definition summarise_asset
    (db : Db) (today : date) (summary : Summary) (asset : Asset.t)
    : option Summary :=
  match Asset.warranty_end asset with
  | None => None
  | Some warranty_end =>
      let days_remaining := warranty_end - today in
      let asset_info := asset_info_of db asset warranty_end days_remaining in
      if days_remaining <? 0 then
        Some (mkSummary (summary_expired summary ++ [asset_info])
                (summary_critical_30 summary) (summary_warning_90 summary)
                (summary_active summary))
      else if days_remaining <=? 30 then
        Some (mkSummary (summary_expired summary)
                (summary_critical_30 summary ++ [asset_info])
                (summary_warning_90 summary) (summary_active summary))
      else if days_remaining <=? 90 then
        Some (mkSummary (summary_expired summary)
                (summary_critical_30 summary)
                (summary_warning_90 summary ++ [asset_info])
                (summary_active summary))
      else
        Some (mkSummary (summary_expired summary)
                (summary_critical_30 summary) (summary_warning_90 summary)
                (summary_active summary ++ [asset_info]))
  end.

Fixpoint summarise_assets
    (db : Db) (today : date) (summary : Summary) (assets : list Asset.t)
    : option Summary :=
  match assets with
  | [] => Some summary
  | asset :: rest =>
      match summarise_asset db today summary asset with
      | Some summary' => summarise_assets db today summary' rest
      | None => None
      end
  end.

Definition get_warranty_summary (db : Db) (today : date) : option Summary :=
  summarise_assets db today (mkSummary [] [] [] []) (warranty_candidates db).

End WarrantyNotificationService.

(* ================================================================== *)
(** ** app/schemas.py *)

Module AssetUpdate.
(** Every field is [Optional[...] = None].  The outer [option] tells
    whether the request set the field at all, which is what
    [model_dump(exclude_unset=True)] looks at; the inner one is the
    value, [None] for an explicit null. *)
Record t := mk {
  asset_type : option (option AssetType);
  name : option (option string);
  manufacturer : option (option string);
  model : option (option string);
  serial_number : option (option string);
  purchase_date : option (option date);
  purchase_price : option (option float);
  warranty_end : option (option date);
  vendor : option (option string);
  po_number : option (option string);
  notes : option (option string);
  location : option (option string);
  status : option (option AssetStatus)
}.

(** One entry of the dictionary [model_dump] returns: the field it is
    keyed by, with its value. *)
Inductive item :=
| K_asset_type (value : option AssetType)
| K_name (value : option string)
| K_manufacturer (value : option string)
| K_model (value : option string)
| K_serial_number (value : option string)
| K_purchase_date (value : option date)
| K_purchase_price (value : option float)
| K_warranty_end (value : option date)
| K_vendor (value : option string)
| K_po_number (value : option string)
| K_notes (value : option string)
| K_location (value : option string)
| K_status (value : option AssetStatus).

Definition entry {A} (k : A -> item) (field : option A) : list item :=
  match field with
  | Some value => [k value]
  | None => []
  end.

(** [update_data.model_dump(exclude_unset=True)], in field order. *)
Definition model_dump_exclude_unset (u : t) : list item :=
  entry K_asset_type (asset_type u) ++ entry K_name (name u)
  ++ entry K_manufacturer (manufacturer u) ++ entry K_model (model u)
  ++ entry K_serial_number (serial_number u)
  ++ entry K_purchase_date (purchase_date u)
  ++ entry K_purchase_price (purchase_price u)
  ++ entry K_warranty_end (warranty_end u)
  ++ entry K_vendor (vendor u) ++ entry K_po_number (po_number u)
  ++ entry K_notes (notes u) ++ entry K_location (location u)
  ++ entry K_status (status u).
End AssetUpdate.

Module AssetAssign.
Record t := mk { employee_id : option Z }.
End AssetAssign.

Module AssetDecommission.
Record t := mk { reason : string }.

(** [reason: str = Field(..., min_length=10)]: the request body is
    turned into the schema, or refused. *)
Definition model_validate (reason : string) : option t :=
  if (String.length reason <? 10)%nat then None else Some (mk reason).
End AssetDecommission.

Module RepairCreate.
Record t := mk {
  repair_date : date;
  issue_description : string;
  resolution : option string;
  cost : float;
  is_warranty_repair : bool;
  vendor : option string;
  ticket_number : option string;
  asset_id : Z
}.

Definition py_opt_str (s : option string) : pyval :=
  match s with Some s => PStr s | None => PNone end.

(** [repair_data.model_dump()]: the dictionary of the fields as Python
    values, in declaration order (those of [RepairBase] first); the
    value of [repair_date] is a [datetime.date]. *)
Definition model_dump (r : t) : list (string * pyval) :=
  [("repair_date", PDate (repair_date r));
   ("issue_description", PStr (issue_description r));
   ("resolution", py_opt_str (resolution r));
   ("cost", PFloat (cost r));
   ("is_warranty_repair", PBool (is_warranty_repair r));
   ("vendor", py_opt_str (vendor r));
   ("ticket_number", py_opt_str (ticket_number r));
   ("asset_id", PInt (asset_id r))].
End RepairCreate.

(* ================================================================== *)
(** ** app/routes/assets.py *)

Module Routes.

(** What a request can end with instead of a response. *)
Inductive exn :=
| HTTPException (status_code : Z) (detail : string)
| RequestValidationError (detail : string)
| TypeError (msg : string)
| AttributeError (msg : string)
| IntegrityError (msg : string).

(** The arguments of a call of
    [email_service.send_assignment_notification]. *)
Record AssignmentMail := mkAssignmentMail {
  employee_email : string;
  employee_name : string;
  mail_name : option string;
  mail_asset_tag : string;
  mail_asset_type : string;
  mail_serial_number : option string;
  mail_assigned_date : date
}.

(** A handler runs on the session [get_db] yields and may call the
    mail service: [outbox] holds the notices it asked for, in order.
    Whether a notice goes out is decided by the mail service
    ([EmailService.send_assignment_notification] below); the handlers
    drop its answer.  Every handler below commits once, as its last
    write, so a request that raises leaves the database as it found it,
    while the calls it made stay made. *)
Record World := mkWorld { session : Db; outbox : list AssignmentMail }.

Inductive Result (A : Type) :=
| Returned (a : A) (w : World)
| Raised (e : exn) (mails : list AssignmentMail).
Arguments Returned {A} a w.
Arguments Raised {A} e mails.

Definition M (A : Type) := World -> Result A.

Definition ret {A} (a : A) : M A := fun w => Returned a w.

Definition bind {A B} (c : M A) (k : A -> M B) : M B :=
  fun w =>
    match c w with
    | Returned a w' => k a w'
    | Raised e mails => Raised e mails
    end.

Definition raise {A} (e : exn) : M A := fun w => Raised e (outbox w).

Notation "x <- c ;; k" := (bind c (fun x => k))
  (at level 61, c at next level, right associativity).

(** Serving one request on the database [start]. *)
Definition serve {A} (handler : M A) (start : Db) : Result A :=
  handler (mkWorld start []).

(** The database once the request is over. *)
Definition durable {A} (start : Db) (r : Result A) : Db :=
  match r with
  | Returned _ w => session w
  | Raised _ _ => start
  end.

Definition HTTP_400_BAD_REQUEST : Z := 400.
Definition HTTP_404_NOT_FOUND : Z := 404.

Definition is_none {A} (x : option A) : bool :=
  match x with None => true | Some _ => false end.

(** Python's [!=] on two optional values. *)
Definition opt_ne {A} (eqb : A -> A -> bool) (x y : option A) : bool :=
  match x, y with
  | None, None => false
  | Some a, Some b => negb (eqb a b)
  | _, _ => true
  end.

(** Truth value of an optional integer: [None] and [0] are false. *)
Definition truthy_int (x : option Z) : bool :=
  match x with
  | Some n => negb (n =? 0)
  | None => false
  end.

(** [asset.status == s] *)
Definition status_is (asset : Asset.t) (s : AssetStatus) : bool :=
  negb (opt_ne AssetStatus_eqb (Asset.status asset) (Some s)).

(** [json.dumps] with its default encoder: it writes [None], booleans,
    numbers, strings (members of a [str]-based enum among them) and
    dictionaries of those, and raises [TypeError] on a
    [datetime.date]. *)
Fixpoint json_serialisable (v : pyval) : bool :=
  match v with
  | PDate _ => false
  | PDict items => forallb (fun kv => json_serialisable (snd kv)) items
  | _ => true
  end.

Definition json_dumps (d : list (string * pyval)) : option pyval :=
  if json_serialisable (PDict d) then Some (PDict d) else None.

Definition db_add_audit_log (log : AuditLog.t) : M unit :=
  fun w =>
    Returned tt
      (mkWorld (set_audit_logs (session w) (audit_logs (session w) ++ [log]))
               (outbox w)).

Definition db_add_repair (repair : Repair.t) : M unit :=
  fun w =>
    Returned tt
      (mkWorld (set_repairs (session w) (repairs (session w) ++ [repair]))
               (outbox w)).

(** [log_action]: [changes] is a dictionary or [None]; an empty
    dictionary is false. *)
Definition log_action
    (user_id : Z) (action entity_type : string) (entity_id : option Z)
    (changes : option (list (string * pyval))) (asset_id : option Z)
    : M unit :=
  match changes with
  | Some (kv :: items) =>
      match json_dumps (kv :: items) with
      | Some text =>
          db_add_audit_log
            (AuditLog.mk (Some user_id) asset_id action entity_type
                         entity_id (Some text))
      | None =>
          raise (TypeError "Object of type date is not JSON serializable")
      end
  | _ =>
      db_add_audit_log
        (AuditLog.mk (Some user_id) asset_id action entity_type
                     entity_id None)
  end.

Definition get_asset_or_404 (asset_id : Z) : M Asset.t :=
  fun w =>
    match query_asset (session w) asset_id with
    | Some asset => Returned asset w
    | None =>
        Raised (HTTPException HTTP_404_NOT_FOUND "Asset not found") (outbox w)
    end.

Definition get_employee_or_404 (employee_id : Z) : M Employee.t :=
  fun w =>
    match query_employee (session w) employee_id with
    | Some employee => Returned employee w
    | None =>
        Raised (HTTPException HTTP_404_NOT_FOUND "Employee not found")
               (outbox w)
    end.

Fixpoint replace_row (asset : Asset.t) (rows : list Asset.t) : list Asset.t :=
  match rows with
  | [] => []
  | row :: rest =>
      if Asset.id row =? Asset.id asset then asset :: rest
      else row :: replace_row asset rest
  end.

(** The constraints of [app/models.py] that an UPDATE of an asset row
    can break: [asset_type] and [name] are [nullable=False] and
    [serial_number] is [unique=True].  [loaded] is the row as it was
    read, [asset] the object at the flush. *)
Definition integrity_error (db : Db) (loaded asset : Asset.t) : bool :=
  (negb (is_none (Asset.asset_type loaded)) && is_none (Asset.asset_type asset))
  || (negb (is_none (Asset.name loaded)) && is_none (Asset.name asset))
  || match Asset.serial_number asset with
     | Some s =>
         opt_ne String.eqb (Asset.serial_number loaded) (Some s)
         && existsb
              (fun row =>
                 negb (Asset.id row =? Asset.id asset)
                 && negb (opt_ne String.eqb (Asset.serial_number row) (Some s)))
              (assets db)
     | None => false
     end.

Definition next_repair_id (rows : list Repair.t) : Z :=
  1 + fold_right Z.max 0
        (map (fun r => match Repair.id r with Some i => i | None => 0 end)
             rows).

Definition flush_repairs (rows : list Repair.t) : list Repair.t :=
  map (fun r =>
         match Repair.id r with
         | Some _ => r
         | None =>
             Repair.mk (Some (next_repair_id rows)) (Repair.asset_id r)
               (Repair.repair_date r) (Repair.issue_description r)
               (Repair.resolution r) (Repair.cost r)
               (Repair.is_warranty_repair r) (Repair.vendor r)
               (Repair.ticket_number r)
         end)
      rows.

(** [db.commit()]: the attribute changes made to the loaded asset are
    flushed to its row, the added rows get their keys. *)
Definition db_commit (loaded asset : Asset.t) : M unit :=
  fun w =>
    if integrity_error (session w) loaded asset then
      Raised (IntegrityError "constraint failed") (outbox w)
    else
      let db := session w in
      Returned tt
        (mkWorld
           (set_repairs
              (set_assets db (replace_row asset (assets db)))
              (flush_repairs (repairs db)))
           (outbox w)).

(** [await email_service.send_assignment_notification(...)], as the
    handler sees it: the call is made and its answer dropped. *)
Definition send_assignment_notification (mail : AssignmentMail) : M unit :=
  fun w => Returned tt (mkWorld (session w) (outbox w ++ [mail])).

(* ---------------------------------------------------------------- *)
(** *** update_asset *)

Definition py_opt {A} (py : A -> pyval) (x : option A) : pyval :=
  match x with Some a => py a | None => PNone end.

Definition AssetType_member (t : AssetType) : string :=
  match t with
  | LAPTOP => "LAPTOP" | MONITOR => "MONITOR" | DOCK => "DOCK"
  | HEADSET => "HEADSET" | CAMERA => "CAMERA" | KEYBOARD => "KEYBOARD"
  | MOUSE => "MOUSE" | OTHER => "OTHER"
  end.

Definition AssetStatus_member (s : AssetStatus) : string :=
  match s with
  | ACTIVE => "ACTIVE" | AVAILABLE => "AVAILABLE" | REPAIR => "REPAIR"
  | DECOMMISSIONED => "DECOMMISSIONED"
  end.

Definition py_AssetType (t : AssetType) : pyval :=
  PEnum "AssetType" (AssetType_member t).

Definition py_AssetStatus (s : AssetStatus) : pyval :=
  PEnum "AssetStatus" (AssetStatus_member s).

(** Body of [for field, value in update_dict.items()] for one
    attribute: compare, record the change, set. *)
Definition update_attr {A}
    (eqb : A -> A -> bool) (py : A -> pyval) (field : string)
    (getattr : Asset.t -> option A)
    (setattr : Asset.t -> option A -> Asset.t)
    (value : option A)
    (st : Asset.t * list (string * pyval))
    : Asset.t * list (string * pyval) :=
  let (asset, changes) := st in
  let old_value := getattr asset in
  if opt_ne eqb old_value value then
    (setattr asset value,
     changes
       ++ [(field, PDict [("old", PStrOf (py_opt py old_value));
                          ("new", PStrOf (py_opt py value))])])
  else (asset, changes).

Definition float_eqb (x y : float) : bool := PrimFloat.eqb x y.

Definition update_item
    (st : Asset.t * list (string * pyval)) (it : AssetUpdate.item)
    : Asset.t * list (string * pyval) :=
  match it with
  | AssetUpdate.K_asset_type value =>
      update_attr AssetType_eqb py_AssetType "asset_type"
        Asset.asset_type Asset.set_asset_type value st
  | AssetUpdate.K_name value =>
      update_attr String.eqb PStr "name" Asset.name Asset.set_name value st
  | AssetUpdate.K_manufacturer value =>
      update_attr String.eqb PStr "manufacturer"
        Asset.manufacturer Asset.set_manufacturer value st
  | AssetUpdate.K_model value =>
      update_attr String.eqb PStr "model" Asset.model Asset.set_model value st
  | AssetUpdate.K_serial_number value =>
      update_attr String.eqb PStr "serial_number"
        Asset.serial_number Asset.set_serial_number value st
  | AssetUpdate.K_purchase_date value =>
      update_attr Z.eqb PDate "purchase_date"
        Asset.purchase_date Asset.set_purchase_date value st
  | AssetUpdate.K_purchase_price value =>
      update_attr float_eqb PFloat "purchase_price"
        Asset.purchase_price Asset.set_purchase_price value st
  | AssetUpdate.K_warranty_end value =>
      update_attr Z.eqb PDate "warranty_end"
        Asset.warranty_end Asset.set_warranty_end value st
  | AssetUpdate.K_vendor value =>
      update_attr String.eqb PStr "vendor" Asset.vendor Asset.set_vendor
        value st
  | AssetUpdate.K_po_number value =>
      update_attr String.eqb PStr "po_number"
        Asset.po_number Asset.set_po_number value st
  | AssetUpdate.K_notes value =>
      update_attr String.eqb PStr "notes" Asset.notes Asset.set_notes value st
  | AssetUpdate.K_location value =>
      update_attr String.eqb PStr "location"
        Asset.location Asset.set_location value st
  | AssetUpdate.K_status value =>
      update_attr AssetStatus_eqb py_AssetStatus "status"
        Asset.status Asset.set_status value st
  end.

Definition update_asset
    (asset_id : Z) (update_data : AssetUpdate.t) (current_user : User.t)
    : M Asset.t :=
  loaded <- get_asset_or_404 asset_id ;;
  let update_dict := AssetUpdate.model_dump_exclude_unset update_data in
  let (asset, changes) := fold_left update_item update_dict (loaded, []) in
  _ <- match changes with
       | [] => ret tt
       | _ :: _ =>
           log_action (User.id current_user) "UPDATE" "asset"
             (Some (Asset.id asset)) (Some changes) (Some (Asset.id asset))
       end ;;
  _ <- db_commit loaded asset ;;
  ret asset.

(* ---------------------------------------------------------------- *)
(** *** assign_asset *)

Definition py_opt_int (x : option Z) : pyval := py_opt PInt x.

Definition assign_asset
    (today : date) (asset_id : Z) (assignment : AssetAssign.t)
    (current_user : User.t) : M Asset.t :=
  loaded <- get_asset_or_404 asset_id ;;
  if status_is loaded DECOMMISSIONED then
    raise (HTTPException HTTP_400_BAD_REQUEST
             "Cannot assign decommissioned asset")
  else
    let old_employee_id := Asset.assigned_to loaded in
    let unassign :=
      (* Unassign *)
      ret (Asset.set_status
             (Asset.set_assigned_date
                (Asset.set_assigned_to loaded None) None)
             (Some AVAILABLE)) in
    let assign_to (employee_id : Z) :=
      (* Assign to employee *)
      employee <- get_employee_or_404 employee_id ;;
      let asset :=
        Asset.set_status
          (Asset.set_assigned_date
             (Asset.set_assigned_to loaded (Some (Employee.id employee)))
             (Some today))
          (Some ACTIVE) in
      match Asset.asset_type asset with
      | None =>
          raise (AttributeError
                   "'NoneType' object has no attribute 'value'")
      | Some asset_type =>
          _ <- send_assignment_notification
                 (mkAssignmentMail
                    (Employee.email employee)
                    (Employee.full_name employee)
                    (Asset.name asset) (Asset.asset_tag asset)
                    (AssetType_value asset_type)
                    (Asset.serial_number asset) today) ;;
          ret asset
      end in
    asset <-
      (* [if assignment.employee_id:] is false for [None] and for [0] *)
      match AssetAssign.employee_id assignment with
      | Some employee_id =>
          if employee_id =? 0 then unassign else assign_to employee_id
      | None => unassign
      end ;;
    _ <- log_action (User.id current_user) "ASSIGN" "asset"
           (Some (Asset.id asset))
           (Some [("old_employee_id", py_opt_int old_employee_id);
                  ("new_employee_id",
                   py_opt_int (AssetAssign.employee_id assignment))])
           (Some (Asset.id asset)) ;;
    _ <- db_commit loaded asset ;;
    ret asset.

(* ---------------------------------------------------------------- *)
(** *** decommission_asset *)

Definition decommission_asset
    (today : date) (asset_id : Z) (decommission_data : AssetDecommission.t)
    (current_user : User.t) : M Asset.t :=
  loaded <- get_asset_or_404 asset_id ;;
  if status_is loaded DECOMMISSIONED then
    raise (HTTPException HTTP_400_BAD_REQUEST
             "Asset is already decommissioned")
  else
    let asset :=
      Asset.set_assigned_date
        (Asset.set_assigned_to
           (Asset.set_decommission_reason
              (Asset.set_decommission_date
                 (Asset.set_status loaded (Some DECOMMISSIONED))
                 (Some today))
              (Some (AssetDecommission.reason decommission_data)))
           None)
        None in
    _ <- log_action (User.id current_user) "DECOMMISSION" "asset"
           (Some (Asset.id asset))
           (Some [("reason",
                   PStr (AssetDecommission.reason decommission_data))])
           (Some (Asset.id asset)) ;;
    _ <- db_commit loaded asset ;;
    ret asset.

(** The route [POST /assets/{asset_id}/decommission] on a request
    body that gives [reason] as a string: the framework builds the
    [AssetDecommission] the handler is declared to take, and answers
    422 without calling the handler when it cannot. *)
Definition post_decommission
    (today : date) (asset_id : Z) (reason : string) (current_user : User.t)
    : M Asset.t :=
  match AssetDecommission.model_validate reason with
  | None =>
      raise (RequestValidationError
               "String should have at least 10 characters")
  | Some decommission_data =>
      decommission_asset today asset_id decommission_data current_user
  end.

(* ---------------------------------------------------------------- *)
(** *** add_repair *)

(** The handler up to and including the status assignment: the
    repair is added to the session and the loaded asset object is
    modified.  Returns the asset as loaded, the asset object and the
    repair. *)
Definition add_repair_session
    (asset_id : Z) (repair_data : RepairCreate.t)
    : M (Asset.t * Asset.t * Repair.t) :=
  loaded <- get_asset_or_404 asset_id ;;
  let repair :=
    Repair.mk None asset_id
      (RepairCreate.repair_date repair_data)
      (RepairCreate.issue_description repair_data)
      (RepairCreate.resolution repair_data)
      (RepairCreate.cost repair_data)
      (RepairCreate.is_warranty_repair repair_data)
      (RepairCreate.vendor repair_data)
      (RepairCreate.ticket_number repair_data) in
  _ <- db_add_repair repair ;;
  (* Optionally set asset to repair status *)
  let asset :=
    if negb (status_is loaded DECOMMISSIONED)
    then Asset.set_status loaded (Some REPAIR)
    else loaded in
  ret (loaded, asset, repair).

(** The whole handler.  [repair.id] is still [None] when the audit
    entry is built, and the entry's [changes] is
    [repair_data.model_dump()]. *)
Definition add_repair
    (asset_id : Z) (repair_data : RepairCreate.t) (current_user : User.t)
    : M Repair.t :=
  staged <- add_repair_session asset_id repair_data ;;
  let '(loaded, asset, repair) := staged in
  _ <- log_action (User.id current_user) "CREATE" "repair"
         (Repair.id repair)
         (Some (RepairCreate.model_dump repair_data))
         (Some (Asset.id asset)) ;;
  _ <- db_commit loaded asset ;;
  fun w =>
    match rev (repairs (session w)) with
    | stored :: _ => Returned stored w
    | [] => Returned repair w
    end.

(* ---------------------------------------------------------------- *)
(** *** mark_asset_fixed *)

Definition mark_asset_fixed (asset_id : Z) (current_user : User.t)
    : M Asset.t :=
  loaded <- get_asset_or_404 asset_id ;;
  if negb (status_is loaded REPAIR) then
    raise (HTTPException HTTP_400_BAD_REQUEST
             "Asset is not in repair status")
  else
    let asset :=
      Asset.set_status loaded
        (Some (if truthy_int (Asset.assigned_to loaded)
               then ACTIVE else AVAILABLE)) in
    _ <- log_action (User.id current_user) "MARK_FIXED" "asset"
           (Some (Asset.id asset)) None (Some (Asset.id asset)) ;;
    _ <- db_commit loaded asset ;;
    ret asset.

End Routes.

(* ================================================================== *)
(** ** app/routes/employees.py *)

Module EmployeeRoutes.
Import Routes.

Definition set_employees (db : Db) (l : list Employee.t) : Db :=
  mkDb (users db) l (assets db) (repairs db) (audit_logs db)
       (warranty_notifications db).

(** [employee.is_active = False] *)
Definition deactivated (e : Employee.t) : Employee.t :=
  Employee.mk (Employee.id e) (Employee.employee_id e) (Employee.email e)
    (Employee.full_name e) (Employee.department e) (Employee.location e)
    (Employee.manager e) (Some false).

Fixpoint replace_employee (employee : Employee.t) (rows : list Employee.t)
    : list Employee.t :=
  match rows with
  | [] => []
  | row :: rest =>
      if Employee.id row =? Employee.id employee then employee :: rest
      else row :: replace_employee employee rest
  end.

(** The filter [Asset.assigned_to == employee_id]; a NULL matches no id. *)
Definition assigned_to_is (employee_id : Z) (a : Asset.t) : bool :=
  match Asset.assigned_to a with
  | Some e => e =? employee_id
  | None => false
  end.

(** [db.query(Asset).filter(Asset.assigned_to == employee_id).update(
    {"assigned_to": None, "assigned_date": None, "status": "available"})] *)
Definition unassign_all (employee_id : Z) (rows : list Asset.t) : list Asset.t :=
  map (fun a =>
         if assigned_to_is employee_id a then
           Asset.set_status
             (Asset.set_assigned_date (Asset.set_assigned_to a None) None)
             (Some AVAILABLE)
         else a)
      rows.

Definition delete_employee (employee_id : Z) (current_user : User.t) : M unit :=
  employee <- get_employee_or_404 employee_id ;;
  fun w =>
    let db := session w in
    (* Unassign all assets from this employee *)
    let db := set_assets db (unassign_all employee_id (assets db)) in
    (* Soft delete *)
    let db :=
      set_employees db (replace_employee (deactivated employee) (employees db)) in
    Returned tt (mkWorld db (outbox w)).

Definition get_employee_assets (employee_id : Z) (current_user : User.t)
    : M (list Asset.t) :=
  _ <- get_employee_or_404 employee_id ;;
  fun w =>
    Returned (filter (assigned_to_is employee_id) (assets (session w))) w.

End EmployeeRoutes.

(* ================================================================== *)
(** ** app/routes/dashboard.py *)

Module Dashboard.
Import WarrantyNotificationService.

(** What a handler of the dashboard can end with instead of a
    response: an exception of the kinds the asset handlers know, or the
    [ValidationError] pydantic raises from [model_validate]. *)
Inductive Failure :=
| RouteError (e : Routes.exn)
| PydanticValidationError (detail : string).

Inductive Response (A : Type) :=
| Ok (a : A)
| Failed (e : Failure).
Arguments Ok {A} a.
Arguments Failed {A} e.

Record DashboardStats := mkDashboardStats {
  total_assets : Z;
  active_assets : Z;
  available_assets : Z;
  in_repair : Z;
  decommissioned : Z;
  warranties_expiring_30 : Z;
  warranties_expiring_90 : Z;
  warranties_expired : Z;
  total_repair_costs : float;
  assets_by_type : list (string * Z)
}.

(** [db.query(func.count(Asset.id)).filter(Asset.status == s).scalar()];
    a row whose [status] is NULL satisfies no such filter. *)
Definition count_status (db : Db) (s : AssetStatus) : Z :=
  Z.of_nat (List.length (filter (fun a => Routes.status_is a s) (assets db))).

(** The three counters of the loop of [get_dashboard_stats]. *)
Record WarrantyCounts := mkWarrantyCounts {
  warranties_30 : Z;
  warranties_90 : Z;
  warranties_expired_count : Z
}.

(** Body of [for asset in active_assets].  [None] is the [TypeError]
    of [None - today]. *)
Definition count_warranty
    (today : date) (acc : WarrantyCounts) (asset : Asset.t)
    : option WarrantyCounts :=
  match Asset.warranty_end asset with
  | None => None
  | Some warranty_end =>
      let days := warranty_end - today in
      if days <? 0 then
        Some (mkWarrantyCounts (warranties_30 acc) (warranties_90 acc)
                               (warranties_expired_count acc + 1))
      else if days <=? 30 then
        Some (mkWarrantyCounts (warranties_30 acc + 1) (warranties_90 acc)
                               (warranties_expired_count acc))
      else if days <=? 90 then
        Some (mkWarrantyCounts (warranties_30 acc) (warranties_90 acc + 1)
                               (warranties_expired_count acc))
      else Some acc
  end.

Fixpoint count_warranties
    (today : date) (acc : WarrantyCounts) (assets : list Asset.t)
    : option WarrantyCounts :=
  match assets with
  | [] => Some acc
  | asset :: rest =>
      match count_warranty today acc asset with
      | Some acc' => count_warranties today acc' rest
      | None => None
      end
  end.

(** SQL's [SUM] over a column of floats: NULL over no row; the order
    and the rounding of the additions are the database's. *)
Definition SqlSum := list float -> option float.

(** [float(total or 0)]: NULL and a zero of either sign give [0.0]. *)
Definition float_or_zero (total : option float) : float :=
  match total with
  | Some f => if PrimFloat.eqb f 0%float then 0%float else f
  | None => 0%float
  end.

Definition all_asset_types : list AssetType :=
  [LAPTOP; MONITOR; DOCK; HEADSET; CAMERA; KEYBOARD; MOUSE; OTHER].

(** The rows of the grouped query: the assets whose status is not
    NULL and not decommissioned. *)
Definition in_service (a : Asset.t) : bool :=
  match Asset.status a with
  | Some s => negb (AssetStatus_eqb s DECOMMISSIONED)
  | None => false
  end.

Definition has_type (t : AssetType) (a : Asset.t) : bool :=
  match Asset.asset_type a with
  | Some t' => AssetType_eqb t' t
  | None => false
  end.

(** [{t.value: count for t, count in type_counts}]: one key for each
    type that has a row.  The keys are listed in the order of the
    enumeration; SQL leaves the order of the groups open. *)
Definition type_counts (rows : list Asset.t) : list (string * Z) :=
  flat_map
    (fun t =>
       let count := Z.of_nat (List.length (filter (has_type t) rows)) in
       if 0 <? count then [(AssetType_value t, count)] else [])
    all_asset_types.

Definition get_dashboard_stats
    (sql_sum : SqlSum) (today : date) (db : Db) : Response DashboardStats :=
  (* Basic counts *)
  let total := Z.of_nat (List.length (assets db)) in
  let active := count_status db ACTIVE in
  let available := count_status db AVAILABLE in
  let in_repair := count_status db REPAIR in
  let decommissioned := count_status db DECOMMISSIONED in
  (* Warranty counts (excluding decommissioned) *)
  let active_assets := warranty_candidates db in
  match count_warranties today (mkWarrantyCounts 0 0 0) active_assets with
  | None =>
      Failed (RouteError (Routes.TypeError
        "unsupported operand type(s) for -: 'NoneType' and 'datetime.date'"))
  | Some counts =>
      (* Total repair costs *)
      let total_repair_costs := sql_sum (map Repair.cost (repairs db)) in
      (* Assets by type *)
      let rows := filter in_service (assets db) in
      if existsb (fun a => Routes.is_none (Asset.asset_type a)) rows then
        Failed (RouteError (Routes.AttributeError
          "'NoneType' object has no attribute 'value'"))
      else
        Ok (mkDashboardStats total active available in_repair decommissioned
              (warranties_30 counts) (warranties_90 counts)
              (warranties_expired_count counts)
              (float_or_zero total_repair_costs)
              (type_counts rows))
  end.

(** An [AssetResponse] read off a row: the row's columns, and the two
    fields the handler fills. *)
Record AssetResponse := mkAssetResponse {
  response_row : Asset.t;
  repair_count : Z;
  total_repair_cost : pyval
}.

Record WarrantyAlert := mkWarrantyAlert {
  alert_asset : AssetResponse;
  days_remaining : Z;
  alert_status : string
}.

(** The relationship [Asset.repairs]. *)
Definition repairs_of (db : Db) (asset : Asset.t) : list Repair.t :=
  filter (fun r => Repair.asset_id r =? Asset.id asset) (repairs db).

(** Python's [sum] over floats: the integer [0] over nothing; how the
    additions round depends on the interpreter. *)
Definition PySum := list float -> float.

Definition sum_costs (py_sum : PySum) (costs : list float) : pyval :=
  match costs with
  | [] => PInt 0
  | _ :: _ => PFloat (py_sum costs)
  end.

(** [AssetResponse.model_validate(asset)]: of the required fields,
    [asset_type], [name] and [status] can be missing in a row;
    [repair_count] and [total_repair_cost] take their default. *)
Definition model_validate (asset : Asset.t) : option AssetResponse :=
  match Asset.asset_type asset, Asset.name asset, Asset.status asset with
  | Some _, Some _, Some _ => Some (mkAssetResponse asset 0 (PInt 0))
  | _, _, _ => None
  end.

(** Body of [for asset in assets] in [get_warranty_alerts]. *)
Definition alert_asset_step
    (py_sum : PySum) (db : Db) (today : date)
    (alerts : list WarrantyAlert) (asset : Asset.t)
    : Response (list WarrantyAlert) :=
  match Asset.warranty_end asset with
  | None =>
      Failed (RouteError (Routes.TypeError
        "unsupported operand type(s) for -: 'NoneType' and 'datetime.date'"))
  | Some warranty_end =>
      let days := warranty_end - today in
      let status_label :=
        if days <? 0 then Some "expired"
        else if days <=? 30 then Some "critical"
        else if days <=? 90 then Some "warning"
        else None in
      match status_label with
      | None => Ok alerts  (* Skip assets with more than 90 days *)
      | Some status_label =>
          match model_validate asset with
          | None =>
              Failed (PydanticValidationError "Input should be a valid value")
          | Some asset_response =>
              let asset_response :=
                mkAssetResponse (response_row asset_response)
                  (Z.of_nat (List.length (repairs_of db asset)))
                  (sum_costs py_sum (map Repair.cost (repairs_of db asset))) in
              Ok (alerts ++ [mkWarrantyAlert asset_response days status_label])
          end
      end
  end.

Fixpoint alert_assets_loop
    (py_sum : PySum) (db : Db) (today : date)
    (alerts : list WarrantyAlert) (assets : list Asset.t)
    : Response (list WarrantyAlert) :=
  match assets with
  | [] => Ok alerts
  | asset :: rest =>
      match alert_asset_step py_sum db today alerts asset with
      | Ok alerts' => alert_assets_loop py_sum db today alerts' rest
      | Failed e => Failed e
      end
  end.

(** [alerts.sort(key=lambda x: x.days_remaining)].  [list.sort] is
    stable: it returns the one arrangement that is ordered by the key
    and keeps alerts of equal keys in the order they had. *)
Fixpoint insert_alert (x : WarrantyAlert) (sorted : list WarrantyAlert)
    : list WarrantyAlert :=
  match sorted with
  | [] => [x]
  | y :: rest =>
      if days_remaining x <=? days_remaining y then x :: y :: rest
      else y :: insert_alert x rest
  end.

Definition sort_alerts (alerts : list WarrantyAlert) : list WarrantyAlert :=
  fold_right insert_alert [] alerts.

Definition get_warranty_alerts
    (py_sum : PySum) (today : date) (db : Db) : Response (list WarrantyAlert) :=
  match alert_assets_loop py_sum db today [] (warranty_candidates db) with
  | Ok alerts => Ok (sort_alerts alerts)
  | Failed e => Failed e
  end.

End Dashboard.

(* ================================================================== *)
(** ** app/config.py *)

Module Settings.

(** The settings the mail service reads. *)
Record t := mk {
  SMTP_HOST : string;
  SMTP_PORT : Z;
  SMTP_USER : option string;
  SMTP_PASSWORD : option string;
  EMAIL_FROM : string;
  FRONTEND_URL : string
}.

(** The values of the class when neither the environment nor the
    [.env] file sets them. *)
Definition defaults : t :=
  mk "smtp.gmail.com" 587 None None
     "IT Asset Management <noreply@company.com>" "http://localhost:3000".

End Settings.

(* ================================================================== *)
(** ** app/services/email_service.py *)

Module EmailService.
Import WarrantyNotificationService.

Record t := mk {
  smtp_host : string;
  smtp_port : Z;
  smtp_user : option string;
  smtp_password : option string;
  email_from : string
}.

(** [EmailService.__init__] *)
Definition init (settings : Settings.t) : t :=
  mk (Settings.SMTP_HOST settings) (Settings.SMTP_PORT settings)
     (Settings.SMTP_USER settings) (Settings.SMTP_PASSWORD settings)
     (Settings.EMAIL_FROM settings).

(** Truth value of an [Optional[str]]. *)
Definition truthy_str (s : option string) : bool :=
  match s with
  | None => false
  | Some EmptyString => false
  | Some (String _ _) => true
  end.

(** [bool(self.smtp_user and self.smtp_password)] *)
Definition is_configured (self : t) : bool :=
  truthy_str (smtp_user self) && truthy_str (smtp_password self).

(** The pictograph a subject line opens with. *)
Inductive Pictograph := WARNING_SIGN | RED_CIRCLE | CROSS_MARK | PACKAGE.

(** A subject line: its pictograph and the text that follows it. *)
Record Subject := mkSubject {
  subject_prefix : Pictograph;
  subject_text : string
}.

(** The MIME message [send_email] builds; a part is a subtype and a
    content. *)
Record Message := mkMessage {
  message_from : string;
  message_to : string;
  message_subject : Subject;
  message_parts : list (string * string)
}.

(** What happens in the [try] block of [send_email] once the message
    is known: [true] when [aiosmtplib.send] returns, [false] when
    anything raises. *)
Definition Transport := t -> Message -> bool.

Definition send_email
    (transport : Transport) (self : t)
    (to_emails : list string) (subject : Subject) (html_content : string)
    (text_content : option string) : bool :=
  if negb (is_configured self) then false
  else
    let parts :=
      (match text_content with
       | Some text => if truthy_str text_content then [("plain", text)] else []
       | None => []
       end) ++ [("html", html_content)] in
    transport self
      (mkMessage (email_from self) (String.concat ", " to_emails) subject parts).

(** [str(n)] for an [int]. *)
Definition str_int (n : Z) : string := NilZero.string_of_int (Z.to_int n).

(** An element of [prepared_assets]: the dictionary of the asset with
    the three keys added. *)
Record PreparedAsset := mkPreparedAsset {
  prepared_data : AssetData;
  status_class : string;
  status_color : string;
  days_text : string
}.

(** Body of [for asset in assets] in [send_warranty_alert]; the
    dictionaries are those built by the alert run, which always hold
    the key [days_remaining]. *)
Definition prepare_asset (asset : AssetData) : PreparedAsset :=
  let days := data_days_remaining asset in
  if days <? 0 then
    mkPreparedAsset asset "critical" "#ef4444"
      ("Expired " ++ str_int (Z.abs days) ++ " days ago")
  else if days <=? 30 then
    mkPreparedAsset asset "critical" "#ef4444"
      (str_int days ++ " days remaining")
  else
    mkPreparedAsset asset "warning" "#f59e0b"
      (str_int days ++ " days remaining").

(** [alert_messages.get(alert_type, "require attention")] *)
Definition alert_message (alert_type : string) : string :=
  if String.eqb alert_type "expiring_90" then "will expire within 90 days"
  else if String.eqb alert_type "expiring_30" then "will expire within 30 days"
  else if String.eqb alert_type "expired" then "have already expired"
  else "require attention".

(** [subject_prefixes.get(alert_type, <warning sign>)] *)
Definition subject_prefix_of (alert_type : string) : Pictograph :=
  if String.eqb alert_type "expiring_90" then WARNING_SIGN
  else if String.eqb alert_type "expiring_30" then RED_CIRCLE
  else if String.eqb alert_type "expired" then CROSS_MARK
  else WARNING_SIGN.

(** The [status_color] handed to the template. *)
Definition alert_status_color (alert_type : string) : string :=
  if String.eqb alert_type "expiring_90" then "#f59e0b" else "#ef4444".

(** [Template(WARRANTY_EXPIRING_TEMPLATE).render(assets, alert_message,
    frontend_url, status_color)]: the text Jinja produces. *)
Definition Render :=
  list PreparedAsset -> string -> string -> string -> string.

Definition send_warranty_alert
    (transport : Transport) (render : Render) (settings : Settings.t)
    (self : t)
    (to_emails : list string) (assets : list AssetData) (alert_type : string)
    : bool :=
  let prepared_assets := map prepare_asset assets in
  let html_content :=
    render prepared_assets (alert_message alert_type)
      (Settings.FRONTEND_URL settings) (alert_status_color alert_type) in
  let subject :=
    mkSubject (subject_prefix_of alert_type)
      (" Warranty Alert: " ++ str_int (Z.of_nat (List.length assets))
       ++ " asset(s) " ++ alert_message alert_type) in
  send_email transport self to_emails subject html_content None.

(** [Template(ASSET_ASSIGNED_TEMPLATE).render(employee_name, asset,
    assigned_date)]: the text Jinja produces from the employee's name,
    the four entries of the [asset] dictionary ([name], [asset_tag],
    [asset_type], [serial_number]) and the date, whose [strftime] text
    is represented by the date it prints. *)
Definition RenderAssignment :=
  string -> option string -> string -> string -> option string -> date
  -> string.

(** An optional string as an f-string prints it. *)
Definition str_opt (s : option string) : string :=
  match s with
  | Some s => s
  | None => "None"
  end.

Definition send_assignment_notification
    (transport : Transport) (render : RenderAssignment) (self : t)
    (mail : Routes.AssignmentMail) : bool :=
  let html_content :=
    render (Routes.employee_name mail) (Routes.mail_name mail)
      (Routes.mail_asset_tag mail) (Routes.mail_asset_type mail)
      (Routes.mail_serial_number mail) (Routes.mail_assigned_date mail) in
  let subject :=
    mkSubject PACKAGE
      (" IT Equipment Assigned: " ++ str_opt (Routes.mail_name mail)) in
  send_email transport self [Routes.employee_email mail] subject html_content
             None.

(** The singleton [email_service = EmailService()], as the alert run
    calls it. *)
Definition email_service
    (transport : Transport) (render : Render) (settings : Settings.t)
    : Mailer :=
  send_warranty_alert transport render settings (init settings).

End EmailService.

(* ================================================================== *)
(** * Vocabulary of the properties *)

(** ** Warranty tiers, batches and history rows *)

Module WarrantySpec.
Import WarrantyNotificationService.

(** The three alert tiers, with the constants the alert run attaches
    to each: the batch it fills, the [notification_type] it checks and
    records, the [alert_type] it mails, and the [days_lookback] of its
    cooldown check. *)
Inductive Tier := TierExpired | TierCritical | TierWarning.

Definition tier_batch (t : Tier) (b : Batches) : list (Asset.t * AssetData) :=
  match t with
  | TierExpired => expired b
  | TierCritical => expiring_30 b
  | TierWarning => expiring_90 b
  end.

Definition tier_key (t : Tier) : string :=
  match t with
  | TierExpired => "expired"
  | TierCritical => "30_day"
  | TierWarning => "90_day"
  end.

Definition tier_alert (t : Tier) : string :=
  match t with
  | TierExpired => "expired"
  | TierCritical => "expiring_30"
  | TierWarning => "expiring_90"
  end.

Definition tier_lookback (t : Tier) : Z :=
  match t with
  | TierExpired => 30
  | TierCritical => 7
  | TierWarning => 14
  end.

(** The classification as the specification words it: expired below
    zero, critical from 0 to 30, warning from 31 to 90, nothing above. *)
Definition tier_of_days (days_remaining : Z) : option Tier :=
  if days_remaining <? 0 then Some TierExpired
  else if (0 <=? days_remaining) && (days_remaining <=? 30)
       then Some TierCritical
  else if (31 <=? days_remaining) && (days_remaining <=? 90)
       then Some TierWarning
  else None.

(** The cooldown check the run makes for an asset in tier [t]. *)
Definition under_cooldown
    (db : Db) (now : datetime) (asset_id : Z) (t : Tier) : bool :=
  check_warranty_already_notified db now asset_id (tier_key t)
    (tier_lookback t).

(** The history row the run writes for an asset of a delivered batch. *)
Definition history_row (now : datetime) (t : Tier)
    (entry : Asset.t * AssetData) : WarrantyNotification.t :=
  WarrantyNotification.mk (Asset.id (fst entry)) (tier_key t) now.

(** Condition under which the loop body appends to the batch of [t]. *)
Definition selects
    (db : Db) (now : datetime) (t : Tier) (days_remaining : Z) (a : Asset.t)
    : bool :=
  match t with
  | TierExpired =>
      (days_remaining <? 0)
      && negb (under_cooldown db now (Asset.id a) TierExpired)
  | TierCritical =>
      negb (days_remaining <? 0) && (days_remaining <=? 30)
      && negb (under_cooldown db now (Asset.id a) TierCritical)
  | TierWarning =>
      negb (days_remaining <? 0) && negb (days_remaining <=? 30)
      && (days_remaining <=? 90)
      && negb (under_cooldown db now (Asset.id a) TierWarning)
  end.

(** What the loop body appends to the batch of [t] for the asset [a]. *)
Definition row_if
    (db : Db) (today : date) (now : datetime) (t : Tier) (a : Asset.t)
    : list (Asset.t * AssetData) :=
  match Asset.warranty_end a with
  | Some we =>
      if selects db now t (we - today) a
      then [(a, asset_data_of db a we (we - today))]
      else []
  | None => []
  end.

Definition rows_of
    (db : Db) (today : date) (now : datetime) (t : Tier) (l : list Asset.t)
    : list (Asset.t * AssetData) :=
  flat_map (row_if db today now t) l.

(** What it means for a run with batches [b] to put the asset [a], whose
    warranty ends on [we], in the tier [tier] ([None]: in no tier).  The
    asset is in the batch of a tier exactly when that is its tier and no
    cooldown holds its alert back, and then with the [asset_data] that
    carries [days_remaining = we - today]. *)
Definition classified_as
    (db : Db) (today : date) (now : datetime) (b : Batches)
    (a : Asset.t) (we : date) (tier : option Tier) : Prop :=
  forall t d,
    In (a, d) (tier_batch t b) <->
    tier = Some t
    /\ under_cooldown db now (Asset.id a) t = false
    /\ d = asset_data_of db a we (we - today).

(** The notifier confirmed an alert of tier [t] in the mails [sent]. *)
Definition confirmed (sent : list Delivery) (t : Tier) : bool :=
  existsb (fun d => String.eqb (alert_type d) (tier_alert t) && success d) sent.

Definition batch_nonempty (b : Batches) (t : Tier) : bool :=
  match tier_batch t b with [] => false | _ :: _ => true end.

(** The notifier's answer for the batch of [t]. *)
Definition batch_ok
    (send : Mailer) (admins : list string) (b : Batches) (t : Tier) : bool :=
  send admins (map snd (tier_batch t b)) (tier_alert t).

(** The call of the notifier for the batch of [t], if it is not empty. *)
Definition attempt
    (send : Mailer) (admins : list string) (b : Batches) (t : Tier)
    : list Delivery :=
  if batch_nonempty b t
  then [mkDelivery admins (map snd (tier_batch t b)) (tier_alert t)
          (batch_ok send admins b t)]
  else [].

(** The history rows written for the batch of [t]. *)
Definition written
    (send : Mailer) (now : datetime) (admins : list string) (b : Batches)
    (t : Tier) : list WarrantyNotification.t :=
  if batch_nonempty b t && batch_ok send admins b t
  then map (history_row now t) (tier_batch t b)
  else [].

Definition all_attempts
    (send : Mailer) (admins : list string) (b : Batches) : list Delivery :=
  attempt send admins b TierExpired ++ attempt send admins b TierCritical
  ++ attempt send admins b TierWarning.

(** The filter of the cooldown query, on one history row. *)
Definition row_matches
    (cutoff : datetime) (asset_id : Z) (ty : string)
    (n : WarrantyNotification.t) : bool :=
  (WarrantyNotification.asset_id n =? asset_id)
  && String.eqb (WarrantyNotification.notification_type n) ty
  && (cutoff <=? WarrantyNotification.sent_at n).

(** No cooldown runs out between two instants: every row of the
    history that holds an alert back at the first instant still holds
    it back at the second. *)
Definition no_cooldown_runs_out
    (history : list WarrantyNotification.t) (now1 now2 : datetime) : Prop :=
  forall t n,
    In n history ->
    WarrantyNotification.notification_type n = tier_key t ->
    now1 - timedelta_days (tier_lookback t)
      <= WarrantyNotification.sent_at n ->
    now2 - timedelta_days (tier_lookback t)
      <= WarrantyNotification.sent_at n.

(** The list of the summary that stands for a tier; [None] is the
    ['active'] list, of the warranties no alert is due for. *)
Definition summary_bucket (k : option Tier) (s : Summary) : list AssetInfo :=
  match k with
  | Some TierExpired => summary_expired s
  | Some TierCritical => summary_critical_30 s
  | Some TierWarning => summary_warning_90 s
  | None => summary_active s
  end.

(** Condition under which the summary loop appends to the list of [k]. *)
Definition bucket_test (k : option Tier) (days_remaining : Z) : bool :=
  match k with
  | Some TierExpired => days_remaining <? 0
  | Some TierCritical => negb (days_remaining <? 0) && (days_remaining <=? 30)
  | Some TierWarning =>
      negb (days_remaining <? 0) && negb (days_remaining <=? 30)
      && (days_remaining <=? 90)
  | None =>
      negb (days_remaining <? 0) && negb (days_remaining <=? 30)
      && negb (days_remaining <=? 90)
  end.

(** What the summary loop appends to the list of [k] for the asset [a]. *)
Definition info_if
    (db : Db) (today : date) (k : option Tier) (a : Asset.t)
    : list AssetInfo :=
  match Asset.warranty_end a with
  | Some we =>
      if bucket_test k (we - today)
      then [asset_info_of db a we (we - today)]
      else []
  | None => []
  end.

Definition infos_of
    (db : Db) (today : date) (k : option Tier) (l : list Asset.t)
    : list AssetInfo :=
  flat_map (info_if db today k) l.

End WarrantySpec.

(** ** Outcomes of requests *)

Module RoutesSpec.
Import Routes.

(** The specification's [InvalidTransition] is the handlers' 400. *)
Definition InvalidTransition (detail : string) : exn :=
  HTTPException HTTP_400_BAD_REQUEST detail.

(** The specification's [ValidationError] is the framework's 422. *)
Definition ValidationError (detail : string) : exn :=
  RequestValidationError detail.

(** The status stored for an asset id ([None]: no such asset). *)
Definition stored_status (db : Db) (asset_id : Z) : option (option AssetStatus) :=
  option_map Asset.status (query_asset db asset_id).

(** The database a handler commits: the audit entry appended, the
    asset's row replaced, pending repairs flushed. *)
Definition committed (db : Db) (logs : list AuditLog.t) (asset : Asset.t) : Db :=
  set_repairs
    (set_assets (set_audit_logs db (audit_logs db ++ logs))
                (replace_row asset (assets db)))
    (flush_repairs (repairs db)).

Definition decommissioned_asset
    (loaded : Asset.t) (today : date) (reason : string) : Asset.t :=
  Asset.set_assigned_date
    (Asset.set_assigned_to
       (Asset.set_decommission_reason
          (Asset.set_decommission_date
             (Asset.set_status loaded (Some DECOMMISSIONED)) (Some today))
          (Some reason))
       None)
    None.

(** What a request did to the database: nothing, or it committed the
    row of the asset it was about, rewritten from [loaded] to [asset] as
    [P] says, with the audit entries [logs]. *)
Definition row_effect
    (db db' : Db) (asset_id : Z) (P : Asset.t -> Asset.t -> Prop) : Prop :=
  db' = db
  \/ exists loaded asset logs,
       query_asset db asset_id = Some loaded
       /\ Asset.id asset = Asset.id loaded
       /\ db' = committed db logs asset
       /\ P loaded asset.

Definition is_status_item (it : AssetUpdate.item) : bool :=
  match it with
  | AssetUpdate.K_status _ => true
  | _ => false
  end.

Definition changes_serialisable (changes : list (string * pyval)) : bool :=
  forallb (fun kv => json_serialisable (snd kv)) changes.

(** The invariant of the data model: [assigned_to] is set if and only
    if the status is active, except that an asset in repair may keep
    its [assigned_to]. *)
Definition assignment_invariant (a : Asset.t) : Prop :=
  (Asset.status a = Some ACTIVE -> Asset.assigned_to a <> None)
  /\ (Asset.assigned_to a <> None ->
      Asset.status a = Some ACTIVE \/ Asset.status a = Some REPAIR).

End RoutesSpec.

(** ** A small fleet *)

Module Fleet.
Import WarrantyNotificationService Routes.

Definition today : date := 739000.
Definition now : datetime := 63849600000000000.
Definition one_hour : Z := 3600000000.

Definition admin : User.t :=
  User.mk 1 "admin@example.com" "admin" "$2b$12$hash" "Ada Admin"
          (Some ADMIN) (Some true).

Definition tech : User.t :=
  User.mk 2 "tech@example.com" "tech" "$2b$12$hash" "Tom Tech"
          (Some TECHNICIAN) (Some true).

Definition employee42 : Employee.t :=
  Employee.mk 42 (Some "E-042") "pat@example.com" "Pat Doe"
              (Some "Sales") None None (Some true).

(** Warranty ended five days ago; in stock. *)
Definition asset_A : Asset.t :=
  Asset.mk 1 "LAP-001" (Some LAPTOP) (Some "Latitude 5540") (Some "Dell")
    None (Some "SN-A") None (Some 1200.5%float) (Some (today - 5)) None None
    (Some AVAILABLE) None None None None None None.

(** Warranty ends in thirty days; assigned. *)
Definition asset_B : Asset.t :=
  Asset.mk 2 "LAP-002" (Some LAPTOP) (Some "ThinkPad T14") (Some "Lenovo")
    None (Some "SN-B") None None (Some (today + 30)) None None
    (Some ACTIVE) (Some 42) (Some (today - 100)) None None None None.

(** Warranty ends in thirty-one days; in repair, still assigned. *)
Definition asset_C : Asset.t :=
  Asset.mk 3 "MON-001" (Some MONITOR) (Some "U2723QE") (Some "Dell")
    None (Some "SN-C") None None (Some (today + 31)) None None
    (Some REPAIR) (Some 42) (Some (today - 50)) None None None None.

(** Decommissioned. *)
Definition asset_D : Asset.t :=
  Asset.mk 4 "LAP-003" (Some LAPTOP) (Some "MacBook Pro") (Some "Apple")
    None (Some "SN-D") None None (Some (today + 10)) None None
    (Some DECOMMISSIONED) None None (Some (today - 20))
    (Some "Screen broken beyond repair") None None.

Definition fleet : Db :=
  mkDb [admin; tech] [employee42] [asset_A; asset_B; asset_C; asset_D]
       [] [] [].

(** The same fleet, an expired-warranty alert for asset 1 sent a day ago. *)
Definition fleet_notified : Db :=
  set_warranty_notifications fleet
    [WarrantyNotification.mk 1 "expired" (now - timedelta_days 1)].

(** The same fleet, the alert for asset 1 sent thirty days ago less
    an hour: its cooldown runs out within the hour. *)
Definition fleet_cooling : Db :=
  set_warranty_notifications fleet
    [WarrantyNotification.mk 1 "expired"
       (now - timedelta_days 30 + one_hour)].

Definition always_delivers : Mailer := fun _ _ _ => true.

Definition repair_request : RepairCreate.t :=
  RepairCreate.mk today "Hinge cracked" None 80.0%float false None None 4.

(** The same repair, for asset 2. *)
Definition repair_request_B : RepairCreate.t :=
  RepairCreate.mk today "Hinge cracked" None 80.0%float false None None 2.

Definition set_status_to (s : AssetStatus) : AssetUpdate.t :=
  AssetUpdate.mk None None None None None None None None None None None None
                 (Some (Some s)).

End Fleet.

(** ** Outcomes of assignments and edits *)

Module LifecycleSpec.
Import Routes.

(** The asset as an assignment to [employee] leaves it. *)
Definition assigned_asset
    (loaded : Asset.t) (employee : Employee.t) (today : date) : Asset.t :=
  Asset.set_status
    (Asset.set_assigned_date
       (Asset.set_assigned_to loaded (Some (Employee.id employee)))
       (Some today))
    (Some ACTIVE).

(** The asset as an unassignment leaves it. *)
Definition unassigned_asset (loaded : Asset.t) : Asset.t :=
  Asset.set_status
    (Asset.set_assigned_date (Asset.set_assigned_to loaded None) None)
    (Some AVAILABLE).

(** The notice an assignment to [employee] asks the mail service for. *)
Definition assignment_notice
    (loaded : Asset.t) (employee : Employee.t) (asset_type : AssetType)
    (today : date) : AssignmentMail :=
  mkAssignmentMail (Employee.email employee) (Employee.full_name employee)
    (Asset.name loaded) (Asset.asset_tag loaded) (AssetType_value asset_type)
    (Asset.serial_number loaded) today.

(** The message of a notice, as a configured mail service hands it to
    the transport. *)
Definition notice_message
    (render : EmailService.RenderAssignment) (self : EmailService.t)
    (mail : AssignmentMail) : EmailService.Message :=
  EmailService.mkMessage (EmailService.email_from self) (employee_email mail)
    (EmailService.mkSubject EmailService.PACKAGE
       (" IT Equipment Assigned: " ++ EmailService.str_opt (mail_name mail)))
    [("html",
      render (employee_name mail) (mail_name mail) (mail_asset_tag mail)
        (mail_asset_type mail) (mail_serial_number mail)
        (mail_assigned_date mail))].

(** The audit entry of an assign request. *)
Definition assign_log
    (current_user : User.t) (loaded : Asset.t) (requested : option Z)
    : AuditLog.t :=
  AuditLog.mk (Some (User.id current_user)) (Some (Asset.id loaded))
    "ASSIGN" "asset" (Some (Asset.id loaded))
    (Some (PDict [("old_employee_id", py_opt_int (Asset.assigned_to loaded));
                  ("new_employee_id", py_opt_int requested)])).

(** The value of a field after an update: the requested one when the
    request sets the field, the old one otherwise. *)
Definition requested {A} (field : option (option A)) (old : option A)
    : option A :=
  match field with
  | Some value => value
  | None => old
  end.

(** The value a dictionary leaves in one attribute: [sel] picks the
    entries keyed by the attribute, with their value. *)
Definition final_value {V}
    (sel : AssetUpdate.item -> option V) (dict : list AssetUpdate.item)
    (cur : V) : V :=
  fold_left (fun cur it => match sel it with Some v => v | None => cur end)
            dict cur.

Definition sel_asset_type (it : AssetUpdate.item) : option (option AssetType) :=
  match it with AssetUpdate.K_asset_type v => Some v | _ => None end.
Definition sel_name (it : AssetUpdate.item) : option (option string) :=
  match it with AssetUpdate.K_name v => Some v | _ => None end.
Definition sel_manufacturer (it : AssetUpdate.item) : option (option string) :=
  match it with AssetUpdate.K_manufacturer v => Some v | _ => None end.
Definition sel_model (it : AssetUpdate.item) : option (option string) :=
  match it with AssetUpdate.K_model v => Some v | _ => None end.
Definition sel_serial_number (it : AssetUpdate.item) : option (option string) :=
  match it with AssetUpdate.K_serial_number v => Some v | _ => None end.
Definition sel_purchase_date (it : AssetUpdate.item) : option (option date) :=
  match it with AssetUpdate.K_purchase_date v => Some v | _ => None end.
Definition sel_warranty_end (it : AssetUpdate.item) : option (option date) :=
  match it with AssetUpdate.K_warranty_end v => Some v | _ => None end.
Definition sel_vendor (it : AssetUpdate.item) : option (option string) :=
  match it with AssetUpdate.K_vendor v => Some v | _ => None end.
Definition sel_po_number (it : AssetUpdate.item) : option (option string) :=
  match it with AssetUpdate.K_po_number v => Some v | _ => None end.
Definition sel_notes (it : AssetUpdate.item) : option (option string) :=
  match it with AssetUpdate.K_notes v => Some v | _ => None end.
Definition sel_location (it : AssetUpdate.item) : option (option string) :=
  match it with AssetUpdate.K_location v => Some v | _ => None end.
Definition sel_status (it : AssetUpdate.item) : option (option AssetStatus) :=
  match it with AssetUpdate.K_status v => Some v | _ => None end.

(** The price is compared as floats are: the old value stays when the
    requested one is equal to it as a number. *)
Definition requested_price
    (field : option (option float)) (old : option float) : option float :=
  match field with
  | Some value => if opt_ne float_eqb old value then value else old
  | None => old
  end.

Definition upd_purchase_price
    (it : AssetUpdate.item) (cur : option float) : option float :=
  match it with
  | AssetUpdate.K_purchase_price value =>
      if opt_ne float_eqb cur value then value else cur
  | _ => cur
  end.

(** The audit entry of an update: none when no attribute changed. *)
Definition update_logs
    (current_user : User.t) (loaded : Asset.t)
    (changes : list (string * pyval)) : list AuditLog.t :=
  match changes with
  | [] => []
  | _ :: _ =>
      [AuditLog.mk (Some (User.id current_user)) (Some (Asset.id loaded))
         "UPDATE" "asset" (Some (Asset.id loaded)) (Some (PDict changes))]
  end.

End LifecycleSpec.

(** ** Reports of the warranty service *)

Module ReportSpec.
Import WarrantyNotificationService.

(** The [asset_info] of every asset of a list, in order. *)
Definition infos_of_all (db : Db) (today : date) (l : list Asset.t)
    : list AssetInfo :=
  flat_map
    (fun a =>
       match Asset.warranty_end a with
       | Some we => [asset_info_of db a we (we - today)]
       | None => []
       end)
    l.

(** A user the alert run writes to. *)
Definition is_recipient (u : User.t) : Prop :=
  User.is_active u = Some true
  /\ (User.role u = Some ADMIN \/ User.role u = Some TECHNICIAN).

End ReportSpec.

(** ** Warranty mails *)

Module EmailSpec.
Import WarrantyNotificationService EmailService.

(** The card of an asset has the colour and the class of the alert it
    is mailed in: amber and [warning] in a 90-day alert, red and
    [critical] in the two others. *)
Definition card_matches_alert (alert_type : string) (p : PreparedAsset) : Prop :=
  status_color p = alert_status_color alert_type
  /\ status_class p
     = (if String.eqb alert_type "expiring_90" then "warning" else "critical").

Definition cards_match_alert (d : Delivery) : Prop :=
  Forall (card_matches_alert (alert_type d))
         (map prepare_asset (alert_assets d)).


End EmailSpec.

(** ** The dashboard *)

Module DashboardSpec.
Import WarrantyNotificationService WarrantySpec Dashboard.

(** The columns declared [nullable=False] that the dashboard reads. *)
Definition required_columns (a : Asset.t) : bool :=
  negb (Routes.is_none (Asset.asset_type a))
  && negb (Routes.is_none (Asset.name a)).

(** The label the dashboard gives an alert of a tier. *)
Definition label_of (t : Tier) : string :=
  match t with
  | TierExpired => "expired"
  | TierCritical => "critical"
  | TierWarning => "warning"
  end.

(** The alert of the dashboard for the asset [a], whose warranty ends
    on [we], in the tier [t]. *)
Definition alert_of
    (py_sum : PySum) (db : Db) (today : date)
    (a : Asset.t) (we : date) (t : Tier) : WarrantyAlert :=
  mkWarrantyAlert
    (mkAssetResponse a
       (Z.of_nat (List.length (repairs_of db a)))
       (sum_costs py_sum (map Repair.cost (repairs_of db a))))
    (we - today) (label_of t).

(** What the loop of [get_warranty_alerts] appends for the asset [a]. *)
Definition alert_if
    (py_sum : PySum) (db : Db) (today : date) (a : Asset.t)
    : list WarrantyAlert :=
  match Asset.warranty_end a with
  | Some we =>
      match tier_of_days (we - today) with
      | Some t => [alert_of py_sum db today a we t]
      | None => []
      end
  | None => []
  end.

Definition alerts_of
    (py_sum : PySum) (db : Db) (today : date) (l : list Asset.t)
    : list WarrantyAlert :=
  flat_map (alert_if py_sum db today) l.

Definition more_urgent (x y : WarrantyAlert) : Prop :=
  days_remaining x <= days_remaining y.

(** The alerts with a given number of days remaining. *)
Definition with_days (k : Z) (alerts : list WarrantyAlert) : list WarrantyAlert :=
  filter (fun x => days_remaining x =? k) alerts.

Definition sum_counts (counts : list (string * Z)) : Z :=
  fold_right (fun kv acc => snd kv + acc) 0 counts.

(** The number of assets whose [status] is NULL. *)
Definition count_no_status (db : Db) : Z :=
  Z.of_nat
    (List.length (filter (fun a => Routes.is_none (Asset.status a)) (assets db))).


End DashboardSpec.

(** ** Requests and services for the small fleet *)

Module Desk.
Import WarrantyNotificationService EmailService Dashboard.

(** An edit that moves an asset to Berlin. *)
Definition move_request : AssetUpdate.t :=
  AssetUpdate.mk None None None None None None None None None None None
                 (Some (Some "Berlin")) None.

(** An edit that clears the name. *)
Definition clear_name_request : AssetUpdate.t :=
  AssetUpdate.mk None (Some None) None None None None None None None None None
                 None None.

(** A transport that always delivers, and a template that renders the
    number of its cards. *)
Definition open_relay : Transport := fun _ _ => true.

Definition count_cards : Render :=
  fun assets _ _ _ => str_int (Z.of_nat (List.length assets)).

(** Sums that add from the left. *)
Definition left_sum : PySum :=
  fun costs => fold_left PrimFloat.add costs 0%float.

Definition sql_left_sum : SqlSum :=
  fun costs =>
    match costs with
    | [] => None
    | _ :: _ => Some (fold_left PrimFloat.add costs 0%float)
    end.

End Desk.

(* ================================================================== *)
(** * Properties of the warranty service *)

Module WarrantyProofs.
Import WarrantyNotificationService WarrantySpec.

Section Classification.
Variables (db : Db) (today : date) (now : datetime).

Lemma classify_asset_rows (acc : Batches) (a : Asset.t) (we : date) :
  Asset.warranty_end a = Some we ->
  classify_asset db today now acc a =
  Some (mkBatches (expiring_90 acc ++ row_if db today now TierWarning a)
                  (expiring_30 acc ++ row_if db today now TierCritical a)
                  (expired acc ++ row_if db today now TierExpired a)).
Proof.
  intros Hwe. unfold classify_asset, row_if, selects, under_cooldown.
  rewrite Hwe. cbn [tier_key tier_lookback].
  destruct acc as [b90 b30 bex]; cbn [expiring_90 expiring_30 expired].
  destruct (we - today <? 0); cbn [negb andb].
  - destruct (check_warranty_already_notified db now (Asset.id a) "expired" 30);
      cbn [negb]; rewrite ?app_nil_r; reflexivity.
  - destruct (we - today <=? 30); cbn [negb andb].
    + destruct (check_warranty_already_notified db now (Asset.id a) "30_day" 7);
        cbn [negb]; rewrite ?app_nil_r; reflexivity.
    + destruct (we - today <=? 90); cbn [negb andb].
      * destruct (check_warranty_already_notified db now (Asset.id a) "90_day" 14);
          cbn [negb]; rewrite ?app_nil_r; reflexivity.
      * rewrite ?app_nil_r; reflexivity.
Qed.

Lemma classify_assets_rows (l : list Asset.t) : forall acc,
  Forall (fun a => Asset.warranty_end a <> None) l ->
  classify_assets db today now acc l =
  Some (mkBatches (expiring_90 acc ++ rows_of db today now TierWarning l)
                  (expiring_30 acc ++ rows_of db today now TierCritical l)
                  (expired acc ++ rows_of db today now TierExpired l)).
Proof.
  induction l as [|a l IH]; intros acc Hall.
  - destruct acc; cbn. rewrite !app_nil_r. reflexivity.
  - inversion Hall as [|? ? Ha Hl]; subst.
    destruct (Asset.warranty_end a) as [we|] eqn:Hwe; [|congruence].
    cbn [classify_assets]. rewrite (classify_asset_rows acc a we Hwe).
    rewrite IH by assumption.
    cbn [expiring_90 expiring_30 expired rows_of flat_map].
    rewrite <- !app_assoc. reflexivity.
Qed.

Lemma in_rows_of (t : Tier) (l : list Asset.t) (a : Asset.t) (d : AssetData) :
  In (a, d) (rows_of db today now t l) <->
  In a l /\ exists we, Asset.warranty_end a = Some we
                       /\ selects db now t (we - today) a = true
                       /\ d = asset_data_of db a we (we - today).
Proof.
  unfold rows_of. rewrite in_flat_map. split.
  - intros [x [Hx Hin]]. unfold row_if in Hin.
    destruct (Asset.warranty_end x) as [we|] eqn:Hwe; [|contradiction].
    destruct (selects db now t (we - today) x) eqn:Hsel; [|contradiction].
    destruct Hin as [Heq|[]]. inversion Heq; subst.
    split; [assumption|]. exists we. auto.
  - intros [Hin [we [Hwe [Hsel Hd]]]]. exists a. split; [assumption|].
    unfold row_if. rewrite Hwe, Hsel. left. subst. reflexivity.
Qed.

End Classification.

Lemma candidates_have_warranty (db : Db) :
  Forall (fun a => Asset.warranty_end a <> None) (warranty_candidates db).
Proof.
  apply Forall_forall. intros a Ha. unfold warranty_candidates in Ha.
  apply filter_In in Ha. destruct Ha as [_ Ha].
  destruct (Asset.status a), (Asset.warranty_end a); congruence.
Qed.

(** The batches of a run, in closed form: the loop raises nothing. *)
Lemma alert_batches_rows (db : Db) (today : date) (now : datetime) :
  alert_batches db today now =
  Some (mkBatches (rows_of db today now TierWarning (warranty_candidates db))
                  (rows_of db today now TierCritical (warranty_candidates db))
                  (rows_of db today now TierExpired (warranty_candidates db))).
Proof.
  unfold alert_batches.
  rewrite classify_assets_rows by apply candidates_have_warranty.
  reflexivity.
Qed.

(** [check_warranty_already_notified] answers [True] exactly when the
    history holds a row for the asset and the type that is not older
    than the cutoff. *)
Lemma already_notified_iff
    (db : Db) (now : datetime) (asset_id : Z) (ty : string) (days : Z) :
  check_warranty_already_notified db now asset_id ty days = true <->
  exists n, In n (warranty_notifications db)
            /\ WarrantyNotification.asset_id n = asset_id
            /\ WarrantyNotification.notification_type n = ty
            /\ now - timedelta_days days <= WarrantyNotification.sent_at n.
Proof.
  unfold check_warranty_already_notified.
  set (f := fun n => _ && _ && _).
  destruct (find f (warranty_notifications db)) as [n|] eqn:Hfind; split.
  - intros _. apply find_some in Hfind. destruct Hfind as [Hin Hf].
    subst f. cbn beta in Hf.
    apply andb_true_iff in Hf. destruct Hf as [Hf Hcut].
    apply andb_true_iff in Hf. destruct Hf as [Hid Hty].
    exists n. repeat split.
    + assumption.
    + apply Z.eqb_eq. assumption.
    + apply String.eqb_eq. assumption.
    + apply Z.leb_le. assumption.
  - reflexivity.
  - discriminate.
  - intros [n [Hin [Hid [Hty Hcut]]]].
    pose proof (find_none _ _ Hfind n Hin) as Hf. subst f. cbn beta in Hf.
    apply Z.eqb_eq in Hid. apply String.eqb_eq in Hty. apply Z.leb_le in Hcut.
    rewrite Hid, Hty, Hcut in Hf. discriminate.
Qed.

(** The guards of the loop body select the tier the specification
    names, among the assets that are not under cooldown. *)
Lemma selects_tier_of_days
    (db : Db) (now : datetime) (t : Tier) (d : Z) (a : Asset.t) :
  selects db now t d a = true <->
  tier_of_days d = Some t /\ under_cooldown db now (Asset.id a) t = false.
Proof.
  unfold selects, tier_of_days.
  destruct (Z.ltb_spec d 0) as [H0|H0];
    destruct (Z.leb_spec 0 d) as [H0'|H0']; try lia;
    destruct (Z.leb_spec d 30) as [H30|H30];
    destruct (Z.leb_spec 31 d) as [H31|H31]; try lia;
    destruct (Z.leb_spec d 90) as [H90|H90]; try lia;
    destruct t; cbn [negb andb];
    destruct (under_cooldown db now (Asset.id a) _);
    cbn [negb]; split; intros H; try discriminate; try (destruct H; discriminate);
    auto.
Qed.

Lemma in_candidates (db : Db) (a : Asset.t) (s : AssetStatus) (we : date) :
  In a (assets db) -> Asset.status a = Some s -> s <> DECOMMISSIONED ->
  Asset.warranty_end a = Some we ->
  In a (warranty_candidates db).
Proof.
  intros Hin Hs Hdec Hwe. unfold warranty_candidates. apply filter_In.
  split; [assumption|]. rewrite Hs, Hwe. destruct s; try reflexivity.
  congruence.
Qed.

Lemma tier_batch_rows (db : Db) (today : date) (now : datetime) (t : Tier) :
  tier_batch t
    (mkBatches (rows_of db today now TierWarning (warranty_candidates db))
               (rows_of db today now TierCritical (warranty_candidates db))
               (rows_of db today now TierExpired (warranty_candidates db)))
  = rows_of db today now t (warranty_candidates db).
Proof. destruct t; reflexivity. Qed.

Lemma classified_tier_of_days
    (db : Db) (today : date) (now : datetime) (a : Asset.t) (we : date) :
  In a (warranty_candidates db) -> Asset.warranty_end a = Some we ->
  exists b, alert_batches db today now = Some b
            /\ classified_as db today now b a we (tier_of_days (we - today)).
Proof.
  intros Hin Hwe. eexists. split; [apply alert_batches_rows|].
  intros t d. rewrite tier_batch_rows, in_rows_of. split.
  - intros [_ [we' [Hwe' [Hsel Hd]]]].
    assert (we' = we) by congruence. subst we'.
    apply selects_tier_of_days in Hsel. tauto.
  - intros [Ht [Hcool Hd]]. split; [assumption|]. exists we.
    split; [assumption|]. split; [|assumption].
    apply selects_tier_of_days. auto.
Qed.

(** C1. For every asset that is not decommissioned and has a
    [warranty_end], the alert run computes
    [days_remaining = warranty_end - today] and puts the asset in exactly
    one tier: expired when [days_remaining < 0], critical (the 30-day
    batch) when [0 <= days_remaining <= 30], warning (the 90-day batch)
    when [31 <= days_remaining <= 90], and none above 90.  In particular
    [warranty_end = today + 30] is critical with [days_remaining = 30],
    and [warranty_end = today + 31] is warning. *)
Theorem warranty_tier_thresholds
    (db : Db) (today : date) (now : datetime)
    (a : Asset.t) (s : AssetStatus) (we : date) :
  In a (assets db) -> Asset.status a = Some s -> s <> DECOMMISSIONED ->
  Asset.warranty_end a = Some we ->
  exists b,
    alert_batches db today now = Some b
    /\ let days_remaining := we - today in
       data_days_remaining (asset_data_of db a we days_remaining)
       = days_remaining
       /\ (days_remaining < 0 ->
           classified_as db today now b a we (Some TierExpired))
       /\ (0 <= days_remaining <= 30 ->
           classified_as db today now b a we (Some TierCritical))
       /\ (31 <= days_remaining <= 90 ->
           classified_as db today now b a we (Some TierWarning))
       /\ (90 < days_remaining -> classified_as db today now b a we None)
       /\ (we = today + 30 ->
           days_remaining = 30
           /\ classified_as db today now b a we (Some TierCritical))
       /\ (we = today + 31 ->
           days_remaining = 31
           /\ classified_as db today now b a we (Some TierWarning)).
Proof.
  intros Hin Hs Hdec Hwe.
  destruct (classified_tier_of_days db today now a we
              (in_candidates db a s we Hin Hs Hdec Hwe) Hwe) as [b [Hb Hcl]].
  exists b. split; [assumption|]. cbv zeta.
  assert (Hcase : forall k, tier_of_days (we - today) = k ->
                            classified_as db today now b a we k)
    by (intros k <-; assumption).
  unfold tier_of_days in Hcase.
  split; [reflexivity|].
  split; [|split; [|split; [|split; [|split]]]]; intros Hd;
    try (split; [lia|]); apply Hcase;
    destruct (Z.ltb_spec (we - today) 0);
    destruct (Z.leb_spec 0 (we - today));
    destruct (Z.leb_spec (we - today) 30);
    destruct (Z.leb_spec 31 (we - today));
    destruct (Z.leb_spec (we - today) 90);
    cbn [andb]; try reflexivity; lia.
Qed.

(** C2. For an asset the run classifies in tier [t], the run holds the
    alert back (the asset is missing from the batch of [t]) exactly when
    the history holds a row with the asset's id and the tier's
    notification type whose [sent_at] is not older than the tier's
    lookback counted back from now: 30 days for [expired], 7 for
    [30_day], 14 for [90_day].  When no row of the history is dated
    after now, that is a row inside the window of that length ending
    now. *)
Theorem cooldown_suppression
    (db : Db) (today : date) (now : datetime)
    (a : Asset.t) (s : AssetStatus) (we : date) (t : Tier) :
  In a (assets db) -> Asset.status a = Some s -> s <> DECOMMISSIONED ->
  Asset.warranty_end a = Some we ->
  tier_of_days (we - today) = Some t ->
  exists b,
    alert_batches db today now = Some b
    /\ let entry := (a, asset_data_of db a we (we - today)) in
       let window :=
         timedelta_days
           (match t with
            | TierExpired => 30 | TierCritical => 7 | TierWarning => 14
            end) in
       let key :=
         match t with
         | TierExpired => "expired" | TierCritical => "30_day"
         | TierWarning => "90_day"
         end in
       (~ In entry (tier_batch t b) <->
        exists n, In n (warranty_notifications db)
                  /\ WarrantyNotification.asset_id n = Asset.id a
                  /\ WarrantyNotification.notification_type n = key
                  /\ now - window <= WarrantyNotification.sent_at n)
       /\ ((forall n, In n (warranty_notifications db) ->
                      WarrantyNotification.sent_at n <= now) ->
           (~ In entry (tier_batch t b) <->
            exists n, In n (warranty_notifications db)
                      /\ WarrantyNotification.asset_id n = Asset.id a
                      /\ WarrantyNotification.notification_type n = key
                      /\ now - window <= WarrantyNotification.sent_at n <= now)).
Proof.
  intros Hin Hs Hdec Hwe Htier.
  destruct (classified_tier_of_days db today now a we
              (in_candidates db a s we Hin Hs Hdec Hwe) Hwe) as [b [Hb Hcl]].
  exists b. split; [assumption|]. cbv zeta.
  rewrite Htier in Hcl.
  assert (Hsupp :
            ~ In (a, asset_data_of db a we (we - today)) (tier_batch t b) <->
            under_cooldown db now (Asset.id a) t = true).
  { rewrite (Hcl t). split.
    - intros Hno. destruct (under_cooldown db now (Asset.id a) t); [reflexivity|].
      exfalso. apply Hno. auto.
    - intros Hc [_ [Hf _]]. congruence. }
  assert (Hcheck :
            under_cooldown db now (Asset.id a) t = true <->
            exists n, In n (warranty_notifications db)
                      /\ WarrantyNotification.asset_id n = Asset.id a
                      /\ WarrantyNotification.notification_type n
                         = match t with
                           | TierExpired => "expired" | TierCritical => "30_day"
                           | TierWarning => "90_day"
                           end
                      /\ now - timedelta_days
                                 (match t with
                                  | TierExpired => 30 | TierCritical => 7
                                  | TierWarning => 14
                                  end)
                         <= WarrantyNotification.sent_at n).
  { unfold under_cooldown. rewrite already_notified_iff.
    destruct t; reflexivity. }
  split.
  - rewrite Hsupp. exact Hcheck.
  - intros Hpast. rewrite Hsupp, Hcheck. split.
    + intros [n [Hn [Hid [Hty Hcut]]]]. exists n. repeat split; auto.
    + intros [n [Hn [Hid [Hty [Hcut _]]]]]. exists n. auto.
Qed.

(* ------------------------------------------------------------------ *)
(** ** The send-and-record phase *)

Lemma set_warranty_notifications_same (db : Db) :
  set_warranty_notifications db (warranty_notifications db ++ []) = db.
Proof. destruct db. unfold set_warranty_notifications. cbn. rewrite app_nil_r. reflexivity. Qed.

Lemma set_warranty_notifications_twice (db : Db) l1 l2 :
  set_warranty_notifications
    (set_warranty_notifications db (warranty_notifications db ++ l1))
    (warranty_notifications
       (set_warranty_notifications db (warranty_notifications db ++ l1)) ++ l2)
  = set_warranty_notifications db (warranty_notifications db ++ l1 ++ l2).
Proof. unfold set_warranty_notifications. cbn. rewrite app_assoc. reflexivity. Qed.

Lemma record_batch_rows
    (now : datetime) (key : string) (batch : list (Asset.t * AssetData)) :
  forall db,
    record_batch db now batch key =
    set_warranty_notifications db
      (warranty_notifications db
         ++ map (fun e => WarrantyNotification.mk (Asset.id (fst e)) key now)
                batch).
Proof.
  unfold record_batch.
  induction batch as [|e batch IH]; intros db.
  - cbn [fold_left map]. symmetry. apply set_warranty_notifications_same.
  - cbn [fold_left map]. rewrite IH. unfold record_notification.
    rewrite set_warranty_notifications_twice. reflexivity.
Qed.

Section RunAnalysis.
Variables (send : Mailer) (now : datetime) (admins : list string) (b : Batches).

Lemma send_and_record_closed (t : Tier) (db : Db) (sent : list Delivery) :
  send_and_record send now admins (tier_batch t b) (tier_alert t) (tier_key t)
    (db, sent)
  = (set_warranty_notifications db (warranty_notifications db ++ written send now admins b t),
     sent ++ attempt send admins b t).
Proof.
  unfold send_and_record, written, attempt, batch_nonempty, batch_ok.
  destruct (tier_batch t b) as [|e l] eqn:Hb.
  - cbn [andb]. rewrite set_warranty_notifications_same, app_nil_r. reflexivity.
  - cbn [andb]. cbv zeta.
    destruct (send admins (map snd (e :: l)) (tier_alert t)).
    + rewrite record_batch_rows. reflexivity.
    + rewrite set_warranty_notifications_same. reflexivity.
Qed.

Lemma confirmed_attempts (t : Tier) :
  confirmed (all_attempts send admins b) t = batch_nonempty b t && batch_ok send admins b t.
Proof.
  unfold confirmed, all_attempts, attempt.
  destruct t;
    destruct (batch_nonempty b TierExpired), (batch_nonempty b TierCritical),
             (batch_nonempty b TierWarning);
    cbn;
    destruct (batch_ok send admins b TierExpired), (batch_ok send admins b TierCritical),
             (batch_ok send admins b TierWarning);
    reflexivity.
Qed.

Lemma written_confirmed (t : Tier) :
  written send now admins b t =
  if confirmed (all_attempts send admins b) t then map (history_row now t) (tier_batch t b)
  else [].
Proof. rewrite confirmed_attempts. reflexivity. Qed.

Lemma in_attempts (d : Delivery) :
  In d (all_attempts send admins b) <->
  exists t, tier_batch t b <> []
            /\ d = mkDelivery admins (map snd (tier_batch t b)) (tier_alert t)
                     (send admins (map snd (tier_batch t b)) (tier_alert t)).
Proof.
  unfold all_attempts, attempt, batch_nonempty, batch_ok. split.
  - intros Hin.
    apply in_app_or in Hin. destruct Hin as [Hin|Hin];
      [|apply in_app_or in Hin; destruct Hin as [Hin|Hin]].
    + exists TierExpired. destruct (tier_batch TierExpired b); [contradiction|].
      destruct Hin as [<-|[]]. split; [discriminate|reflexivity].
    + exists TierCritical. destruct (tier_batch TierCritical b); [contradiction|].
      destruct Hin as [<-|[]]. split; [discriminate|reflexivity].
    + exists TierWarning. destruct (tier_batch TierWarning b); [contradiction|].
      destruct Hin as [<-|[]]. split; [discriminate|reflexivity].
  - intros [t [Hne ->]].
    destruct t.
    + apply in_or_app. left.
      destruct (tier_batch TierExpired b); [congruence|]. left. reflexivity.
    + apply in_or_app. right. apply in_or_app. left.
      destruct (tier_batch TierCritical b); [congruence|]. left. reflexivity.
    + apply in_or_app. right. apply in_or_app. right.
      destruct (tier_batch TierWarning b); [congruence|]. left. reflexivity.
Qed.

End RunAnalysis.

(** A run in closed form: nothing when no recipient is configured;
    otherwise the three blocks, each on its own batch. *)
Lemma run_closed_form (send : Mailer) (today : date) (now : datetime) (db : Db) :
  exists b,
    alert_batches db today now = Some b
    /\ (forall t, tier_batch t b
                  = rows_of db today now t (warranty_candidates db))
    /\ check_and_send_warranty_alerts send today now db =
       match get_admin_emails db with
       | [] => (db, [])
       | _ :: _ =>
           (set_warranty_notifications db
              (warranty_notifications db
                 ++ written send now (get_admin_emails db) b TierExpired
                 ++ written send now (get_admin_emails db) b TierCritical
                 ++ written send now (get_admin_emails db) b TierWarning),
            all_attempts send (get_admin_emails db) b)
       end.
Proof.
  eexists. split; [apply alert_batches_rows|]. split.
  - intros t. apply tier_batch_rows.
  - unfold check_and_send_warranty_alerts. rewrite alert_batches_rows.
    set (b := mkBatches _ _ _).
    destruct (get_admin_emails db) as [|r rs] eqn:Hadm; [reflexivity|].
    cbv zeta.
    change (expired b) with (tier_batch TierExpired b).
    change (expiring_30 b) with (tier_batch TierCritical b).
    change (expiring_90 b) with (tier_batch TierWarning b).
    change "expired" with (tier_alert TierExpired) at 1.
    change "expired" with (tier_key TierExpired).
    change "expiring_30" with (tier_alert TierCritical).
    change "30_day" with (tier_key TierCritical).
    change "expiring_90" with (tier_alert TierWarning).
    change "90_day" with (tier_key TierWarning).
    rewrite !send_and_record_closed.
    rewrite !set_warranty_notifications_twice.
    unfold all_attempts. cbn [app]. rewrite <- app_assoc.
    reflexivity.
Qed.

Lemma find_existsb {A} (f : A -> bool) (l : list A) :
  match find f l with Some _ => true | None => false end = existsb f l.
Proof.
  induction l as [|x l IH]; [reflexivity|].
  cbn. destruct (f x); [reflexivity|exact IH].
Qed.

Lemma check_existsb (db : Db) (now : datetime) (asset_id : Z) (ty : string) (days : Z) :
  check_warranty_already_notified db now asset_id ty days =
  existsb (row_matches (now - timedelta_days days) asset_id ty)
          (warranty_notifications db).
Proof. unfold check_warranty_already_notified. cbv zeta. apply find_existsb. Qed.

Lemma no_match_other_tier
    (cutoff now : datetime) (asset_id : Z) (t t' : Tier)
    (l : list (Asset.t * AssetData)) :
  t' <> t ->
  existsb (row_matches cutoff asset_id (tier_key t)) (map (history_row now t') l)
  = false.
Proof.
  intros Hne. induction l as [|e l IH]; [reflexivity|].
  cbn [map existsb]. rewrite IH. unfold row_matches, history_row.
  cbn [WarrantyNotification.notification_type].
  replace (String.eqb (tier_key t') (tier_key t)) with false
    by (destruct t, t'; try reflexivity; congruence).
  rewrite andb_false_r. reflexivity.
Qed.

Lemma no_match_written_other_tier
    (send : Mailer) (now : datetime) (admins : list string) (b : Batches)
    (cutoff : datetime) (asset_id : Z) (t t' : Tier) :
  t' <> t ->
  existsb (row_matches cutoff asset_id (tier_key t)) (written send now admins b t')
  = false.
Proof.
  intros Hne. unfold written.
  destruct (batch_nonempty b t' && batch_ok send admins b t'); [|reflexivity].
  apply no_match_other_tier. assumption.
Qed.

(** The cooldown check after a run: the rows written for the other
    tiers do not count. *)
Lemma under_cooldown_after_run
    (send : Mailer) (now : datetime) (admins : list string) (b : Batches)
    (db : Db) (now' : datetime) (asset_id : Z) (t : Tier) :
  under_cooldown
    (set_warranty_notifications db
       (warranty_notifications db
          ++ written send now admins b TierExpired
          ++ written send now admins b TierCritical
          ++ written send now admins b TierWarning))
    now' asset_id t
  = under_cooldown db now' asset_id t
    || existsb (row_matches (now' - timedelta_days (tier_lookback t))
                            asset_id (tier_key t))
               (written send now admins b t).
Proof.
  unfold under_cooldown. rewrite !check_existsb.
  unfold set_warranty_notifications. cbn [warranty_notifications].
  rewrite !existsb_app. f_equal.
  pose proof (fun c t1 t2 =>
                no_match_written_other_tier send now admins b c asset_id t1 t2)
    as Hother.
  destruct t.
  - rewrite (Hother _ TierExpired TierCritical) by discriminate.
    rewrite (Hother _ TierExpired TierWarning) by discriminate.
    rewrite !orb_false_r. reflexivity.
  - rewrite (Hother _ TierCritical TierExpired) by discriminate.
    rewrite (Hother _ TierCritical TierWarning) by discriminate.
    rewrite orb_false_r. reflexivity.
  - rewrite (Hother _ TierWarning TierExpired) by discriminate.
    rewrite (Hother _ TierWarning TierCritical) by discriminate.
    reflexivity.
Qed.

(** C4. In every run, history rows are written for the batch of a tier
    if and only if the notifier confirmed the delivery of that batch,
    and then one row per asset of the batch, with [sent_at = now].  A
    batch whose delivery failed writes no row, so its assets meet the
    same cooldown checks as before on the next run; and every non-empty
    batch is handed to the notifier whatever became of the others. *)
Theorem history_written_iff_delivered
    (send : Mailer) (today : date) (now : datetime) (db : Db) :
  exists b,
    alert_batches db today now = Some b
    /\ let db' := fst (check_and_send_warranty_alerts send today now db) in
       let sent := snd (check_and_send_warranty_alerts send today now db) in
       let rows t :=
         if confirmed sent t then map (history_row now t) (tier_batch t b)
         else [] in
       users db' = users db /\ employees db' = employees db
       /\ assets db' = assets db /\ repairs db' = repairs db
       /\ audit_logs db' = audit_logs db
       /\ warranty_notifications db' =
          warranty_notifications db
            ++ rows TierExpired ++ rows TierCritical ++ rows TierWarning
       /\ (forall d, In d sent ->
             exists t, alert_type d = tier_alert t
                       /\ tier_batch t b <> []
                       /\ alert_assets d = map snd (tier_batch t b)
                       /\ to_emails d = get_admin_emails db
                       /\ success d
                          = send (to_emails d) (alert_assets d) (alert_type d))
       /\ (get_admin_emails db <> [] ->
           forall t, tier_batch t b <> [] ->
             exists d, In d sent /\ alert_type d = tier_alert t
                       /\ alert_assets d = map snd (tier_batch t b))
       /\ (forall t, confirmed sent t = false ->
             forall now' asset_id,
               under_cooldown db' now' asset_id t
               = under_cooldown db now' asset_id t).
Proof.
  destruct (run_closed_form send today now db) as [b [Hb [_ Hrun]]].
  exists b. split; [assumption|]. rewrite Hrun. clear Hrun.
  destruct (get_admin_emails db) as [|r rs] eqn:Hadm; cbv zeta; cbn [fst snd].
  - repeat (split; [reflexivity|]).
    split; [cbn; rewrite app_nil_r; reflexivity|].
    split; [intros d []|]. split; [congruence|]. reflexivity.
  - repeat (split; [reflexivity|]).
    split; [|split; [|split]].
    + cbn [warranty_notifications set_warranty_notifications].
      rewrite !written_confirmed. reflexivity.
    + intros d Hd. apply in_attempts in Hd. destruct Hd as [t [Hne ->]].
      exists t. cbn. auto.
    + intros _ t Hne. eexists. split; [apply in_attempts; exists t; eauto|].
      cbn. auto.
    + intros t Hconf now' asset_id. rewrite under_cooldown_after_run.
      rewrite written_confirmed, Hconf. cbn. apply orb_false_r.
Qed.

(* ------------------------------------------------------------------ *)
(** ** Two runs in a row *)

Lemma rows_of_nil
    (db : Db) (today : date) (now : datetime) (t : Tier) (l : list Asset.t) :
  (forall a we, In a l -> Asset.warranty_end a = Some we ->
                selects db now t (we - today) a = false) ->
  rows_of db today now t l = [].
Proof.
  induction l as [|a l IH]; intros Hsel; [reflexivity|].
  cbn [rows_of flat_map]. fold (rows_of db today now t l).
  rewrite IH by (intros a' we' Hin; apply Hsel; right; assumption).
  rewrite app_nil_r. unfold row_if.
  destruct (Asset.warranty_end a) as [we|] eqn:Hwe; [|reflexivity].
  rewrite (Hsel a we (or_introl eq_refl) Hwe). reflexivity.
Qed.

Lemma written_nil
    (send : Mailer) (now : datetime) (admins : list string) (b : Batches)
    (t : Tier) :
  tier_batch t b = [] -> written send now admins b t = [].
Proof. intros Hb. unfold written, batch_nonempty. rewrite Hb. reflexivity. Qed.

Lemma attempt_nil
    (send : Mailer) (admins : list string) (b : Batches) (t : Tier) :
  tier_batch t b = [] -> attempt send admins b t = [].
Proof. intros Hb. unfold attempt, batch_nonempty. rewrite Hb. reflexivity. Qed.

(** An asset whose alert went out in a successful first run is in the
    rows that run wrote. *)
Lemma delivered_row_written
    (send : Mailer) (now : datetime) (admins : list string) (b : Batches)
    (t : Tier) (e : Asset.t * AssetData) :
  In e (tier_batch t b) ->
  (forall d, In d (all_attempts send admins b) -> success d = true) ->
  In (history_row now t e) (written send now admins b t).
Proof.
  intros Hin Hok.
  assert (Hne : tier_batch t b <> []) by (intros H; rewrite H in Hin; exact Hin).
  assert (Hsend : send admins (map snd (tier_batch t b)) (tier_alert t) = true).
  { apply (Hok (mkDelivery admins (map snd (tier_batch t b)) (tier_alert t)
                  (send admins (map snd (tier_batch t b)) (tier_alert t)))).
    apply in_attempts. exists t. auto. }
  unfold written, batch_nonempty, batch_ok. rewrite Hsend.
  destruct (tier_batch t b) as [|e0 l] eqn:Hb; [congruence|].
  cbn [andb]. apply in_map. assumption.
Qed.

(** After a first run whose deliveries were all confirmed, an asset
    that the second run selects for a tier was held back in the first
    run by a row of the earlier history, and that row no longer counts
    at the second. *)
Lemma second_run_selects
    (send1 : Mailer) (today : date) (now1 now2 : datetime) (db : Db)
    (admins : list string) (b1 : Batches) (t : Tier) (a : Asset.t) (we : date) :
  (forall t, tier_batch t b1
             = rows_of db today now1 t (warranty_candidates db)) ->
  (forall d, In d (all_attempts send1 admins b1) -> success d = true) ->
  now2 - now1 <= timedelta_days 7 ->
  In a (warranty_candidates db) ->
  Asset.warranty_end a = Some we ->
  selects
    (set_warranty_notifications db
       (warranty_notifications db
          ++ written send1 now1 admins b1 TierExpired
          ++ written send1 now1 admins b1 TierCritical
          ++ written send1 now1 admins b1 TierWarning))
    now2 t (we - today) a = true ->
  under_cooldown db now1 (Asset.id a) t = true
  /\ under_cooldown db now2 (Asset.id a) t = false.
Proof.
  intros Hrows1 Hsent Hnear Hin Hwe Hsel.
  apply selects_tier_of_days in Hsel. destruct Hsel as [Htier Hcool2].
  rewrite under_cooldown_after_run in Hcool2.
  apply orb_false_iff in Hcool2. destruct Hcool2 as [Hold Hnew].
  split; [|exact Hold].
  destruct (under_cooldown db now1 (Asset.id a) t) eqn:Hcool1; [reflexivity|].
  exfalso.
  (* alerted in the first run, and recorded *)
  assert (Hin1 : In (a, asset_data_of db a we (we - today)) (tier_batch t b1)).
  { rewrite Hrows1. apply in_rows_of. split; [assumption|].
    exists we. split; [assumption|]. split; [|reflexivity].
    apply selects_tier_of_days. auto. }
  pose proof (delivered_row_written send1 now1 admins b1 t _ Hin1 Hsent)
    as Hrow.
  assert (Hex : existsb
                  (row_matches (now2 - timedelta_days (tier_lookback t))
                               (Asset.id a) (tier_key t))
                  (written send1 now1 admins b1 t) = true).
  { apply existsb_exists. eexists. split; [exact Hrow|].
    unfold row_matches, history_row. cbn.
    rewrite Z.eqb_refl, String.eqb_refl. cbn.
    apply Z.leb_le. unfold timedelta_days in *. destruct t; cbn; lia. }
  congruence.
Qed.

(** C3. Two runs on the same day over data that only the first run
    itself has changed, every delivery of the first run being
    confirmed, the second run less than the shortest cooldown (seven
    days) after the first.  The second run alerts no asset that the
    first run alerted: every asset in an alert of the second run was
    held back in the first run by an earlier history row whose cooldown
    has run out since.  When no cooldown runs out between the two
    runs, the second run asks for no delivery and writes no history
    row, and so leaves the database as the first run left it. *)
Theorem second_run_alerts_only_lapsed
    (send1 send2 : Mailer) (today : date) (now1 now2 : datetime) (db : Db) :
  (forall d,
     In d (snd (check_and_send_warranty_alerts send1 today now1 db)) ->
     success d = true) ->
  now2 - now1 <= timedelta_days 7 ->
  let db1 := fst (check_and_send_warranty_alerts send1 today now1 db) in
  let run2 := check_and_send_warranty_alerts send2 today now2 db1 in
  exists b1 b2,
    alert_batches db today now1 = Some b1
    /\ alert_batches db1 today now2 = Some b2
    /\ (forall d,
          In d (snd run2) ->
          exists t,
            alert_type d = tier_alert t
            /\ alert_assets d = map snd (tier_batch t b2)
            /\ forall a x,
                 In (a, x) (tier_batch t b2) ->
                 under_cooldown db now1 (Asset.id a) t = true
                 /\ under_cooldown db now2 (Asset.id a) t = false
                 /\ forall x', ~ In (a, x') (tier_batch t b1))
    /\ (no_cooldown_runs_out (warranty_notifications db) now1 now2 ->
        run2 = (db1, [])).
Proof.
  intros Hok Hnear db1 run2.
  destruct (run_closed_form send1 today now1 db) as [b1 [Hb1 [Hrows1 Hrun1]]].
  destruct (run_closed_form send2 today now2 db1) as [b2 [Hb2 [Hrows2 Hrun2]]].
  exists b1, b2. split; [exact Hb1|]. split; [exact Hb2|].
  subst run2. rewrite Hrun2. clear Hrun2.
  destruct (get_admin_emails db) as [|r rs] eqn:Hadm.
  - (* no recipient: the first run changed nothing *)
    assert (Hdb1 : db1 = db) by (subst db1; rewrite Hrun1; reflexivity).
    rewrite Hdb1, Hadm. split; [intros d []|reflexivity].
  - set (admins := r :: rs) in *.
    assert (Hdb1 :
              db1 = set_warranty_notifications db
                      (warranty_notifications db
                         ++ written send1 now1 admins b1 TierExpired
                         ++ written send1 now1 admins b1 TierCritical
                         ++ written send1 now1 admins b1 TierWarning))
      by (subst db1; rewrite Hrun1; reflexivity).
    assert (Hsent : forall d, In d (all_attempts send1 admins b1) ->
                              success d = true)
      by (intros d Hd; apply Hok; rewrite Hrun1; exact Hd).
    assert (Hadm1 : get_admin_emails db1 = admins)
      by (rewrite Hdb1; exact Hadm).
    assert (Hcand : warranty_candidates db1 = warranty_candidates db)
      by (rewrite Hdb1; reflexivity).
    assert (Hlapsed : forall t a we,
              In a (warranty_candidates db) ->
              Asset.warranty_end a = Some we ->
              selects db1 now2 t (we - today) a = true ->
              under_cooldown db now1 (Asset.id a) t = true
              /\ under_cooldown db now2 (Asset.id a) t = false).
    { intros t a we Hin Hwe Hsel. rewrite Hdb1 in Hsel.
      apply (second_run_selects send1 today now1 now2 db admins b1 t a we
               Hrows1 Hsent Hnear Hin Hwe Hsel). }
    rewrite Hadm1. unfold admins at 1. cbn [snd]. split.
    + intros d Hd. apply in_attempts in Hd. destruct Hd as [t [_ ->]].
      exists t. split; [reflexivity|]. split; [reflexivity|].
      intros a x Hin. rewrite Hrows2, Hcand in Hin.
      apply in_rows_of in Hin. destruct Hin as [Hc [we [Hwe [Hsel _]]]].
      destruct (Hlapsed t a we Hc Hwe Hsel) as [Hcool1 Hcool2].
      split; [exact Hcool1|]. split; [exact Hcool2|].
      intros x' Hin1. rewrite Hrows1 in Hin1.
      apply in_rows_of in Hin1. destruct Hin1 as [_ [we' [_ [Hsel1 _]]]].
      apply selects_tier_of_days in Hsel1. destruct Hsel1 as [_ Hfree].
      congruence.
    + intros Hhold.
      assert (Hempty : forall t, tier_batch t b2 = []).
      { intros t. rewrite Hrows2, Hcand. apply rows_of_nil.
        intros a we Hin Hwe.
        destruct (selects db1 now2 t (we - today) a) eqn:Hsel; [|reflexivity].
        exfalso.
        destruct (Hlapsed t a we Hin Hwe Hsel) as [Hcool1 Hcool2].
        unfold under_cooldown in Hcool1, Hcool2.
        apply already_notified_iff in Hcool1.
        destruct Hcool1 as [n [Hn [Hid [Hty Hcut]]]].
        assert (Hc : check_warranty_already_notified db now2 (Asset.id a)
                       (tier_key t) (tier_lookback t) = true).
        { apply already_notified_iff. exists n.
          split; [exact Hn|]. split; [exact Hid|]. split; [exact Hty|].
          apply (Hhold t n Hn Hty Hcut). }
        congruence. }
      unfold all_attempts.
      rewrite !written_nil, !attempt_nil by apply Hempty.
      cbn [app]. rewrite set_warranty_notifications_same. reflexivity.
Qed.

(* ------------------------------------------------------------------ *)
(** ** The dashboard summary *)

Section Summary.
Variables (db : Db) (today : date).

Lemma summarise_asset_infos (acc : Summary) (a : Asset.t) (we : date) :
  Asset.warranty_end a = Some we ->
  summarise_asset db today acc a =
  Some (mkSummary
          (summary_expired acc ++ info_if db today (Some TierExpired) a)
          (summary_critical_30 acc ++ info_if db today (Some TierCritical) a)
          (summary_warning_90 acc ++ info_if db today (Some TierWarning) a)
          (summary_active acc ++ info_if db today None a)).
Proof.
  intros Hwe. unfold summarise_asset, info_if, bucket_test. rewrite Hwe.
  destruct acc as [se sc sw sa];
    cbn [summary_expired summary_critical_30 summary_warning_90 summary_active].
  destruct (we - today <? 0); cbn [negb andb];
    [rewrite ?app_nil_r; reflexivity|].
  destruct (we - today <=? 30); cbn [negb andb];
    [rewrite ?app_nil_r; reflexivity|].
  destruct (we - today <=? 90); cbn [negb andb];
    rewrite ?app_nil_r; reflexivity.
Qed.

Lemma summarise_assets_infos (l : list Asset.t) : forall acc,
  Forall (fun a => Asset.warranty_end a <> None) l ->
  summarise_assets db today acc l =
  Some (mkSummary
          (summary_expired acc ++ infos_of db today (Some TierExpired) l)
          (summary_critical_30 acc ++ infos_of db today (Some TierCritical) l)
          (summary_warning_90 acc ++ infos_of db today (Some TierWarning) l)
          (summary_active acc ++ infos_of db today None l)).
Proof.
  induction l as [|a l IH]; intros acc Hall.
  - destruct acc; cbn. rewrite !app_nil_r. reflexivity.
  - inversion Hall as [|? ? Ha Hl]; subst.
    destruct (Asset.warranty_end a) as [we|] eqn:Hwe; [|congruence].
    cbn [summarise_assets]. rewrite (summarise_asset_infos acc a we Hwe).
    rewrite IH by assumption.
    cbn [summary_expired summary_critical_30 summary_warning_90
         summary_active infos_of flat_map].
    rewrite <- !app_assoc. reflexivity.
Qed.

Lemma in_infos_of (k : option Tier) (l : list Asset.t) (i : AssetInfo) :
  In i (infos_of db today k l) <->
  exists a we, In a l /\ Asset.warranty_end a = Some we
               /\ bucket_test k (we - today) = true
               /\ i = asset_info_of db a we (we - today).
Proof.
  unfold infos_of. rewrite in_flat_map. split.
  - intros [a [Ha Hin]]. unfold info_if in Hin.
    destruct (Asset.warranty_end a) as [we|] eqn:Hwe; [|contradiction].
    destruct (bucket_test k (we - today)) eqn:Hk; [|contradiction].
    destruct Hin as [<-|[]]. exists a, we. auto.
  - intros [a [we [Ha [Hwe [Hk ->]]]]]. exists a. split; [assumption|].
    unfold info_if. rewrite Hwe, Hk. left. reflexivity.
Qed.

End Summary.

Lemma bucket_test_tier (k : option Tier) (d : Z) :
  bucket_test k d = true <-> tier_of_days d = k.
Proof.
  unfold bucket_test, tier_of_days.
  destruct (Z.ltb_spec d 0); destruct (Z.leb_spec 0 d); try lia;
    destruct (Z.leb_spec d 30); destruct (Z.leb_spec 31 d); try lia;
    destruct (Z.leb_spec d 90); try lia;
    destruct k as [[| |]|]; cbn [negb andb];
    split; intros H'; try discriminate; reflexivity.
Qed.

(** The summary in closed form: the loop raises nothing. *)
Lemma get_warranty_summary_infos (db : Db) (today : date) :
  exists s,
    get_warranty_summary db today = Some s
    /\ forall k, summary_bucket k s
                 = infos_of db today k (warranty_candidates db).
Proof.
  unfold get_warranty_summary.
  rewrite summarise_assets_infos by apply candidates_have_warranty.
  eexists. split; [reflexivity|].
  intros [[| |]|]; reflexivity.
Qed.

(** C10. For every asset that is not decommissioned and has a
    [warranty_end], and every [today], the summary of the dashboard
    files the asset under the tier the alert run classifies it in:
    expired, critical_30 for the 30-day batch, warning_90 for the 90-day
    batch, active for no alert.  Both report the same
    [days_remaining]. *)
Theorem summary_agrees_with_alert_run
    (db : Db) (today : date) (now : datetime)
    (a : Asset.t) (s : AssetStatus) (we : date) :
  In a (assets db) -> Asset.status a = Some s -> s <> DECOMMISSIONED ->
  Asset.warranty_end a = Some we ->
  exists summary b,
    get_warranty_summary db today = Some summary
    /\ alert_batches db today now = Some b
    /\ let info := asset_info_of db a we (we - today) in
       let data := asset_data_of db a we (we - today) in
       info_id info = Asset.id a
       /\ info_days_remaining info = we - today
       /\ data_days_remaining data = we - today
       /\ exists tier,
            (forall k, In info (summary_bucket k summary) <-> k = tier)
            /\ classified_as db today now b a we tier.
Proof.
  intros Hin Hs Hdec Hwe.
  pose proof (in_candidates db a s we Hin Hs Hdec Hwe) as Hcand.
  destruct (get_warranty_summary_infos db today) as [summary [Hsum Hbucket]].
  destruct (classified_tier_of_days db today now a we Hcand Hwe)
    as [b [Hb Hcl]].
  exists summary, b. split; [assumption|]. split; [assumption|].
  cbv zeta. repeat (split; [reflexivity|]).
  exists (tier_of_days (we - today)). split; [|assumption].
  intros k. rewrite Hbucket, in_infos_of. split.
  - intros [a' [we' [_ [_ [Hk Heq]]]]].
    assert (we' = we) by (unfold asset_info_of in Heq; congruence).
    subst we'. apply bucket_test_tier in Hk. congruence.
  - intros ->. exists a, we. split; [assumption|]. split; [assumption|].
    split; [|reflexivity]. apply bucket_test_tier. reflexivity.
Qed.

End WarrantyProofs.

(* ================================================================== *)
(** * Properties of the lifecycle handlers *)

Module RoutesProofs.
Import Routes RoutesSpec.

Lemma status_is_true (a : Asset.t) (s : AssetStatus) :
  status_is a s = true <-> Asset.status a = Some s.
Proof.
  unfold status_is, opt_ne. destruct (Asset.status a) as [s'|].
  - destruct s', s; cbn; split; intros H; try discriminate; try reflexivity;
      congruence.
  - cbn. split; discriminate.
Qed.

Lemma status_is_false (a : Asset.t) (s : AssetStatus) :
  status_is a s = false <-> Asset.status a <> Some s.
Proof.
  rewrite <- status_is_true. destruct (status_is a s); split; congruence.
Qed.

Lemma query_asset_id (db : Db) (asset_id : Z) (a : Asset.t) :
  query_asset db asset_id = Some a -> Asset.id a = asset_id /\ In a (assets db).
Proof.
  unfold query_asset. intros H. apply find_some in H. destruct H as [Hin Hid].
  apply Z.eqb_eq in Hid. auto.
Qed.

Lemma find_replace_row (asset : Asset.t) (k : Z) (rows : list Asset.t) :
  find (fun a => Asset.id a =? k) (replace_row asset rows) =
  if k =? Asset.id asset then
    match find (fun a => Asset.id a =? k) rows with
    | Some _ => Some asset
    | None => None
    end
  else find (fun a => Asset.id a =? k) rows.
Proof.
  induction rows as [|row rows IH]; cbn [replace_row find].
  - destruct (k =? Asset.id asset); reflexivity.
  - destruct (Z.eqb_spec (Asset.id row) (Asset.id asset)) as [Hrow|Hrow].
    + cbn [find]. destruct (Z.eqb_spec k (Asset.id asset)) as [Hk|Hk].
      * subst k. rewrite Z.eqb_refl. rewrite Hrow, Z.eqb_refl. reflexivity.
      * replace (Asset.id asset =? k) with false by (symmetry; apply Z.eqb_neq; lia).
        replace (Asset.id row =? k) with false by (symmetry; apply Z.eqb_neq; lia).
        reflexivity.
    + cbn [find]. destruct (Z.eqb_spec (Asset.id row) k) as [Hrk|Hrk].
      * replace (k =? Asset.id asset) with false by (symmetry; apply Z.eqb_neq; lia).
        reflexivity.
      * exact IH.
Qed.

Lemma in_replace_row (asset x : Asset.t) (rows : list Asset.t) :
  In x (replace_row asset rows) -> x = asset \/ In x rows.
Proof.
  induction rows as [|row rows IH]; cbn [replace_row]; [intros []|].
  destruct (Asset.id row =? Asset.id asset); cbn [In].
  - intros [<-|Hin]; auto.
  - intros [<-|Hin]; auto. destruct (IH Hin); auto.
Qed.

(** A flush that leaves the constrained columns alone breaks no
    constraint. *)
Lemma integrity_error_unchanged (db : Db) (loaded asset : Asset.t) :
  Asset.asset_type asset = Asset.asset_type loaded ->
  Asset.name asset = Asset.name loaded ->
  Asset.serial_number asset = Asset.serial_number loaded ->
  integrity_error db loaded asset = false.
Proof.
  intros Hty Hname Hser. unfold integrity_error. rewrite Hty, Hname, Hser.
  destruct (Asset.asset_type loaded), (Asset.name loaded); cbn [is_none negb andb orb];
    (destruct (Asset.serial_number loaded) as [sn|]; [|reflexivity]);
    unfold opt_ne; rewrite String.eqb_refl; reflexivity.
Qed.

(** C7. Assigning an asset whose status is decommissioned fails with
    [InvalidTransition]; the database is left as it was: every field of
    the asset, and no audit entry written. *)
Theorem assign_decommissioned_rejected
    (db : Db) (today : date) (asset_id : Z) (assignment : AssetAssign.t)
    (current_user : User.t) (a : Asset.t) :
  query_asset db asset_id = Some a ->
  Asset.status a = Some DECOMMISSIONED ->
  let r := serve (assign_asset today asset_id assignment current_user) db in
  r = Raised (InvalidTransition "Cannot assign decommissioned asset") []
  /\ durable db r = db
  /\ query_asset (durable db r) asset_id = Some a
  /\ audit_logs (durable db r) = audit_logs db.
Proof.
  intros Hq Hs r.
  assert (Hr : r = Raised (InvalidTransition "Cannot assign decommissioned asset") []).
  { subst r. unfold serve, assign_asset, bind, get_asset_or_404.
    cbn [session outbox]. rewrite Hq.
    apply status_is_true in Hs. rewrite Hs. reflexivity. }
  rewrite Hr. cbn [durable]. auto.
Qed.

Lemma query_committed_any
    (db : Db) (logs : list AuditLog.t) (asset : Asset.t) (k : Z) :
  query_asset (committed db logs asset) k =
  if k =? Asset.id asset then
    match query_asset db k with
    | Some _ => Some asset
    | None => None
    end
  else query_asset db k.
Proof.
  unfold committed, query_asset. cbn [assets set_repairs set_assets set_audit_logs].
  apply find_replace_row.
Qed.

Lemma query_committed
    (db : Db) (logs : list AuditLog.t) (asset loaded : Asset.t) (asset_id : Z) :
  query_asset db asset_id = Some loaded ->
  Asset.id asset = Asset.id loaded ->
  query_asset (committed db logs asset) asset_id = Some asset.
Proof.
  intros Hq Hid. rewrite query_committed_any, Hq.
  destruct (query_asset_id db asset_id loaded Hq) as [Hl _].
  rewrite Hid, Hl, Z.eqb_refl. reflexivity.
Qed.

Ltac enter_handler Hq :=
  unfold serve, bind, get_asset_or_404; cbn [session outbox]; rewrite Hq.

Ltac commit_unchanged :=
  rewrite integrity_error_unchanged by reflexivity.

Lemma decommission_asset_outcome
    (db : Db) (today : date) (asset_id : Z) (data : AssetDecommission.t)
    (current_user : User.t) (loaded : Asset.t) :
  query_asset db asset_id = Some loaded ->
  serve (decommission_asset today asset_id data current_user) db =
  if status_is loaded DECOMMISSIONED then
    Raised (InvalidTransition "Asset is already decommissioned") []
  else
    let asset :=
      decommissioned_asset loaded today (AssetDecommission.reason data) in
    Returned asset
      (mkWorld
         (committed db
            [AuditLog.mk (Some (User.id current_user)) (Some (Asset.id loaded))
               "DECOMMISSION" "asset" (Some (Asset.id loaded))
               (Some (PDict [("reason", PStr (AssetDecommission.reason data))]))]
            asset)
         []).
Proof.
  intros Hq. unfold decommission_asset. enter_handler Hq.
  destruct (status_is loaded DECOMMISSIONED); [reflexivity|].
  unfold log_action, json_dumps, db_add_audit_log, db_commit, ret.
  cbn [json_serialisable forallb snd andb session outbox].
  commit_unchanged. reflexivity.
Qed.

(** C8. The decommission route refuses a reason shorter than 10
    characters with [ValidationError] and changes nothing.  With a
    reason of 10 characters or more, on an asset that is not
    decommissioned, it succeeds: [status] becomes decommissioned,
    [decommission_date] today, [decommission_reason] the reason, and
    [assigned_to] and [assigned_date] are cleared, in the object returned
    and in the row stored. *)
Theorem decommission_reason_length
    (db : Db) (today : date) (asset_id : Z) (reason : string)
    (current_user : User.t) :
  let r := serve (post_decommission today asset_id reason current_user) db in
  ((String.length reason < 10)%nat ->
   r = Raised (ValidationError "String should have at least 10 characters") []
   /\ durable db r = db)
  /\ ((10 <= String.length reason)%nat ->
      forall loaded,
        query_asset db asset_id = Some loaded ->
        Asset.status loaded <> Some DECOMMISSIONED ->
        exists asset w,
          r = Returned asset w
          /\ Asset.status asset = Some DECOMMISSIONED
          /\ Asset.decommission_date asset = Some today
          /\ Asset.decommission_reason asset = Some reason
          /\ Asset.assigned_to asset = None
          /\ Asset.assigned_date asset = None
          /\ query_asset (durable db r) asset_id = Some asset).
Proof.
  intros r. subst r. unfold post_decommission, AssetDecommission.model_validate.
  split.
  - intros Hlen. apply Nat.ltb_lt in Hlen. rewrite Hlen. split; reflexivity.
  - intros Hlen loaded Hq Hs.
    replace (String.length reason <? 10)%nat with false
      by (symmetry; apply Nat.ltb_ge; exact Hlen).
    rewrite (decommission_asset_outcome db today asset_id _ current_user loaded Hq).
    apply status_is_false in Hs. rewrite Hs. cbv zeta.
    eexists. eexists. split; [reflexivity|].
    repeat (split; [reflexivity|]).
    cbn [durable session].
    apply (query_committed db _ _ loaded asset_id Hq). reflexivity.
Qed.

Lemma json_serialisable_opt_int (x : option Z) :
  json_serialisable (py_opt_int x) = true.
Proof. destruct x; reflexivity. Qed.

Ltac run_log_commit :=
  unfold log_action, json_dumps, db_add_audit_log, db_commit, ret,
         send_assignment_notification;
  cbn [json_serialisable forallb snd andb session outbox];
  rewrite ?json_serialisable_opt_int;
  cbn [andb session outbox];
  commit_unchanged.

Ltac committed_row loaded Hq :=
  right; exists loaded; eexists; eexists;
  split; [exact Hq|];
  split; [|split; [cbn [durable session]; unfold committed; reflexivity|]];
  [reflexivity|].

Lemma assign_asset_effect
    (db : Db) (today : date) (asset_id : Z) (assignment : AssetAssign.t)
    (current_user : User.t) :
  row_effect db
    (durable db (serve (assign_asset today asset_id assignment current_user) db))
    asset_id
    (fun loaded asset =>
       Asset.status loaded <> Some DECOMMISSIONED
       /\ ((Asset.status asset = Some ACTIVE
            /\ exists e, Asset.assigned_to asset = Some e)
           \/ (Asset.status asset = Some AVAILABLE
               /\ Asset.assigned_to asset = None))).
Proof.
  destruct (query_asset db asset_id) as [loaded|] eqn:Hq.
  2:{ left. unfold assign_asset. enter_handler Hq. reflexivity. }
  unfold assign_asset. enter_handler Hq.
  destruct (status_is loaded DECOMMISSIONED) eqn:Hs; [left; reflexivity|].
  apply status_is_false in Hs.
  destruct (AssetAssign.employee_id assignment) as [e|] eqn:He.
  - destruct (e =? 0).
    + run_log_commit. committed_row loaded Hq. auto.
    + unfold get_employee_or_404. cbn [session outbox].
      destruct (query_employee db e) as [employee|]; [|left; reflexivity].
      change (Asset.asset_type
                (Asset.set_status
                   (Asset.set_assigned_date
                      (Asset.set_assigned_to loaded (Some (Employee.id employee)))
                      (Some today))
                   (Some ACTIVE)))
        with (Asset.asset_type loaded).
      destruct (Asset.asset_type loaded) as [ty|] eqn:Hty; [|left; reflexivity].
      run_log_commit. committed_row loaded Hq.
      split; [assumption|]. left. split; [reflexivity|]. eexists. reflexivity.
  - run_log_commit. committed_row loaded Hq. auto.
Qed.

Lemma decommission_asset_effect
    (db : Db) (today : date) (asset_id : Z) (reason : string)
    (current_user : User.t) :
  row_effect db
    (durable db (serve (post_decommission today asset_id reason current_user) db))
    asset_id
    (fun loaded asset =>
       Asset.status loaded <> Some DECOMMISSIONED
       /\ asset = decommissioned_asset loaded today reason).
Proof.
  unfold post_decommission.
  destruct (AssetDecommission.model_validate reason) as [data|] eqn:Hv;
    [|left; reflexivity].
  assert (Hr : AssetDecommission.reason data = reason).
  { unfold AssetDecommission.model_validate in Hv.
    destruct (String.length reason <? 10)%nat; [discriminate|].
    inversion Hv. reflexivity. }
  destruct (query_asset db asset_id) as [loaded|] eqn:Hq.
  2:{ left. unfold decommission_asset. enter_handler Hq. reflexivity. }
  rewrite (decommission_asset_outcome db today asset_id data current_user loaded Hq).
  destruct (status_is loaded DECOMMISSIONED) eqn:Hs; [left; reflexivity|].
  apply status_is_false in Hs. cbv zeta. cbn [durable session]. rewrite Hr.
  committed_row loaded Hq. auto.
Qed.

Lemma mark_asset_fixed_effect
    (db : Db) (asset_id : Z) (current_user : User.t) :
  row_effect db
    (durable db (serve (mark_asset_fixed asset_id current_user) db))
    asset_id
    (fun loaded asset =>
       Asset.status loaded = Some REPAIR
       /\ asset = Asset.set_status loaded
                    (Some (if truthy_int (Asset.assigned_to loaded)
                           then ACTIVE else AVAILABLE))).
Proof.
  destruct (query_asset db asset_id) as [loaded|] eqn:Hq.
  2:{ left. unfold mark_asset_fixed. enter_handler Hq. reflexivity. }
  unfold mark_asset_fixed. enter_handler Hq.
  destruct (status_is loaded REPAIR) eqn:Hs; cbn [negb]; [|left; reflexivity].
  apply status_is_true in Hs.
  run_log_commit. committed_row loaded Hq. auto.
Qed.

(** [add_repair] never gets past its audit entry: the dictionary it
    hands to [json.dumps] holds the [date] of [repair_date]. *)
Lemma add_repair_raises
    (db : Db) (asset_id : Z) (repair_data : RepairCreate.t)
    (current_user : User.t) (loaded : Asset.t) :
  query_asset db asset_id = Some loaded ->
  serve (add_repair asset_id repair_data current_user) db =
  Raised (TypeError "Object of type date is not JSON serializable") [].
Proof.
  intros Hq. unfold add_repair, add_repair_session. enter_handler Hq.
  reflexivity.
Qed.

Lemma add_repair_durable
    (db : Db) (asset_id : Z) (repair_data : RepairCreate.t)
    (current_user : User.t) :
  durable db (serve (add_repair asset_id repair_data current_user) db) = db.
Proof.
  destruct (query_asset db asset_id) as [loaded|] eqn:Hq.
  - rewrite (add_repair_raises db asset_id repair_data current_user loaded Hq).
    reflexivity.
  - unfold add_repair, add_repair_session. enter_handler Hq. reflexivity.
Qed.

(* ---------------------------------------------------------------- *)

Lemma update_item_frame (st : Asset.t * list (string * pyval)) (it : AssetUpdate.item) :
  Asset.id (fst (update_item st it)) = Asset.id (fst st)
  /\ Asset.assigned_to (fst (update_item st it)) = Asset.assigned_to (fst st)
  /\ (is_status_item it = false ->
      Asset.status (fst (update_item st it)) = Asset.status (fst st))
  /\ (changes_serialisable (snd st) = true ->
      changes_serialisable (snd (update_item st it)) = true).
Proof.
  destruct st as [asset changes].
  destruct it; unfold update_item, update_attr;
    match goal with |- context [opt_ne ?e ?x ?y] => destruct (opt_ne e x y) end;
    cbn [fst snd]; repeat split; try reflexivity; try discriminate;
    try (intros H; exact H);
    intros H; unfold changes_serialisable in *; rewrite forallb_app, H;
    reflexivity.
Qed.

Lemma fold_update_frame (dict : list AssetUpdate.item) :
  forall st,
    Asset.id (fst (fold_left update_item dict st)) = Asset.id (fst st)
    /\ Asset.assigned_to (fst (fold_left update_item dict st))
       = Asset.assigned_to (fst st)
    /\ (forallb (fun it => negb (is_status_item it)) dict = true ->
        Asset.status (fst (fold_left update_item dict st)) = Asset.status (fst st))
    /\ (changes_serialisable (snd st) = true ->
        changes_serialisable (snd (fold_left update_item dict st)) = true).
Proof.
  induction dict as [|it dict IH]; intros st; cbn [fold_left forallb].
  - auto.
  - destruct (IH (update_item st it)) as [Hid [Hto [Hst Hser]]].
    destruct (update_item_frame st it) as [Hid' [Hto' [Hst' Hser']]].
    repeat split.
    + congruence.
    + congruence.
    + intros H. apply andb_true_iff in H. destruct H as [Hit Hrest].
      rewrite Hst by assumption. apply Hst'.
      destruct (is_status_item it); [discriminate|reflexivity].
    + auto.
Qed.

Lemma entry_forallb {A} (p : AssetUpdate.item -> bool)
    (k : A -> AssetUpdate.item) (field : option A) :
  (forall v, p (k v) = true) -> forallb p (AssetUpdate.entry k field) = true.
Proof.
  intros H. destruct field as [v|]; cbn; [rewrite H|]; reflexivity.
Qed.

Lemma dump_without_status (u : AssetUpdate.t) :
  AssetUpdate.status u = None ->
  forallb (fun it => negb (is_status_item it))
          (AssetUpdate.model_dump_exclude_unset u) = true.
Proof.
  intros Hs. unfold AssetUpdate.model_dump_exclude_unset. rewrite Hs.
  rewrite !forallb_app.
  rewrite !entry_forallb by reflexivity. reflexivity.
Qed.

Lemma opt_ne_status_false (x y : option AssetStatus) :
  opt_ne AssetStatus_eqb x y = false -> x = y.
Proof.
  destruct x as [[]|], y as [[]|]; cbn; intros H; try discriminate; reflexivity.
Qed.

Lemma dump_with_status (u : AssetUpdate.t) (v : option AssetStatus) :
  AssetUpdate.status u = Some v ->
  forall st,
    Asset.status (fst (fold_left update_item
                         (AssetUpdate.model_dump_exclude_unset u) st)) = v.
Proof.
  intros Hs st. unfold AssetUpdate.model_dump_exclude_unset. rewrite Hs.
  rewrite !app_assoc. rewrite fold_left_app.
  cbn [AssetUpdate.entry fold_left].
  match goal with |- context [update_item ?s _] => destruct s as [asset changes] end.
  unfold update_item, update_attr.
  destruct (opt_ne AssetStatus_eqb (Asset.status asset) v) eqn:Hne; cbn [fst].
  - reflexivity.
  - apply opt_ne_status_false. assumption.
Qed.

Lemma committed_nil (db : Db) (asset : Asset.t) :
  set_repairs (set_assets db (replace_row asset (assets db)))
              (flush_repairs (repairs db))
  = committed db [] asset.
Proof.
  unfold committed. destruct db. cbn. rewrite app_nil_r. reflexivity.
Qed.

Lemma update_asset_effect
    (db : Db) (asset_id : Z) (update_data : AssetUpdate.t)
    (current_user : User.t) :
  row_effect db
    (durable db (serve (update_asset asset_id update_data current_user) db))
    asset_id
    (fun loaded asset =>
       asset = fst (fold_left update_item
                      (AssetUpdate.model_dump_exclude_unset update_data)
                      (loaded, []))).
Proof.
  destruct (query_asset db asset_id) as [loaded|] eqn:Hq.
  2:{ left. unfold update_asset. enter_handler Hq. reflexivity. }
  unfold update_asset. enter_handler Hq.
  destruct (fold_update_frame (AssetUpdate.model_dump_exclude_unset update_data)
              (loaded, [])) as [Hid [_ [_ Hser]]].
  specialize (Hser eq_refl).
  destruct (fold_left update_item
              (AssetUpdate.model_dump_exclude_unset update_data) (loaded, []))
    as [asset changes] eqn:Hfold.
  cbn [fst snd] in Hid, Hser.
  destruct changes as [|c cs].
  - unfold ret, db_commit. cbn [session outbox].
    destruct (integrity_error db loaded asset); [left; reflexivity|].
    cbn [durable session]. rewrite committed_nil.
    right. exists loaded, asset, [].
    split; [exact Hq|]. split; [exact Hid|].
    split; [reflexivity|rewrite Hfold; reflexivity].
  - unfold log_action, json_dumps.
    change (json_serialisable (PDict (c :: cs)))
      with (changes_serialisable (c :: cs)).
    rewrite Hser.
    unfold db_add_audit_log, db_commit, ret. cbn [session outbox].
    match goal with |- context [integrity_error ?d ?l ?a] =>
      destruct (integrity_error d l a) end; [left; reflexivity|].
    right. exists loaded, asset. eexists.
    split; [exact Hq|]. split; [exact Hid|].
    split; [cbn [durable session]; unfold committed; reflexivity|].
    rewrite Hfold. reflexivity.
Qed.

(* ---------------------------------------------------------------- *)

Lemma row_effect_keeps_decommissioned
    (db db' : Db) (asset_id : Z) (P : Asset.t -> Asset.t -> Prop) :
  row_effect db db' asset_id P ->
  (forall loaded asset,
     P loaded asset -> Asset.status loaded = Some DECOMMISSIONED ->
     Asset.status asset = Some DECOMMISSIONED) ->
  forall k a,
    query_asset db k = Some a -> Asset.status a = Some DECOMMISSIONED ->
    stored_status db' k = Some (Some DECOMMISSIONED).
Proof.
  intros [->|[loaded [asset [logs [Hq [Hid [-> HP]]]]]]] Hkeep k a Hk Hs;
    unfold stored_status.
  - rewrite Hk. cbn. rewrite Hs. reflexivity.
  - rewrite query_committed_any, Hk.
    destruct (Z.eqb_spec k (Asset.id asset)) as [Heq|Hne].
    + destruct (query_asset_id db asset_id loaded Hq) as [Hl _].
      assert (k = asset_id) by congruence. subst k.
      assert (a = loaded) by congruence. subst a.
      cbn. rewrite (Hkeep loaded asset HP Hs). reflexivity.
    + cbn. rewrite Hs. reflexivity.
Qed.

Lemma row_effect_keeps_invariant
    (I : Asset.t -> Prop)
    (db db' : Db) (asset_id : Z) (P : Asset.t -> Asset.t -> Prop) :
  row_effect db db' asset_id P ->
  (forall loaded asset, P loaded asset -> I loaded -> I asset) ->
  Forall I (assets db) -> Forall I (assets db').
Proof.
  intros [->|[loaded [asset [logs [Hq [Hid [-> HP]]]]]]] Hkeep Hall;
    [assumption|].
  unfold committed. cbn [assets set_repairs set_assets set_audit_logs].
  rewrite Forall_forall in *. intros x Hx.
  destruct (in_replace_row asset x (assets db) Hx) as [->|Hin]; [|auto].
  apply (Hkeep loaded); [assumption|].
  apply Hall. apply (query_asset_id db asset_id loaded Hq).
Qed.

Lemma add_repair_session_outcome
    (db : Db) (asset_id : Z) (repair_data : RepairCreate.t) (loaded : Asset.t) :
  query_asset db asset_id = Some loaded ->
  let repair :=
    Repair.mk None asset_id
      (RepairCreate.repair_date repair_data)
      (RepairCreate.issue_description repair_data)
      (RepairCreate.resolution repair_data)
      (RepairCreate.cost repair_data)
      (RepairCreate.is_warranty_repair repair_data)
      (RepairCreate.vendor repair_data)
      (RepairCreate.ticket_number repair_data) in
  serve (add_repair_session asset_id repair_data) db =
  Returned
    (loaded,
     if status_is loaded DECOMMISSIONED then loaded
     else Asset.set_status loaded (Some REPAIR),
     repair)
    (mkWorld (set_repairs db (repairs db ++ [repair])) []).
Proof.
  intros Hq repair. unfold add_repair_session. enter_handler Hq.
  unfold db_add_repair, ret. cbn [session outbox].
  destruct (status_is loaded DECOMMISSIONED); reflexivity.
Qed.

Lemma update_asset_returned
    (db : Db) (asset_id : Z) (update_data : AssetUpdate.t)
    (current_user : User.t) (asset : Asset.t) (w : World) :
  serve (update_asset asset_id update_data current_user) db = Returned asset w ->
  exists loaded,
    query_asset db asset_id = Some loaded
    /\ asset = fst (fold_left update_item
                      (AssetUpdate.model_dump_exclude_unset update_data)
                      (loaded, []))
    /\ query_asset (session w) asset_id = Some asset.
Proof.
  destruct (query_asset db asset_id) as [loaded|] eqn:Hq.
  2:{ unfold update_asset. enter_handler Hq. discriminate. }
  unfold update_asset. enter_handler Hq.
  destruct (fold_update_frame (AssetUpdate.model_dump_exclude_unset update_data)
              (loaded, [])) as [Hid [_ [_ Hser]]].
  specialize (Hser eq_refl).
  destruct (fold_left update_item
              (AssetUpdate.model_dump_exclude_unset update_data) (loaded, []))
    as [asset' changes] eqn:Hfold.
  cbn [fst snd] in Hid, Hser.
  destruct changes as [|c cs].
  - unfold ret, db_commit. cbn [session outbox].
    destruct (integrity_error db loaded asset'); [discriminate|].
    rewrite committed_nil. intros H. inversion H; subst.
    exists loaded. split; [reflexivity|].
    split; [rewrite Hfold; reflexivity|].
    cbn [session]. apply (query_committed db [] asset loaded asset_id Hq Hid).
  - unfold log_action, json_dumps.
    change (json_serialisable (PDict (c :: cs)))
      with (changes_serialisable (c :: cs)).
    rewrite Hser.
    unfold db_add_audit_log, db_commit, ret. cbn [session outbox].
    match goal with |- context [integrity_error ?d ?l ?a] =>
      destruct (integrity_error d l a) end; [discriminate|].
    intros H. inversion H; subst.
    exists loaded. split; [reflexivity|].
    split; [rewrite Hfold; reflexivity|].
    cbn [session].
    apply (query_committed db [_] asset loaded asset_id Hq Hid).
Qed.

(** C5, as the code has it.  An asset whose status is decommissioned
    keeps that status through every request to assign, unassign,
    decommission, record a repair or mark fixed, whichever asset the
    request names, and through every update-asset request that does not
    set the [status] field.  An update-asset request that sets [status]
    stores the status it carries, whatever the asset's status was. *)
Theorem decommissioned_terminal_lifecycle
    (db : Db) (k : Z) (a : Asset.t) :
  query_asset db k = Some a ->
  Asset.status a = Some DECOMMISSIONED ->
  (forall today asset_id assignment user,
     stored_status
       (durable db (serve (assign_asset today asset_id assignment user) db)) k
     = Some (Some DECOMMISSIONED))
  /\ (forall today asset_id reason user,
        stored_status
          (durable db (serve (post_decommission today asset_id reason user) db)) k
        = Some (Some DECOMMISSIONED))
  /\ (forall asset_id repair_data user,
        stored_status
          (durable db (serve (add_repair asset_id repair_data user) db)) k
        = Some (Some DECOMMISSIONED))
  /\ (forall repair_data,
        exists repair w,
          serve (add_repair_session k repair_data) db
          = Returned (a, a, repair) w)
  /\ (forall asset_id user,
        stored_status
          (durable db (serve (mark_asset_fixed asset_id user) db)) k
        = Some (Some DECOMMISSIONED))
  /\ (forall asset_id update_data user,
        AssetUpdate.status update_data = None ->
        stored_status
          (durable db (serve (update_asset asset_id update_data user) db)) k
        = Some (Some DECOMMISSIONED))
  /\ (forall update_data user v asset w,
        AssetUpdate.status update_data = Some v ->
        serve (update_asset k update_data user) db = Returned asset w ->
        Asset.status asset = v /\ stored_status (session w) k = Some v).
Proof.
  intros Hk Hs.
  split; [|split; [|split; [|split; [|split; [|split]]]]].
  - intros today asset_id assignment user.
    apply (row_effect_keeps_decommissioned _ _ _ _
             (assign_asset_effect db today asset_id assignment user)
             ltac:(intros l x [Hnd _] Hd; congruence) k a Hk Hs).
  - intros today asset_id reason user.
    apply (row_effect_keeps_decommissioned _ _ _ _
             (decommission_asset_effect db today asset_id reason user)
             ltac:(intros l x [Hnd _] Hd; congruence) k a Hk Hs).
  - intros asset_id repair_data user. rewrite add_repair_durable.
    unfold stored_status. rewrite Hk. cbn. rewrite Hs. reflexivity.
  - intros repair_data. eexists. eexists.
    rewrite (add_repair_session_outcome db k repair_data a Hk). cbv zeta.
    apply status_is_true in Hs. rewrite Hs. reflexivity.
  - intros asset_id user.
    apply (row_effect_keeps_decommissioned _ _ _ _
             (mark_asset_fixed_effect db asset_id user)
             ltac:(intros l x [Hr _] Hd; congruence) k a Hk Hs).
  - intros asset_id update_data user Hunset.
    refine (row_effect_keeps_decommissioned _ _ _ _
              (update_asset_effect db asset_id update_data user) _ k a Hk Hs).
    intros l x -> Hd.
    destruct (fold_update_frame
                (AssetUpdate.model_dump_exclude_unset update_data) (l, []))
      as [_ [_ [Hst _]]].
    rewrite Hst by (apply dump_without_status; assumption). exact Hd.
  - intros update_data user v asset w Hset Hrun.
    destruct (update_asset_returned db k update_data user asset w Hrun)
      as [loaded [_ [Hasset Hstored]]].
    assert (Hv : Asset.status asset = v)
      by (rewrite Hasset; apply dump_with_status; assumption).
    split; [assumption|]. unfold stored_status. rewrite Hstored. cbn.
    rewrite Hv. reflexivity.
Qed.

(** C6, as the code has it.  The invariant on [assigned_to] and
    [status], with its exception for assets in repair, holds of every
    row after a request to assign, unassign, decommission or record a
    repair, after a request to mark fixed when no [assigned_to] is the
    key 0 (generated keys start at 1, and Python reads 0 as false), and
    after an update-asset request that does not set [status].  An
    update-asset request never touches [assigned_to], and one that sets
    [status] stores the status it carries. *)
Theorem assignment_invariant_lifecycle (db : Db) :
  Forall assignment_invariant (assets db) ->
  (forall today asset_id assignment user,
     Forall assignment_invariant
       (assets (durable db
                  (serve (assign_asset today asset_id assignment user) db))))
  /\ (forall today asset_id reason user,
        Forall assignment_invariant
          (assets (durable db
                     (serve (post_decommission today asset_id reason user) db))))
  /\ (forall asset_id repair_data user,
        Forall assignment_invariant
          (assets (durable db
                     (serve (add_repair asset_id repair_data user) db))))
  /\ (forall asset_id repair_data loaded asset repair w,
        serve (add_repair_session asset_id repair_data) db
        = Returned (loaded, asset, repair) w ->
        assignment_invariant asset)
  /\ (Forall (fun a => Asset.assigned_to a <> Some 0) (assets db) ->
      forall asset_id user,
        Forall assignment_invariant
          (assets (durable db (serve (mark_asset_fixed asset_id user) db))))
  /\ (forall asset_id update_data user,
        AssetUpdate.status update_data = None ->
        Forall assignment_invariant
          (assets (durable db
                     (serve (update_asset asset_id update_data user) db))))
  /\ (forall asset_id update_data user loaded asset w,
        query_asset db asset_id = Some loaded ->
        serve (update_asset asset_id update_data user) db = Returned asset w ->
        Asset.assigned_to asset = Asset.assigned_to loaded
        /\ forall v, AssetUpdate.status update_data = Some v ->
                     Asset.status asset = v).
Proof.
  intros Hinv.
  split; [|split; [|split; [|split; [|split; [|split]]]]].
  - intros today asset_id assignment user.
    apply (row_effect_keeps_invariant _ _ _ _ _
             (assign_asset_effect db today asset_id assignment user));
      [|assumption].
    intros l x [_ [[Hst [e He]]|[Hst Hto]]] _; unfold assignment_invariant;
      rewrite Hst; [rewrite He|rewrite Hto]; split; intros H;
      try discriminate; try congruence; auto.
  - intros today asset_id reason user.
    apply (row_effect_keeps_invariant _ _ _ _ _
             (decommission_asset_effect db today asset_id reason user));
      [|assumption].
    intros l x [_ ->] _. unfold assignment_invariant. cbn.
    split; intros H; [discriminate|congruence].
  - intros asset_id repair_data user. rewrite add_repair_durable. assumption.
  - intros asset_id repair_data loaded asset repair w Hrun.
    destruct (query_asset db asset_id) as [l|] eqn:Hq.
    + rewrite (add_repair_session_outcome db asset_id repair_data l Hq) in Hrun.
      cbv zeta in Hrun. inversion Hrun; subst.
      assert (Hl : assignment_invariant loaded).
      { rewrite Forall_forall in Hinv. apply Hinv.
        apply (query_asset_id db asset_id loaded Hq). }
      destruct (status_is loaded DECOMMISSIONED); [assumption|].
      unfold assignment_invariant. cbn.
      split; intros H; [discriminate|auto].
    + unfold add_repair_session in Hrun. revert Hrun. enter_handler Hq.
      discriminate.
  - intros Hnz asset_id user.
    apply (Forall_impl assignment_invariant
             (P := fun a => assignment_invariant a
                            /\ Asset.assigned_to a <> Some 0));
      [tauto|].
    apply (row_effect_keeps_invariant _ _ _ _ _
             (mark_asset_fixed_effect db asset_id user));
      [|apply Forall_and; assumption].
    intros l x [_ ->] [_ Hl]. unfold assignment_invariant. cbn.
    destruct (Asset.assigned_to l) as [e|]; cbn [truthy_int].
    + destruct (Z.eqb_spec e 0) as [->|He]; [congruence|]. cbn [negb].
      repeat split; try discriminate; auto.
    + repeat split; try discriminate; congruence.
  - intros asset_id update_data user Hunset.
    apply (row_effect_keeps_invariant _ _ _ _ _
             (update_asset_effect db asset_id update_data user));
      [|assumption].
    intros l x -> Hl.
    destruct (fold_update_frame
                (AssetUpdate.model_dump_exclude_unset update_data) (l, []))
      as [_ [Hto [Hst _]]].
    specialize (Hst (dump_without_status update_data Hunset)).
    cbn [fst] in Hto, Hst. unfold assignment_invariant.
    rewrite Hto, Hst. exact Hl.
  - intros asset_id update_data user loaded asset w Hq Hrun.
    destruct (update_asset_returned db asset_id update_data user asset w Hrun)
      as [loaded' [Hq' [Hasset _]]].
    assert (loaded' = loaded) by congruence. subst loaded'.
    destruct (fold_update_frame
                (AssetUpdate.model_dump_exclude_unset update_data) (loaded, []))
      as [_ [Hto _]].
    cbn [fst] in Hto. rewrite Hasset. split; [exact Hto|].
    intros v Hv. apply dump_with_status. assumption.
Qed.

(** What the record-repair handler does before it writes its audit
    entry.  For every asset, decommissioned or not, it adds a repair
    record for it to the session and never touches [assigned_to]; it
    sets the status to repair when the asset is not decommissioned and
    leaves the asset as it is when it is decommissioned.  No request to
    record a repair on an asset that exists ends in
    [InvalidTransition]. *)
Lemma record_repair_attempt
    (db : Db) (asset_id : Z) (repair_data : RepairCreate.t) (loaded : Asset.t) :
  query_asset db asset_id = Some loaded ->
  exists asset repair w,
    serve (add_repair_session asset_id repair_data) db
    = Returned (loaded, asset, repair) w
    /\ repairs (session w) = repairs db ++ [repair]
    /\ Repair.asset_id repair = asset_id
    /\ Asset.assigned_to asset = Asset.assigned_to loaded
    /\ (Asset.status loaded <> Some DECOMMISSIONED ->
        asset = Asset.set_status loaded (Some REPAIR))
    /\ (Asset.status loaded = Some DECOMMISSIONED -> asset = loaded)
    /\ (forall current_user detail,
          serve (add_repair asset_id repair_data current_user) db
          <> Raised (InvalidTransition detail) []).
Proof.
  intros Hq. eexists. eexists. eexists.
  split; [apply (add_repair_session_outcome db asset_id repair_data loaded Hq)|].
  split; [reflexivity|]. split; [reflexivity|].
  split; [destruct (status_is loaded DECOMMISSIONED); reflexivity|].
  split; [|split].
  - intros Hs. apply status_is_false in Hs. rewrite Hs. reflexivity.
  - intros Hs. apply status_is_true in Hs. rewrite Hs. reflexivity.
  - intros current_user detail.
    rewrite (add_repair_raises db asset_id repair_data current_user loaded Hq).
    discriminate.
Qed.

End RoutesProofs.

(* ================================================================== *)
(** * The claims on the small fleet *)

Module Examples.
Import WarrantyNotificationService WarrantySpec WarrantyProofs.
Import Routes RoutesSpec RoutesProofs Fleet.

Lemma warranty_tier_thresholds_witness :
  exists b,
    alert_batches fleet today now = Some b
    /\ data_days_remaining
         (asset_data_of fleet asset_B (today + 30) (today + 30 - today)) = 30
    /\ classified_as fleet today now b asset_B (today + 30) (Some TierCritical).
Proof.
  destruct (warranty_tier_thresholds fleet today now asset_B ACTIVE (today + 30))
    as [b [Hb [_ [_ [_ [_ [_ [H30 _]]]]]]]].
  - simpl. tauto.
  - reflexivity.
  - discriminate.
  - reflexivity.
  - exists b. split; [exact Hb|]. split; [reflexivity|].
    apply H30. reflexivity.
Defined.

Lemma cooldown_suppression_witness :
  exists b,
    alert_batches fleet_notified today now = Some b
    /\ ~ In (asset_A, asset_data_of fleet_notified asset_A (today - 5) (-5))
            (expired b).
Proof.
  destruct (cooldown_suppression fleet_notified today now asset_A AVAILABLE
              (today - 5) TierExpired)
    as [b [Hb [Hiff _]]].
  - simpl. tauto.
  - reflexivity.
  - discriminate.
  - reflexivity.
  - reflexivity.
  - exists b. split; [exact Hb|].
    apply Hiff.
    exists (WarrantyNotification.mk 1 "expired" (now - timedelta_days 1)).
    split; [simpl; tauto|]. split; [reflexivity|]. split; [reflexivity|].
    vm_compute. discriminate.
Defined.

Lemma second_run_alerts_only_lapsed_witness :
  check_and_send_warranty_alerts always_delivers today (now + one_hour)
    (fst (check_and_send_warranty_alerts always_delivers today now
            fleet_notified))
  = (fst (check_and_send_warranty_alerts always_delivers today now
            fleet_notified), []).
Proof.
  destruct (second_run_alerts_only_lapsed always_delivers always_delivers today
              now (now + one_hour) fleet_notified)
    as [b1 [b2 [_ [_ [_ Hsame]]]]].
  - intros d Hd. vm_compute in Hd.
    repeat (destruct Hd as [<-|Hd]; [reflexivity|]). destruct Hd.
  - vm_compute. discriminate.
  - apply Hsame. intros t n Hin Hty Hcut.
    destruct Hin as [<-|[]].
    destruct t; try discriminate Hty.
    vm_compute. discriminate.
Defined.

Lemma summary_agrees_with_alert_run_witness :
  exists summary b,
    get_warranty_summary fleet today = Some summary
    /\ alert_batches fleet today now = Some b
    /\ exists tier,
         (forall k,
            In (asset_info_of fleet asset_C (today + 31) (today + 31 - today))
               (summary_bucket k summary) <-> k = tier)
         /\ classified_as fleet today now b asset_C (today + 31) tier.
Proof.
  destruct (summary_agrees_with_alert_run fleet today now asset_C REPAIR
              (today + 31))
    as [summary [b [Hs [Hb [_ [_ [_ H]]]]]]].
  - simpl. tauto.
  - reflexivity.
  - discriminate.
  - reflexivity.
  - exists summary, b. auto.
Defined.

Lemma assign_decommissioned_rejected_witness :
  serve (assign_asset today 4 (AssetAssign.mk (Some 42)) tech) fleet
  = Raised (InvalidTransition "Cannot assign decommissioned asset") []
  /\ durable fleet
       (serve (assign_asset today 4 (AssetAssign.mk (Some 42)) tech) fleet)
     = fleet.
Proof.
  destruct (assign_decommissioned_rejected fleet today 4
              (AssetAssign.mk (Some 42)) tech asset_D)
    as [Hr [Hd _]].
  - reflexivity.
  - reflexivity.
  - split; [exact Hr|exact Hd].
Defined.

Lemma decommission_reason_length_witness :
  serve (post_decommission today 2 "too short" tech) fleet
  = Raised (ValidationError "String should have at least 10 characters") []
  /\ exists asset w,
       serve (post_decommission today 2 "ten chars!" tech) fleet
       = Returned asset w
       /\ Asset.status asset = Some DECOMMISSIONED
       /\ Asset.assigned_to asset = None
       /\ Asset.assigned_date asset = None.
Proof.
  split.
  - destruct (decommission_reason_length fleet today 2 "too short" tech)
      as [H _].
    apply H. cbn. lia.
  - destruct (decommission_reason_length fleet today 2 "ten chars!" tech)
      as [_ H].
    destruct (H ltac:(cbn; lia) asset_B eq_refl ltac:(discriminate))
      as [asset [w [Hr [Hs [_ [_ [Hto [Hdate _]]]]]]]].
    exists asset, w. auto.
Defined.

Lemma decommissioned_terminal_lifecycle_witness :
  stored_status
    (durable fleet (serve (mark_asset_fixed 4 tech) fleet)) 4
  = Some (Some DECOMMISSIONED)
  /\ stored_status
       (durable fleet
          (serve (assign_asset today 2 (AssetAssign.mk None) tech) fleet)) 4
     = Some (Some DECOMMISSIONED).
Proof.
  destruct (decommissioned_terminal_lifecycle fleet 4 asset_D eq_refl eq_refl)
    as [Hassign [_ [_ [_ [Hfixed _]]]]].
  split; [apply Hfixed|apply Hassign].
Defined.

Lemma fleet_invariant : Forall assignment_invariant (assets fleet).
Proof.
  unfold fleet. cbn [assets].
  repeat (apply Forall_cons;
          [split; cbn; intros H; try discriminate; try congruence; auto|]).
  apply Forall_nil.
Qed.

Lemma assignment_invariant_lifecycle_witness :
  Forall assignment_invariant
    (assets (durable fleet
               (serve (assign_asset today 1 (AssetAssign.mk (Some 42)) tech)
                      fleet))).
Proof.
  destruct (assignment_invariant_lifecycle fleet fleet_invariant)
    as [Hassign _].
  apply Hassign.
Defined.

(** C5 fails for the free-form edit: an update-asset request that sets
    [status] brings a decommissioned asset back. *)
Lemma update_revives_decommissioned :
  stored_status fleet 4 = Some (Some DECOMMISSIONED)
  /\ stored_status
       (durable fleet (serve (update_asset 4 (set_status_to AVAILABLE) tech) fleet))
       4
     = Some (Some AVAILABLE).
Proof. split; vm_compute; reflexivity. Qed.

(** C6 fails for the free-form edit: an update-asset request makes an
    asset active that is assigned to no one. *)
Lemma update_breaks_assignment_invariant :
  Forall assignment_invariant (assets fleet)
  /\ exists asset,
       query_asset
         (durable fleet (serve (update_asset 1 (set_status_to ACTIVE) tech) fleet))
         1
       = Some asset
       /\ Asset.status asset = Some ACTIVE
       /\ Asset.assigned_to asset = None.
Proof.
  split; [exact fleet_invariant|].
  eexists. split; [vm_compute; reflexivity|]. split; reflexivity.
Qed.

(** C9. The record-repair handler on the small fleet.  For asset 2,
    which is active, the handler sets the status to repair, adds the
    repair record to the session and keeps [assigned_to], as the claim
    says; it then raises [TypeError] from [json.dumps] in [log_action],
    before the commit, so that the asset is still active and no repair
    is stored.  For asset 4, which is decommissioned, the request ends
    in the same [TypeError], not in [InvalidTransition]. *)
Lemma add_repair_loses_the_repair :
  (exists asset repair w,
     serve (add_repair_session 2 repair_request_B) fleet
     = Returned (asset_B, asset, repair) w
     /\ Asset.status asset = Some REPAIR
     /\ Asset.assigned_to asset = Asset.assigned_to asset_B
     /\ repairs (session w) = [repair])
  /\ serve (add_repair 2 repair_request_B tech) fleet
     = Raised (TypeError "Object of type date is not JSON serializable") []
  /\ stored_status
       (durable fleet (serve (add_repair 2 repair_request_B tech) fleet)) 2
     = Some (Some ACTIVE)
  /\ repairs (durable fleet (serve (add_repair 2 repair_request_B tech) fleet))
     = []
  /\ Asset.status asset_D = Some DECOMMISSIONED
  /\ serve (add_repair 4 repair_request tech) fleet
     = Raised (TypeError "Object of type date is not JSON serializable") []
  /\ durable fleet (serve (add_repair 4 repair_request tech) fleet) = fleet.
Proof.
  split.
  { eexists. eexists. eexists.
    split; [vm_compute; reflexivity|]. repeat split; reflexivity. }
  repeat split; vm_compute; reflexivity.
Qed.

(** C3 fails when a cooldown runs out between the two runs.  Asset 1
    was alerted thirty days ago less an hour.  The first run holds its
    alert back and mails the two others, both confirmed; the second
    run, two hours later on the same day and on the data the first run
    left, mails the expired alert and writes a fourth history row. *)
Lemma second_run_realerts_lapsed_cooldown :
  map (fun d => (alert_type d, success d))
      (snd (check_and_send_warranty_alerts always_delivers today now
              fleet_cooling))
  = [("expiring_30", true); ("expiring_90", true)]
  /\ List.length
       (warranty_notifications
          (fst (check_and_send_warranty_alerts always_delivers today now
                  fleet_cooling)))
     = 3%nat
  /\ map alert_type
       (snd (check_and_send_warranty_alerts always_delivers today
               (now + 2 * one_hour)
               (fst (check_and_send_warranty_alerts always_delivers today now
                       fleet_cooling))))
     = ["expired"]
  /\ List.length
       (warranty_notifications
          (fst (check_and_send_warranty_alerts always_delivers today
                  (now + 2 * one_hour)
                  (fst (check_and_send_warranty_alerts always_delivers today
                          now fleet_cooling)))))
     = 4%nat.
Proof. vm_compute. repeat split; reflexivity. Qed.

(** A failed delivery writes nothing and stops nothing: with a mailer
    that fails on the expired batch only, the two other batches are
    recorded. *)
Example failed_batch_is_skipped :
  let fails_on_expired : Mailer :=
    fun _ _ alert => negb (String.eqb alert "expired") in
  let run := check_and_send_warranty_alerts fails_on_expired today now fleet in
  map (fun d => (alert_type d, success d)) (snd run)
  = [("expired", false); ("expiring_30", true); ("expiring_90", true)]
  /\ warranty_notifications (fst run)
     = [WarrantyNotification.mk 2 "30_day" now;
        WarrantyNotification.mk 3 "90_day" now].
Proof. vm_compute. split; reflexivity. Qed.

End Examples.

(* ================================================================== *)
(** * Further properties of the lifecycle handlers *)

Module RoutesExtras.
Import Routes RoutesSpec RoutesProofs LifecycleSpec.

Lemma replace_row_found (asset_id : Z) (loaded : Asset.t) (rows : list Asset.t) :
  find (fun a => Asset.id a =? asset_id) rows = Some loaded ->
  replace_row loaded rows = rows.
Proof.
  induction rows as [|row rows IH]; cbn [find replace_row]; [discriminate|].
  destruct (Z.eqb_spec (Asset.id row) asset_id) as [Hid|Hid].
  - intros [= ->]. rewrite Z.eqb_refl. reflexivity.
  - intros Hfind. pose proof (find_some _ _ Hfind) as [_ Hl].
    apply Z.eqb_eq in Hl.
    replace (Asset.id row =? Asset.id loaded) with false
      by (symmetry; apply Z.eqb_neq; lia).
    rewrite IH by assumption. reflexivity.
Qed.

(** X1. A record-repair request never stores anything: it ends in 404
    when the asset does not exist and in the [TypeError] of
    [json.dumps] when it does, and the database is left as it was. *)
Theorem add_repair_never_commits
    (db : Db) (asset_id : Z) (repair_data : RepairCreate.t)
    (current_user : User.t) :
  let r := serve (add_repair asset_id repair_data current_user) db in
  durable db r = db
  /\ (query_asset db asset_id = None ->
      r = Raised (HTTPException HTTP_404_NOT_FOUND "Asset not found") [])
  /\ (query_asset db asset_id <> None ->
      r = Raised (TypeError "Object of type date is not JSON serializable") []).
Proof.
  cbv zeta. split; [apply add_repair_durable|]. split.
  - intros Hq. unfold add_repair, add_repair_session. enter_handler Hq.
    reflexivity.
  - intros Hq. destruct (query_asset db asset_id) as [loaded|] eqn:Hl;
      [|congruence].
    apply (add_repair_raises db asset_id repair_data current_user loaded Hl).
Qed.

(** X2. Marking fixed an asset that is in repair stores it as active
    when it has an [assigned_to] (other than the key 0) and as
    available otherwise, touches no other attribute, and writes one
    MARK_FIXED audit entry without changes; an asset in any other
    status is refused with 400 and nothing is written. *)
Theorem mark_asset_fixed_outcome
    (db : Db) (asset_id : Z) (current_user : User.t) (loaded : Asset.t) :
  query_asset db asset_id = Some loaded ->
  let r := serve (mark_asset_fixed asset_id current_user) db in
  (Asset.status loaded = Some REPAIR ->
   let asset :=
     Asset.set_status loaded
       (Some (match Asset.assigned_to loaded with
              | Some e => if e =? 0 then AVAILABLE else ACTIVE
              | None => AVAILABLE
              end)) in
   r = Returned asset
         (mkWorld
            (committed db
               [AuditLog.mk (Some (User.id current_user))
                  (Some (Asset.id loaded)) "MARK_FIXED" "asset"
                  (Some (Asset.id loaded)) None]
               asset)
            [])
   /\ query_asset (durable db r) asset_id = Some asset)
  /\ (Asset.status loaded <> Some REPAIR ->
      r = Raised (InvalidTransition "Asset is not in repair status") []
      /\ durable db r = db).
Proof.
  intros Hq. cbv zeta. unfold mark_asset_fixed. enter_handler Hq. split.
  - intros Hs. apply status_is_true in Hs. rewrite Hs. cbn [negb].
    unfold log_action, db_add_audit_log, db_commit, ret.
    cbn [session outbox]. commit_unchanged.
    assert (Ht : (if truthy_int (Asset.assigned_to loaded)
                  then ACTIVE else AVAILABLE)
                 = match Asset.assigned_to loaded with
                   | Some e => if e =? 0 then AVAILABLE else ACTIVE
                   | None => AVAILABLE
                   end).
    { unfold truthy_int. destruct (Asset.assigned_to loaded) as [e|];
        [destruct (e =? 0)|]; reflexivity. }
    rewrite Ht. split; [reflexivity|].
    cbn [durable session].
    apply (query_committed db _ _ loaded asset_id Hq). reflexivity.
  - intros Hs. apply status_is_false in Hs. rewrite Hs. cbn [negb].
    split; reflexivity.
Qed.

(** X3. Assigning an asset that is not decommissioned to an employee
    that exists makes it active, assigned to that employee since
    today, and writes one ASSIGN audit entry with the old and the new
    employee id.  The handler asks the mail service for exactly one
    notice, addressed to that employee; the notice goes out exactly
    when the mail service is configured and the transport delivers its
    message, and the assignment is stored either way. *)
Theorem assign_asset_to_employee
    (db : Db) (today : date) (asset_id employee_id : Z)
    (current_user : User.t) (loaded : Asset.t) (employee : Employee.t)
    (asset_type : AssetType) :
  query_asset db asset_id = Some loaded ->
  Asset.status loaded <> Some DECOMMISSIONED ->
  Asset.asset_type loaded = Some asset_type ->
  employee_id <> 0 ->
  query_employee db employee_id = Some employee ->
  let r :=
    serve (assign_asset today asset_id (AssetAssign.mk (Some employee_id))
             current_user) db in
  let asset := assigned_asset loaded employee today in
  let notice := assignment_notice loaded employee asset_type today in
  r = Returned asset
        (mkWorld
           (committed db [assign_log current_user loaded (Some employee_id)]
                      asset)
           [notice])
  /\ Asset.assigned_to asset = Some employee_id
  /\ Asset.assigned_date asset = Some today
  /\ Asset.status asset = Some ACTIVE
  /\ query_asset (durable db r) asset_id = Some asset
  /\ employee_email notice = Employee.email employee
  /\ (forall transport render self,
        EmailService.send_assignment_notification transport render self notice
        = EmailService.is_configured self
          && transport self (notice_message render self notice)).
Proof.
  intros Hq Hs Hty Hnz He. cbv zeta.
  assert (Hid : Employee.id employee = employee_id).
  { unfold query_employee in He. apply find_some in He.
    destruct He as [_ He]. apply Z.eqb_eq in He. exact He. }
  unfold assign_asset. enter_handler Hq.
  apply status_is_false in Hs. rewrite Hs.
  cbn [AssetAssign.employee_id].
  replace (employee_id =? 0) with false by (symmetry; apply Z.eqb_neq; exact Hnz).
  unfold get_employee_or_404. cbn [session outbox]. rewrite He.
  change (Asset.asset_type
            (Asset.set_status
               (Asset.set_assigned_date
                  (Asset.set_assigned_to loaded (Some (Employee.id employee)))
                  (Some today))
               (Some ACTIVE)))
    with (Asset.asset_type loaded).
  rewrite Hty. run_log_commit.
  split; [reflexivity|].
  split; [cbn; rewrite Hid; reflexivity|].
  split; [reflexivity|]. split; [reflexivity|].
  split.
  { cbn [durable session].
    apply (query_committed db _ _ loaded asset_id Hq). reflexivity. }
  split; [reflexivity|].
  intros transport render self.
  unfold EmailService.send_assignment_notification, EmailService.send_email.
  destruct (EmailService.is_configured self); reflexivity.
Qed.

(** X4. Assigning to an employee that does not exist fails with 404
    before anything is changed: no row, no audit entry, no mail. *)
Theorem assign_asset_unknown_employee
    (db : Db) (today : date) (asset_id employee_id : Z)
    (current_user : User.t) (loaded : Asset.t) :
  query_asset db asset_id = Some loaded ->
  Asset.status loaded <> Some DECOMMISSIONED ->
  employee_id <> 0 ->
  query_employee db employee_id = None ->
  let r :=
    serve (assign_asset today asset_id (AssetAssign.mk (Some employee_id))
             current_user) db in
  r = Raised (HTTPException HTTP_404_NOT_FOUND "Employee not found") []
  /\ durable db r = db.
Proof.
  intros Hq Hs Hnz He. cbv zeta.
  unfold assign_asset. enter_handler Hq.
  apply status_is_false in Hs. rewrite Hs.
  cbn [AssetAssign.employee_id].
  replace (employee_id =? 0) with false by (symmetry; apply Z.eqb_neq; exact Hnz).
  unfold get_employee_or_404. cbn [session outbox]. rewrite He.
  split; reflexivity.
Qed.

(** X5. An assign request without an employee id, or with the id 0
    (which Python reads as false), unassigns: the asset becomes
    available with [assigned_to] and [assigned_date] cleared, no mail
    is sent, and the ASSIGN audit entry records the id as requested. *)
Theorem assign_asset_unassigns
    (db : Db) (today : date) (asset_id : Z) (requested : option Z)
    (current_user : User.t) (loaded : Asset.t) :
  query_asset db asset_id = Some loaded ->
  Asset.status loaded <> Some DECOMMISSIONED ->
  requested = None \/ requested = Some 0 ->
  let r :=
    serve (assign_asset today asset_id (AssetAssign.mk requested) current_user)
          db in
  let asset := unassigned_asset loaded in
  r = Returned asset
        (mkWorld (committed db [assign_log current_user loaded requested] asset)
                 [])
  /\ Asset.status asset = Some AVAILABLE
  /\ Asset.assigned_to asset = None
  /\ Asset.assigned_date asset = None
  /\ query_asset (durable db r) asset_id = Some asset.
Proof.
  intros Hq Hs Hreq. cbv zeta.
  unfold assign_asset. enter_handler Hq.
  apply status_is_false in Hs. rewrite Hs.
  cbn [AssetAssign.employee_id].
  destruct Hreq as [-> | ->]; cbn [Z.eqb]; run_log_commit;
    (split; [reflexivity|]); repeat (split; [reflexivity|]);
    cbn [durable session];
    apply (query_committed db _ _ loaded asset_id Hq); reflexivity.
Qed.

Lemma assign_decommissioned_rejected_aux
    (db : Db) (today : date) (asset_id : Z) (assignment : AssetAssign.t)
    (current_user : User.t) (a : Asset.t) :
  query_asset db asset_id = Some a ->
  Asset.status a = Some DECOMMISSIONED ->
  serve (assign_asset today asset_id assignment current_user) db
  = Raised (InvalidTransition "Cannot assign decommissioned asset") [].
Proof.
  intros Hq Hs. unfold assign_asset. enter_handler Hq.
  apply status_is_true in Hs. rewrite Hs. reflexivity.
Qed.

(** X6. Decommissioning is final for the lifecycle requests: on the
    database a successful decommission leaves, a request to assign or
    unassign the asset, to decommission it again, or to mark it fixed
    is refused with 400 and changes nothing. *)
Theorem decommission_then_lifecycle_refused
    (db : Db) (today : date) (asset_id : Z) (reason : string)
    (current_user : User.t) (asset : Asset.t) (w : World) :
  serve (post_decommission today asset_id reason current_user) db
  = Returned asset w ->
  let db' := session w in
  (forall day assignment user,
     serve (assign_asset day asset_id assignment user) db'
     = Raised (InvalidTransition "Cannot assign decommissioned asset") [])
  /\ (forall day reason' user,
        (10 <= String.length reason')%nat ->
        serve (post_decommission day asset_id reason' user) db'
        = Raised (InvalidTransition "Asset is already decommissioned") [])
  /\ (forall user,
        serve (mark_asset_fixed asset_id user) db'
        = Raised (InvalidTransition "Asset is not in repair status") []).
Proof.
  intros Hrun. cbv zeta.
  assert (Hstored : query_asset (session w) asset_id = Some asset
                    /\ Asset.status asset = Some DECOMMISSIONED).
  { unfold post_decommission in Hrun.
    destruct (AssetDecommission.model_validate reason) as [data|];
      [|discriminate].
    destruct (query_asset db asset_id) as [loaded|] eqn:Hq.
    - rewrite (decommission_asset_outcome db today asset_id data current_user
                 loaded Hq) in Hrun.
      destruct (status_is loaded DECOMMISSIONED); [discriminate|].
      cbv zeta in Hrun. inversion Hrun; subst. cbn [session]. split.
      + apply (query_committed db _ _ loaded asset_id Hq). reflexivity.
      + reflexivity.
    - revert Hrun. unfold decommission_asset. enter_handler Hq. discriminate. }
  destruct Hstored as [Hq' Hs'].
  split; [|split].
  - intros day assignment user.
    apply (assign_decommissioned_rejected_aux (session w) day asset_id
             assignment user asset Hq' Hs').
  - intros day reason' user Hlen.
    unfold post_decommission, AssetDecommission.model_validate.
    replace (String.length reason' <? 10)%nat with false
      by (symmetry; apply Nat.ltb_ge; exact Hlen).
    rewrite (decommission_asset_outcome _ day asset_id _ user asset Hq').
    apply status_is_true in Hs'. rewrite Hs'. reflexivity.
  - intros user. unfold mark_asset_fixed. enter_handler Hq'.
    replace (status_is asset REPAIR) with false; [reflexivity|].
    symmetry. apply status_is_false. rewrite Hs'. discriminate.
Qed.

End RoutesExtras.

(** ** Edits *)

Module UpdateExtras.
Import Routes RoutesSpec RoutesProofs LifecycleSpec RoutesExtras.

Lemma opt_ne_false_eq {A} (eqb : A -> A -> bool) (x y : option A) :
  (forall a b, eqb a b = true -> a = b) ->
  opt_ne eqb x y = false -> x = y.
Proof.
  intros Hsound. destruct x as [a|], y as [b|]; cbn; intros H;
    try discriminate; [|reflexivity].
  f_equal. apply Hsound. destruct (eqb a b); [reflexivity|discriminate].
Qed.

Lemma AssetType_eqb_eq (a b : AssetType) : AssetType_eqb a b = true -> a = b.
Proof. destruct a, b; cbn; intros H; try discriminate; reflexivity. Qed.

Lemma AssetStatus_eqb_eq (a b : AssetStatus) : AssetStatus_eqb a b = true -> a = b.
Proof. destruct a, b; cbn; intros H; try discriminate; reflexivity. Qed.

Lemma string_eqb_eq (a b : string) : String.eqb a b = true -> a = b.
Proof. apply String.eqb_eq. Qed.

Lemma Z_eqb_eq (a b : Z) : Z.eqb a b = true -> a = b.
Proof. apply Z.eqb_eq. Qed.

(** After [update_attr], the attribute holds the value given, when the
    comparison is sound. *)
Lemma update_attr_sets {A}
    (eqb : A -> A -> bool) (py : A -> pyval) (field : string)
    (getattr : Asset.t -> option A) (setattr : Asset.t -> option A -> Asset.t)
    (value : option A) (st : Asset.t * list (string * pyval)) :
  (forall a b, eqb a b = true -> a = b) ->
  (forall a v, getattr (setattr a v) = v) ->
  getattr (fst (update_attr eqb py field getattr setattr value st)) = value.
Proof.
  intros Hsound Hgs. destruct st as [asset changes]. unfold update_attr.
  destruct (opt_ne eqb (getattr asset) value) eqn:Hne; cbn [fst].
  - apply Hgs.
  - apply (opt_ne_false_eq eqb); assumption.
Qed.

Lemma update_attr_keeps {A V}
    (eqb : A -> A -> bool) (py : A -> pyval) (field : string)
    (getattr : Asset.t -> option A) (setattr : Asset.t -> option A -> Asset.t)
    (other : Asset.t -> V)
    (value : option A) (st : Asset.t * list (string * pyval)) :
  (forall a v, other (setattr a v) = other a) ->
  other (fst (update_attr eqb py field getattr setattr value st))
  = other (fst st).
Proof.
  intros Hkeep. destruct st as [asset changes]. unfold update_attr.
  destruct (opt_ne eqb (getattr asset) value); cbn [fst]; [apply Hkeep|reflexivity].
Qed.

Lemma fold_final_value {V}
    (get : Asset.t -> V) (sel : AssetUpdate.item -> option V) :
  (forall st it, sel it = None ->
                 get (fst (update_item st it)) = get (fst st)) ->
  (forall st it v, sel it = Some v -> get (fst (update_item st it)) = v) ->
  forall dict st,
    get (fst (fold_left update_item dict st))
    = final_value sel dict (get (fst st)).
Proof.
  intros Hnone Hsome. unfold final_value.
  induction dict as [|it dict IH]; intros st; cbn [fold_left]; [reflexivity|].
  rewrite IH. destruct (sel it) as [v|] eqn:Hsel.
  - rewrite (Hsome st it v Hsel). reflexivity.
  - rewrite (Hnone st it Hsel). reflexivity.
Qed.

Lemma final_value_app {V} (sel : AssetUpdate.item -> option V) l1 l2 cur :
  final_value sel (l1 ++ l2) cur = final_value sel l2 (final_value sel l1 cur).
Proof. unfold final_value. apply fold_left_app. Qed.

Lemma final_entry_other {A V}
    (sel : AssetUpdate.item -> option V) (k : A -> AssetUpdate.item)
    (field : option A) (cur : V) :
  (forall v, sel (k v) = None) ->
  final_value sel (AssetUpdate.entry k field) cur = cur.
Proof.
  intros H. destruct field as [v|]; cbn; [rewrite H|]; reflexivity.
Qed.

Lemma final_entry_same {A}
    (sel : AssetUpdate.item -> option (option A))
    (k : option A -> AssetUpdate.item)
    (field : option (option A)) (cur : option A) :
  (forall v, sel (k v) = Some v) ->
  final_value sel (AssetUpdate.entry k field) cur = requested field cur.
Proof.
  intros H. destruct field as [v|]; cbn; [rewrite H|]; reflexivity.
Qed.

Ltac skip_other_entries :=
  repeat first
    [ rewrite (final_entry_other _ AssetUpdate.K_asset_type) by reflexivity
    | rewrite (final_entry_other _ AssetUpdate.K_name) by reflexivity
    | rewrite (final_entry_other _ AssetUpdate.K_manufacturer) by reflexivity
    | rewrite (final_entry_other _ AssetUpdate.K_model) by reflexivity
    | rewrite (final_entry_other _ AssetUpdate.K_serial_number) by reflexivity
    | rewrite (final_entry_other _ AssetUpdate.K_purchase_date) by reflexivity
    | rewrite (final_entry_other _ AssetUpdate.K_purchase_price) by reflexivity
    | rewrite (final_entry_other _ AssetUpdate.K_warranty_end) by reflexivity
    | rewrite (final_entry_other _ AssetUpdate.K_vendor) by reflexivity
    | rewrite (final_entry_other _ AssetUpdate.K_po_number) by reflexivity
    | rewrite (final_entry_other _ AssetUpdate.K_notes) by reflexivity
    | rewrite (final_entry_other _ AssetUpdate.K_location) by reflexivity
    | rewrite (final_entry_other _ AssetUpdate.K_status) by reflexivity ].

(** One attribute through the whole loop: the premises of
    [fold_final_value], by cases on the entry. *)
Ltac loop_keeps :=
  let s := fresh "s" in
  let i := fresh "i" in
  let H := fresh "H" in
  intros s i H; destruct i; try discriminate H;
  cbn [update_item]; apply update_attr_keeps; intros; reflexivity.

Ltac loop_sets sound :=
  let s := fresh "s" in
  let i := fresh "i" in
  let x := fresh "x" in
  let H := fresh "H" in
  intros s i x H; destruct i; try discriminate H;
  injection H as <-; cbn [update_item];
  apply update_attr_sets; [exact sound|intros; reflexivity].

Ltac field_through_dump get sel sound k :=
  intros u st;
  rewrite (fold_final_value get sel ltac:(loop_keeps) ltac:(loop_sets sound));
  unfold AssetUpdate.model_dump_exclude_unset;
  rewrite !final_value_app;
  skip_other_entries;
  apply (final_entry_same sel k); reflexivity.

Lemma dump_asset_type : forall u st,
  Asset.asset_type (fst (fold_left update_item
                (AssetUpdate.model_dump_exclude_unset u) st))
  = requested (AssetUpdate.asset_type u) (Asset.asset_type (fst st)).
Proof.
  field_through_dump Asset.asset_type sel_asset_type AssetType_eqb_eq AssetUpdate.K_asset_type.
Qed.

Lemma dump_name : forall u st,
  Asset.name (fst (fold_left update_item
                (AssetUpdate.model_dump_exclude_unset u) st))
  = requested (AssetUpdate.name u) (Asset.name (fst st)).
Proof.
  field_through_dump Asset.name sel_name string_eqb_eq AssetUpdate.K_name.
Qed.

Lemma dump_manufacturer : forall u st,
  Asset.manufacturer (fst (fold_left update_item
                (AssetUpdate.model_dump_exclude_unset u) st))
  = requested (AssetUpdate.manufacturer u) (Asset.manufacturer (fst st)).
Proof.
  field_through_dump Asset.manufacturer sel_manufacturer string_eqb_eq AssetUpdate.K_manufacturer.
Qed.

Lemma dump_model : forall u st,
  Asset.model (fst (fold_left update_item
                (AssetUpdate.model_dump_exclude_unset u) st))
  = requested (AssetUpdate.model u) (Asset.model (fst st)).
Proof.
  field_through_dump Asset.model sel_model string_eqb_eq AssetUpdate.K_model.
Qed.

Lemma dump_serial_number : forall u st,
  Asset.serial_number (fst (fold_left update_item
                (AssetUpdate.model_dump_exclude_unset u) st))
  = requested (AssetUpdate.serial_number u) (Asset.serial_number (fst st)).
Proof.
  field_through_dump Asset.serial_number sel_serial_number string_eqb_eq AssetUpdate.K_serial_number.
Qed.

Lemma dump_purchase_date : forall u st,
  Asset.purchase_date (fst (fold_left update_item
                (AssetUpdate.model_dump_exclude_unset u) st))
  = requested (AssetUpdate.purchase_date u) (Asset.purchase_date (fst st)).
Proof.
  field_through_dump Asset.purchase_date sel_purchase_date Z_eqb_eq AssetUpdate.K_purchase_date.
Qed.

Lemma dump_warranty_end : forall u st,
  Asset.warranty_end (fst (fold_left update_item
                (AssetUpdate.model_dump_exclude_unset u) st))
  = requested (AssetUpdate.warranty_end u) (Asset.warranty_end (fst st)).
Proof.
  field_through_dump Asset.warranty_end sel_warranty_end Z_eqb_eq AssetUpdate.K_warranty_end.
Qed.

Lemma dump_vendor : forall u st,
  Asset.vendor (fst (fold_left update_item
                (AssetUpdate.model_dump_exclude_unset u) st))
  = requested (AssetUpdate.vendor u) (Asset.vendor (fst st)).
Proof.
  field_through_dump Asset.vendor sel_vendor string_eqb_eq AssetUpdate.K_vendor.
Qed.

Lemma dump_po_number : forall u st,
  Asset.po_number (fst (fold_left update_item
                (AssetUpdate.model_dump_exclude_unset u) st))
  = requested (AssetUpdate.po_number u) (Asset.po_number (fst st)).
Proof.
  field_through_dump Asset.po_number sel_po_number string_eqb_eq AssetUpdate.K_po_number.
Qed.

Lemma dump_notes : forall u st,
  Asset.notes (fst (fold_left update_item
                (AssetUpdate.model_dump_exclude_unset u) st))
  = requested (AssetUpdate.notes u) (Asset.notes (fst st)).
Proof.
  field_through_dump Asset.notes sel_notes string_eqb_eq AssetUpdate.K_notes.
Qed.

Lemma dump_location : forall u st,
  Asset.location (fst (fold_left update_item
                (AssetUpdate.model_dump_exclude_unset u) st))
  = requested (AssetUpdate.location u) (Asset.location (fst st)).
Proof.
  field_through_dump Asset.location sel_location string_eqb_eq AssetUpdate.K_location.
Qed.

Lemma dump_status : forall u st,
  Asset.status (fst (fold_left update_item
                (AssetUpdate.model_dump_exclude_unset u) st))
  = requested (AssetUpdate.status u) (Asset.status (fst st)).
Proof.
  field_through_dump Asset.status sel_status AssetStatus_eqb_eq AssetUpdate.K_status.
Qed.

Lemma update_item_purchase_price (st : Asset.t * list (string * pyval)) it :
  Asset.purchase_price (fst (update_item st it))
  = upd_purchase_price it (Asset.purchase_price (fst st)).
Proof.
  destruct it; cbn [update_item upd_purchase_price];
    try (apply update_attr_keeps; intros; reflexivity).
  destruct st as [asset changes]. unfold update_attr. cbn [fst].
  destruct (opt_ne float_eqb (Asset.purchase_price asset) value);
    reflexivity.
Qed.

Lemma fold_purchase_price (dict : list AssetUpdate.item) : forall st,
  Asset.purchase_price (fst (fold_left update_item dict st))
  = fold_left (fun cur it => upd_purchase_price it cur) dict
              (Asset.purchase_price (fst st)).
Proof.
  induction dict as [|it dict IH]; intros st; cbn [fold_left]; [reflexivity|].
  rewrite IH, update_item_purchase_price. reflexivity.
Qed.

Lemma price_entry_other {A} (k : A -> AssetUpdate.item) (field : option A) cur :
  (forall v c, upd_purchase_price (k v) c = c) ->
  fold_left (fun cur it => upd_purchase_price it cur)
            (AssetUpdate.entry k field) cur = cur.
Proof.
  intros H. destruct field as [v|]; cbn [AssetUpdate.entry fold_left];
    [apply H|reflexivity].
Qed.

Lemma dump_purchase_price : forall u st,
  Asset.purchase_price (fst (fold_left update_item
                               (AssetUpdate.model_dump_exclude_unset u) st))
  = requested_price (AssetUpdate.purchase_price u)
                    (Asset.purchase_price (fst st)).
Proof.
  intros u st. rewrite fold_purchase_price.
  unfold AssetUpdate.model_dump_exclude_unset.
  rewrite !fold_left_app.
  repeat first
    [ rewrite (price_entry_other AssetUpdate.K_asset_type) by reflexivity
    | rewrite (price_entry_other AssetUpdate.K_name) by reflexivity
    | rewrite (price_entry_other AssetUpdate.K_manufacturer) by reflexivity
    | rewrite (price_entry_other AssetUpdate.K_model) by reflexivity
    | rewrite (price_entry_other AssetUpdate.K_serial_number) by reflexivity
    | rewrite (price_entry_other AssetUpdate.K_purchase_date) by reflexivity
    | rewrite (price_entry_other AssetUpdate.K_warranty_end) by reflexivity
    | rewrite (price_entry_other AssetUpdate.K_vendor) by reflexivity
    | rewrite (price_entry_other AssetUpdate.K_po_number) by reflexivity
    | rewrite (price_entry_other AssetUpdate.K_notes) by reflexivity
    | rewrite (price_entry_other AssetUpdate.K_location) by reflexivity
    | rewrite (price_entry_other AssetUpdate.K_status) by reflexivity ].
  destruct (AssetUpdate.purchase_price u); reflexivity.
Qed.

(** The columns the update schema does not name. *)
Lemma fold_untouched {V} (get : Asset.t -> V) :
  (forall st it, get (fst (update_item st it)) = get (fst st)) ->
  forall dict st, get (fst (fold_left update_item dict st)) = get (fst st).
Proof.
  intros H. induction dict as [|it dict IH]; intros st; cbn [fold_left];
    [reflexivity|].
  rewrite IH. apply H.
Qed.

Ltac untouched :=
  let s := fresh "s" in
  let i := fresh "i" in
  intros s i; destruct i; cbn [update_item];
  apply update_attr_keeps; intros; reflexivity.

Lemma integrity_error_assets (db1 db2 : Db) (loaded asset : Asset.t) :
  assets db1 = assets db2 ->
  integrity_error db1 loaded asset = integrity_error db2 loaded asset.
Proof. intros H. unfold integrity_error. rewrite H. reflexivity. Qed.

(** The whole handler, given the asset and what the loop makes of it. *)
Lemma update_asset_result
    (db : Db) (asset_id : Z) (update_data : AssetUpdate.t)
    (current_user : User.t) (loaded asset : Asset.t)
    (changes : list (string * pyval)) :
  query_asset db asset_id = Some loaded ->
  fold_left update_item (AssetUpdate.model_dump_exclude_unset update_data)
            (loaded, []) = (asset, changes) ->
  serve (update_asset asset_id update_data current_user) db =
  if integrity_error db loaded asset then
    Raised (IntegrityError "constraint failed") []
  else
    Returned asset
      (mkWorld (committed db (update_logs current_user loaded changes) asset) []).
Proof.
  intros Hq Hfold.
  destruct (fold_update_frame (AssetUpdate.model_dump_exclude_unset update_data)
              (loaded, [])) as [Hid [_ [_ Hser]]].
  specialize (Hser eq_refl). rewrite Hfold in Hid, Hser. cbn [fst snd] in Hid, Hser.
  unfold update_asset. enter_handler Hq. rewrite Hfold.
  destruct changes as [|c cs].
  - unfold ret, db_commit. cbn [session outbox].
    destruct (integrity_error db loaded asset); [reflexivity|].
    rewrite committed_nil. reflexivity.
  - unfold log_action, json_dumps.
    change (json_serialisable (PDict (c :: cs)))
      with (changes_serialisable (c :: cs)).
    rewrite Hser.
    unfold db_add_audit_log, db_commit, ret. cbn [session outbox].
    rewrite (integrity_error_assets _ db loaded asset) by reflexivity.
    destruct (integrity_error db loaded asset); [reflexivity|].
    rewrite Hid. reflexivity.
Qed.

Lemma update_item_changes (st : Asset.t * list (string * pyval)) it :
  update_item st it = st
  \/ exists c, snd (update_item st it) = snd st ++ [c].
Proof.
  destruct st as [asset changes].
  destruct it; cbn [update_item]; unfold update_attr;
    match goal with |- context [opt_ne ?e ?x ?y] => destruct (opt_ne e x y) end;
    cbn [snd]; eauto.
Qed.

Lemma fold_changes_nil (dict : list AssetUpdate.item) : forall st,
  snd (fold_left update_item dict st) = [] ->
  fold_left update_item dict st = st.
Proof.
  induction dict as [|it dict IH]; intros st Hnil; cbn [fold_left] in *;
    [reflexivity|].
  pose proof (IH _ Hnil) as Hsame. rewrite Hsame in Hnil |- *.
  destruct (update_item_changes st it) as [Heq|[c Hc]]; [exact Heq|].
  rewrite Hc in Hnil. destruct (snd st); discriminate.
Qed.

(** X7. What an update-asset request stores: for every field of the
    request other than the price, the value requested when the request
    sets the field and the old value otherwise; for the price, the
    value requested unless it equals the old one as a number, which is
    then kept; and the columns the request cannot name (id, tag,
    assignment, decommission) as they were. *)
Theorem update_asset_stores_request
    (db : Db) (asset_id : Z) (u : AssetUpdate.t) (current_user : User.t)
    (asset : Asset.t) (w : World) :
  serve (update_asset asset_id u current_user) db = Returned asset w ->
  exists loaded,
    query_asset db asset_id = Some loaded
    /\ query_asset (session w) asset_id = Some asset
    /\ Asset.asset_type asset
       = requested (AssetUpdate.asset_type u) (Asset.asset_type loaded)
    /\ Asset.name asset = requested (AssetUpdate.name u) (Asset.name loaded)
    /\ Asset.manufacturer asset
       = requested (AssetUpdate.manufacturer u) (Asset.manufacturer loaded)
    /\ Asset.model asset = requested (AssetUpdate.model u) (Asset.model loaded)
    /\ Asset.serial_number asset
       = requested (AssetUpdate.serial_number u) (Asset.serial_number loaded)
    /\ Asset.purchase_date asset
       = requested (AssetUpdate.purchase_date u) (Asset.purchase_date loaded)
    /\ Asset.purchase_price asset
       = requested_price (AssetUpdate.purchase_price u)
                         (Asset.purchase_price loaded)
    /\ Asset.warranty_end asset
       = requested (AssetUpdate.warranty_end u) (Asset.warranty_end loaded)
    /\ Asset.vendor asset = requested (AssetUpdate.vendor u) (Asset.vendor loaded)
    /\ Asset.po_number asset
       = requested (AssetUpdate.po_number u) (Asset.po_number loaded)
    /\ Asset.notes asset = requested (AssetUpdate.notes u) (Asset.notes loaded)
    /\ Asset.location asset
       = requested (AssetUpdate.location u) (Asset.location loaded)
    /\ Asset.status asset = requested (AssetUpdate.status u) (Asset.status loaded)
    /\ Asset.id asset = Asset.id loaded
    /\ Asset.asset_tag asset = Asset.asset_tag loaded
    /\ Asset.assigned_to asset = Asset.assigned_to loaded
    /\ Asset.assigned_date asset = Asset.assigned_date loaded
    /\ Asset.decommission_date asset = Asset.decommission_date loaded
    /\ Asset.decommission_reason asset = Asset.decommission_reason loaded.
Proof.
  intros Hrun.
  destruct (update_asset_returned db asset_id u current_user asset w Hrun)
    as [loaded [Hq [-> Hstored]]].
  exists loaded. split; [exact Hq|]. split; [exact Hstored|].
  split; [apply dump_asset_type|]. split; [apply dump_name|].
  split; [apply dump_manufacturer|]. split; [apply dump_model|].
  split; [apply dump_serial_number|]. split; [apply dump_purchase_date|].
  split; [apply dump_purchase_price|]. split; [apply dump_warranty_end|].
  split; [apply dump_vendor|]. split; [apply dump_po_number|].
  split; [apply dump_notes|]. split; [apply dump_location|].
  split; [apply dump_status|].
  repeat split; apply fold_untouched; untouched.
Qed.

(** X8. An update-asset request that succeeds either leaves the asset
    as it was and writes no audit entry, or writes exactly one UPDATE
    entry for the asset, with a non-empty dictionary of changes: no
    attribute changes without an audit entry. *)
Theorem update_asset_audited
    (db : Db) (asset_id : Z) (u : AssetUpdate.t) (current_user : User.t)
    (asset : Asset.t) (w : World) :
  serve (update_asset asset_id u current_user) db = Returned asset w ->
  exists loaded,
    query_asset db asset_id = Some loaded
    /\ ((asset = loaded
         /\ assets (session w) = assets db
         /\ audit_logs (session w) = audit_logs db)
        \/ exists change changes,
             audit_logs (session w)
             = audit_logs db
                 ++ [AuditLog.mk (Some (User.id current_user))
                       (Some asset_id) "UPDATE" "asset" (Some asset_id)
                       (Some (PDict (change :: changes)))]).
Proof.
  intros Hrun.
  destruct (query_asset db asset_id) as [loaded|] eqn:Hq.
  2:{ revert Hrun. unfold update_asset. enter_handler Hq. discriminate. }
  exists loaded. split; [reflexivity|].
  destruct (fold_left update_item (AssetUpdate.model_dump_exclude_unset u)
              (loaded, [])) as [asset' changes] eqn:Hfold.
  rewrite (update_asset_result db asset_id u current_user loaded asset' changes
             Hq Hfold) in Hrun.
  destruct (integrity_error db loaded asset'); [discriminate|].
  inversion Hrun; subst. cbn [session].
  destruct (query_asset_id db asset_id loaded Hq) as [Hid _].
  destruct changes as [|c cs].
  - left.
    assert (Hsame : (asset, @nil (string * pyval)) = (loaded, [])).
    { rewrite <- Hfold. apply fold_changes_nil. rewrite Hfold. reflexivity. }
    inversion Hsame; subst.
    split; [reflexivity|]. unfold committed, update_logs.
    cbn [assets audit_logs set_repairs set_assets set_audit_logs].
    split; [|apply app_nil_r].
    apply (replace_row_found (Asset.id loaded)).
    unfold query_asset in Hq. exact Hq.
  - right. exists c, cs. unfold committed, update_logs.
    cbn [audit_logs set_repairs set_assets set_audit_logs].
    rewrite Hid. reflexivity.
Qed.

(** X9. An update-asset request that breaks a constraint of the asset
    table commits nothing: setting [name] or [asset_type] to null on an
    asset that has one, or setting [serial_number] to a serial another
    asset holds, ends in [IntegrityError] and leaves the database as it
    was. *)
Theorem update_asset_constraint_violation
    (db : Db) (asset_id : Z) (u : AssetUpdate.t) (current_user : User.t)
    (loaded : Asset.t) :
  query_asset db asset_id = Some loaded ->
  (Asset.name loaded <> None /\ AssetUpdate.name u = Some None)
  \/ (Asset.asset_type loaded <> None /\ AssetUpdate.asset_type u = Some None)
  \/ (exists s other,
        AssetUpdate.serial_number u = Some (Some s)
        /\ Asset.serial_number loaded <> Some s
        /\ In other (assets db)
        /\ Asset.id other <> Asset.id loaded
        /\ Asset.serial_number other = Some s) ->
  let r := serve (update_asset asset_id u current_user) db in
  r = Raised (IntegrityError "constraint failed") []
  /\ durable db r = db.
Proof.
  intros Hq Hbad. cbv zeta.
  destruct (fold_left update_item (AssetUpdate.model_dump_exclude_unset u)
              (loaded, [])) as [asset changes] eqn:Hfold.
  rewrite (update_asset_result db asset_id u current_user loaded asset changes
             Hq Hfold).
  assert (Hname : Asset.name asset
                  = requested (AssetUpdate.name u) (Asset.name loaded))
    by (pose proof (dump_name u (loaded, [])) as H; rewrite Hfold in H; exact H).
  assert (Hty : Asset.asset_type asset
                = requested (AssetUpdate.asset_type u) (Asset.asset_type loaded))
    by (pose proof (dump_asset_type u (loaded, [])) as H; rewrite Hfold in H;
        exact H).
  assert (Hser : Asset.serial_number asset
                 = requested (AssetUpdate.serial_number u)
                             (Asset.serial_number loaded))
    by (pose proof (dump_serial_number u (loaded, [])) as H;
        rewrite Hfold in H; exact H).
  assert (Hid : Asset.id asset = Asset.id loaded).
  { destruct (fold_update_frame (AssetUpdate.model_dump_exclude_unset u)
                (loaded, [])) as [H _]. rewrite Hfold in H. exact H. }
  assert (Herr : integrity_error db loaded asset = true).
  { unfold integrity_error.
    destruct Hbad as [[Hn Hu]|[[Hn Hu]|[s [other [Hu [Hl [Hin [Hoid Hos]]]]]]]].
    - rewrite Hu in Hname. cbn in Hname. rewrite Hname.
      destruct (Asset.name loaded); [|congruence].
      cbn. rewrite orb_true_r. reflexivity.
    - rewrite Hu in Hty. cbn in Hty. rewrite Hty.
      destruct (Asset.asset_type loaded); [|congruence]. reflexivity.
    - rewrite Hu in Hser. cbn in Hser. rewrite Hser.
      assert (Hne : opt_ne String.eqb (Asset.serial_number loaded) (Some s) = true).
      { destruct (opt_ne String.eqb (Asset.serial_number loaded) (Some s)) eqn:E;
          [reflexivity|].
        apply (opt_ne_false_eq String.eqb) in E; [congruence|apply string_eqb_eq]. }
      rewrite Hne. cbn [andb].
      assert (Hex : existsb
                      (fun row =>
                         negb (Asset.id row =? Asset.id asset)
                         && negb (opt_ne String.eqb (Asset.serial_number row)
                                         (Some s)))
                      (assets db) = true).
      { apply existsb_exists. exists other. split; [exact Hin|].
        rewrite Hid, Hos. cbn. rewrite String.eqb_refl. cbn.
        replace (Asset.id other =? Asset.id loaded) with false
          by (symmetry; apply Z.eqb_neq; exact Hoid).
        reflexivity. }
      rewrite Hex. apply orb_true_r. }
  rewrite Herr. split; reflexivity.
Qed.

End UpdateExtras.

(* ================================================================== *)
(** * Further properties of the warranty service *)

Module WarrantyExtras.
Import WarrantyNotificationService WarrantySpec WarrantyProofs ReportSpec.

Lemma in_candidates_inv (db : Db) (a : Asset.t) :
  In a (warranty_candidates db) ->
  In a (assets db)
  /\ exists s we, Asset.status a = Some s /\ s <> DECOMMISSIONED
                  /\ Asset.warranty_end a = Some we.
Proof.
  unfold warranty_candidates. rewrite filter_In. intros [Hin Hf].
  split; [exact Hin|].
  destruct (Asset.status a) as [s|]; [|discriminate].
  destruct (Asset.warranty_end a) as [we|]; [|discriminate].
  exists s, we. repeat split. intros ->. discriminate.
Qed.

(** X10. Only stored assets whose status is set and not decommissioned
    and that have a [warranty_end] are ever alerted on or summarised:
    every entry of a batch of the alert run, and every entry of a list
    of the summary, is made from such an asset. *)
Theorem only_candidates_are_reported
    (db : Db) (today : date) (now : datetime) :
  exists b summary,
    alert_batches db today now = Some b
    /\ get_warranty_summary db today = Some summary
    /\ (forall t a d,
          In (a, d) (tier_batch t b) ->
          In a (assets db)
          /\ exists s we, Asset.status a = Some s /\ s <> DECOMMISSIONED
                          /\ Asset.warranty_end a = Some we
                          /\ d = asset_data_of db a we (we - today))
    /\ (forall k i,
          In i (summary_bucket k summary) ->
          exists a s we,
            In a (assets db)
            /\ Asset.status a = Some s /\ s <> DECOMMISSIONED
            /\ Asset.warranty_end a = Some we
            /\ i = asset_info_of db a we (we - today)).
Proof.
  destruct (get_warranty_summary_infos db today) as [summary [Hs Hbucket]].
  eexists. exists summary.
  split; [apply alert_batches_rows|]. split; [exact Hs|]. split.
  - intros t a d Hin. rewrite tier_batch_rows in Hin.
    apply in_rows_of in Hin. destruct Hin as [Hc [we [Hwe [_ Hd]]]].
    destruct (in_candidates_inv db a Hc) as [Ha [s [we' [Hst [Hdec Hwe']]]]].
    split; [exact Ha|]. exists s, we. auto.
  - intros k i Hin. rewrite Hbucket in Hin. apply in_infos_of in Hin.
    destruct Hin as [a [we [Hc [Hwe [_ Hi]]]]].
    destruct (in_candidates_inv db a Hc) as [Ha [s [we' [Hst [Hdec Hwe']]]]].
    exists a, s, we. auto.
Qed.

Lemma infos_partition (db : Db) (today : date) (l : list Asset.t) :
  Permutation
    (infos_of db today (Some TierExpired) l
       ++ infos_of db today (Some TierCritical) l
       ++ infos_of db today (Some TierWarning) l
       ++ infos_of db today None l)
    (infos_of_all db today l).
Proof.
  induction l as [|a l IH]; [constructor|].
  unfold infos_of, infos_of_all in *. cbn [flat_map].
  unfold info_if at 1 3 5 7. unfold bucket_test.
  destruct (Asset.warranty_end a) as [we|]; [|exact IH].
  destruct (we - today <? 0); cbn [negb andb app].
  - constructor. exact IH.
  - destruct (we - today <=? 30); cbn [negb andb app].
    + apply Permutation_sym, Permutation_cons_app, Permutation_sym. exact IH.
    + destruct (we - today <=? 90); cbn [negb andb app].
      * apply Permutation_sym.
        rewrite app_assoc. apply Permutation_cons_app.
        rewrite <- app_assoc. apply Permutation_sym. exact IH.
      * apply Permutation_sym.
        rewrite !app_assoc. apply Permutation_cons_app.
        rewrite <- !app_assoc. apply Permutation_sym. exact IH.
Qed.

Lemma length_infos_of_all (db : Db) (today : date) (l : list Asset.t) :
  Forall (fun a => Asset.warranty_end a <> None) l ->
  List.length (infos_of_all db today l) = List.length l.
Proof.
  induction 1 as [|a l Ha _ IH]; [reflexivity|].
  unfold infos_of_all in *. cbn [flat_map].
  destruct (Asset.warranty_end a); [|congruence].
  cbn. rewrite IH. reflexivity.
Qed.

(** X11. The summary files every asset the query returns under exactly
    one of its four lists: the lists together are a rearrangement of
    the assets' [asset_info], so their lengths add up to the number of
    assets with a warranty that are not decommissioned. *)
Theorem summary_is_a_partition (db : Db) (today : date) :
  exists summary,
    get_warranty_summary db today = Some summary
    /\ Permutation
         (summary_expired summary ++ summary_critical_30 summary
            ++ summary_warning_90 summary ++ summary_active summary)
         (infos_of_all db today (warranty_candidates db))
    /\ (List.length (summary_expired summary)
        + List.length (summary_critical_30 summary)
        + List.length (summary_warning_90 summary)
        + List.length (summary_active summary)
        = List.length (warranty_candidates db))%nat.
Proof.
  destruct (get_warranty_summary_infos db today) as [summary [Hs Hbucket]].
  exists summary. split; [exact Hs|].
  assert (Hperm :
            Permutation
              (summary_expired summary ++ summary_critical_30 summary
                 ++ summary_warning_90 summary ++ summary_active summary)
              (infos_of_all db today (warranty_candidates db))).
  { pose proof (Hbucket (Some TierExpired)) as HE.
    pose proof (Hbucket (Some TierCritical)) as HC.
    pose proof (Hbucket (Some TierWarning)) as HW.
    pose proof (Hbucket None) as HN.
    cbn [summary_bucket] in HE, HC, HW, HN. rewrite HE, HC, HW, HN.
    apply infos_partition. }
  split; [exact Hperm|].
  apply Permutation_length in Hperm.
  rewrite !length_app in Hperm.
  rewrite length_infos_of_all in Hperm by apply candidates_have_warranty.
  lia.
Qed.

Lemma in_admin_emails (db : Db) (e : string) :
  In e (get_admin_emails db) ->
  exists u, In u (users db) /\ User.email u = e /\ is_recipient u.
Proof.
  unfold get_admin_emails. rewrite in_map_iff.
  intros [u [He Hu]]. apply filter_In in Hu. destruct Hu as [Hin Hf].
  exists u. split; [exact Hin|]. split; [exact He|].
  unfold is_recipient.
  destruct (User.role u) as [[| |]|], (User.is_active u) as [[|]|];
    try discriminate; auto.
Qed.

Lemma no_recipient_no_email (db : Db) :
  (forall u, In u (users db) -> ~ is_recipient u) ->
  get_admin_emails db = [].
Proof.
  intros Hnone. destruct (get_admin_emails db) as [|e es] eqn:He;
    [reflexivity|].
  destruct (in_admin_emails db e) as [u [Hin [_ Hr]]].
  - rewrite He. left. reflexivity.
  - exfalso. apply (Hnone u Hin Hr).
Qed.

(** X12. Warranty alerts only go to active administrators and
    technicians: every address a run writes to is that of such a user.
    When there is none, the run sends nothing and writes nothing. *)
Theorem alerts_go_to_active_staff
    (send : Mailer) (today : date) (now : datetime) (db : Db) :
  let run := check_and_send_warranty_alerts send today now db in
  (forall d e,
     In d (snd run) -> In e (to_emails d) ->
     exists u, In u (users db) /\ User.email u = e /\ is_recipient u)
  /\ ((forall u, In u (users db) -> ~ is_recipient u) -> run = (db, [])).
Proof.
  cbv zeta.
  destruct (run_closed_form send today now db) as [b [_ [_ Hrun]]].
  rewrite Hrun. split.
  - intros d e Hd He. apply in_admin_emails.
    destruct (get_admin_emails db) as [|r rs] eqn:Hadm; [destruct Hd|].
    cbn [snd] in Hd. apply in_attempts in Hd. destruct Hd as [t [_ ->]].
    exact He.
  - intros Hnone. rewrite (no_recipient_no_email db Hnone). reflexivity.
Qed.

Lemma attempts_types (send : Mailer) (admins : list string) (b : Batches) :
  exists e c w : bool,
    map alert_type (all_attempts send admins b)
    = (if e then ["expired"] else [])
        ++ (if c then ["expiring_30"] else [])
        ++ (if w then ["expiring_90"] else []).
Proof.
  exists (batch_nonempty b TierExpired), (batch_nonempty b TierCritical),
         (batch_nonempty b TierWarning).
  unfold all_attempts, attempt. rewrite !map_app.
  destruct (batch_nonempty b TierExpired), (batch_nonempty b TierCritical),
           (batch_nonempty b TierWarning); reflexivity.
Qed.

(** X13. A run calls the notifier at most once per alert type, in the
    order expired, expiring_30, expiring_90, and never with an empty
    list of assets. *)
Theorem one_alert_per_type
    (send : Mailer) (today : date) (now : datetime) (db : Db) :
  let sent := snd (check_and_send_warranty_alerts send today now db) in
  (exists e c w : bool,
     map alert_type sent
     = (if e then ["expired"] else [])
         ++ (if c then ["expiring_30"] else [])
         ++ (if w then ["expiring_90"] else []))
  /\ NoDup (map alert_type sent)
  /\ (List.length sent <= 3)%nat
  /\ (forall d, In d sent -> alert_assets d <> []).
Proof.
  cbv zeta.
  destruct (run_closed_form send today now db) as [b [_ [_ Hrun]]].
  rewrite Hrun.
  assert (Htypes :
            exists e c w : bool,
              map alert_type
                (snd (match get_admin_emails db with
                      | [] => (db, [])
                      | _ :: _ =>
                          (set_warranty_notifications db
                             (warranty_notifications db
                                ++ written send now (get_admin_emails db) b TierExpired
                                ++ written send now (get_admin_emails db) b TierCritical
                                ++ written send now (get_admin_emails db) b TierWarning),
                           all_attempts send (get_admin_emails db) b)
                      end))
              = (if e then ["expired"] else [])
                  ++ (if c then ["expiring_30"] else [])
                  ++ (if w then ["expiring_90"] else [])).
  { destruct (get_admin_emails db) as [|r rs].
    - exists false, false, false. reflexivity.
    - cbn [snd]. apply attempts_types. }
  split; [exact Htypes|].
  destruct Htypes as [e [c [w Hmap]]].
  split; [|split].
  - rewrite Hmap. destruct e, c, w; cbn;
      repeat (constructor; [cbn; intuition discriminate|]); constructor.
  - rewrite <- (length_map alert_type), Hmap.
    destruct e, c, w; cbn; lia.
  - intros d Hd.
    destruct (get_admin_emails db) as [|r rs]; [destruct Hd|].
    cbn [snd] in Hd. apply in_attempts in Hd. destruct Hd as [t [Hne ->]].
    cbn [alert_assets]. destruct (tier_batch t b); [congruence|discriminate].
Qed.

End WarrantyExtras.

(* ================================================================== *)
(** * Properties of the employee handlers *)

Module EmployeeExtras.
Import Routes RoutesSpec RoutesProofs EmployeeRoutes.

Lemma delete_employee_result
    (db : Db) (employee_id : Z) (current_user : User.t) :
  serve (delete_employee employee_id current_user) db =
  match query_employee db employee_id with
  | Some employee =>
      Returned tt
        (mkWorld
           (set_employees
              (set_assets db (unassign_all employee_id (assets db)))
              (replace_employee (deactivated employee) (employees db)))
           [])
  | None => Raised (HTTPException HTTP_404_NOT_FOUND "Employee not found") []
  end.
Proof.
  unfold serve, delete_employee, bind, get_employee_or_404.
  cbn [session outbox].
  destruct (query_employee db employee_id); reflexivity.
Qed.

Lemma find_replace_employee (employee : Employee.t) (k : Z) (rows : list Employee.t) :
  find (fun e => Employee.id e =? k) rows <> None ->
  k = Employee.id employee ->
  find (fun e => Employee.id e =? k) (replace_employee employee rows)
  = Some employee.
Proof.
  intros Hfound ->. induction rows as [|row rows IH]; cbn [find] in *;
    [congruence|].
  cbn [replace_employee].
  destruct (Employee.id row =? Employee.id employee) eqn:Hrow.
  - cbn [find]. rewrite Z.eqb_refl. reflexivity.
  - cbn [find]. rewrite Hrow. apply IH. exact Hfound.
Qed.

Lemma delete_employee_durable
    (db : Db) (employee_id : Z) (current_user : User.t) (employee : Employee.t) :
  query_employee db employee_id = Some employee ->
  durable db (serve (delete_employee employee_id current_user) db)
  = set_employees
      (set_assets db (unassign_all employee_id (assets db)))
      (replace_employee (deactivated employee) (employees db)).
Proof.
  intros Hq. rewrite delete_employee_result, Hq. reflexivity.
Qed.

Lemma query_deactivated
    (db : Db) (employee_id : Z) (employee : Employee.t) (rows : list Asset.t) :
  query_employee db employee_id = Some employee ->
  query_employee
    (set_employees (set_assets db rows)
       (replace_employee (deactivated employee) (employees db)))
    employee_id
  = Some (deactivated employee).
Proof.
  intros Hq. unfold query_employee, set_employees. cbn [employees].
  apply find_replace_employee.
  - unfold query_employee in Hq. rewrite Hq. discriminate.
  - unfold query_employee in Hq. apply find_some in Hq.
    destruct Hq as [_ Hid]. apply Z.eqb_eq in Hid.
    cbn [deactivated Employee.id]. symmetry. exact Hid.
Qed.

Lemma unassign_all_none_left (employee_id : Z) (rows : list Asset.t) (a : Asset.t) :
  In a (unassign_all employee_id rows) ->
  assigned_to_is employee_id a = false.
Proof.
  intros Ha. unfold unassign_all in Ha. apply in_map_iff in Ha.
  destruct Ha as [x [<- _]].
  destruct (assigned_to_is employee_id x) eqn:Hx; [reflexivity|exact Hx].
Qed.

Lemma assigned_to_is_false (employee_id : Z) (a : Asset.t) :
  assigned_to_is employee_id a = false <->
  Asset.assigned_to a <> Some employee_id.
Proof.
  unfold assigned_to_is. destruct (Asset.assigned_to a) as [e|].
  - destruct (Z.eqb_spec e employee_id) as [->|Hne]; split; intros H;
      congruence.
  - split; [discriminate|reflexivity].
Qed.

Lemma filter_none {A : Type} (f : A -> bool) (l : list A) :
  (forall a, In a l -> f a = false) -> filter f l = [].
Proof.
  induction l as [|x l IH]; intros Hf; [reflexivity|].
  cbn [filter]. rewrite (Hf x (or_introl eq_refl)).
  apply IH. intros a Ha. apply Hf. right. exact Ha.
Qed.


(** X14. Deleting an employee that exists deactivates the employee and
    unassigns every asset assigned to them: such an asset becomes
    available with [assigned_to] and [assigned_date] cleared, whatever
    its status was (an asset in repair leaves repair); every other
    asset is untouched; and no audit entry is written.  Deleting an
    employee that does not exist fails with 404 and changes nothing. *)
Theorem delete_employee_outcome
    (db : Db) (employee_id : Z) (current_user : User.t) :
  let r := serve (delete_employee employee_id current_user) db in
  let db' := durable db r in
  (query_employee db employee_id = None ->
   r = Raised (HTTPException HTTP_404_NOT_FOUND "Employee not found") []
   /\ db' = db)
  /\ (forall employee,
        query_employee db employee_id = Some employee ->
        query_employee db' employee_id = Some (deactivated employee)
        /\ Employee.is_active (deactivated employee) = Some false
        /\ List.length (assets db') = List.length (assets db)
        /\ (forall n a,
              nth_error (assets db) n = Some a ->
              Asset.assigned_to a = Some employee_id ->
              nth_error (assets db') n
              = Some (Asset.set_status
                        (Asset.set_assigned_date
                           (Asset.set_assigned_to a None) None)
                        (Some AVAILABLE)))
        /\ (forall n a,
              nth_error (assets db) n = Some a ->
              Asset.assigned_to a <> Some employee_id ->
              nth_error (assets db') n = Some a)
        /\ (forall a, In a (assets db') ->
                      Asset.assigned_to a <> Some employee_id)
        /\ audit_logs db' = audit_logs db
        /\ repairs db' = repairs db
        /\ warranty_notifications db' = warranty_notifications db).
Proof.
  cbv zeta. rewrite delete_employee_result. split.
  - intros Hq. rewrite Hq. split; reflexivity.
  - intros employee Hq. rewrite Hq. cbn [durable session].
    split.
    { apply query_deactivated. exact Hq. }
    split; [reflexivity|].
    cbn [assets set_employees set_assets audit_logs repairs
         warranty_notifications].
    split; [unfold unassign_all; apply length_map|].
    split.
    { intros n a Hn Hto. unfold unassign_all. rewrite nth_error_map, Hn.
      cbn [option_map]. unfold assigned_to_is. rewrite Hto, Z.eqb_refl.
      reflexivity. }
    split.
    { intros n a Hn Hto. unfold unassign_all. rewrite nth_error_map, Hn.
      cbn [option_map]. unfold assigned_to_is.
      destruct (Asset.assigned_to a) as [e|]; [|reflexivity].
      destruct (Z.eqb_spec e employee_id) as [->|]; [congruence|reflexivity]. }
    split.
    { intros a Ha. apply assigned_to_is_false.
      apply (unassign_all_none_left _ _ _ Ha). }
    repeat split; reflexivity.
Qed.

(** X15. Deleting an employee keeps the invariant on [assigned_to] and
    [status] of every asset; and on a table that satisfies it, it
    changes the status of no decommissioned asset. *)
Theorem delete_employee_keeps_invariant
    (db : Db) (employee_id : Z) (current_user : User.t) :
  Forall assignment_invariant (assets db) ->
  let db' := durable db (serve (delete_employee employee_id current_user) db) in
  Forall assignment_invariant (assets db')
  /\ (forall n a,
        nth_error (assets db) n = Some a ->
        Asset.status a = Some DECOMMISSIONED ->
        nth_error (assets db') n = Some a).
Proof.
  intros Hinv. cbv zeta. rewrite delete_employee_result.
  destruct (query_employee db employee_id) as [employee|];
    cbn [durable session]; [|split; [exact Hinv|auto]].
  cbn [assets set_employees set_assets]. split.
  - unfold unassign_all. rewrite Forall_map.
    eapply Forall_impl; [|exact Hinv].
    intros a Ha. destruct (assigned_to_is employee_id a); [|exact Ha].
    unfold assignment_invariant. cbn.
    split; intros H; [discriminate|congruence].
  - intros n a Hn Hs. unfold unassign_all. rewrite nth_error_map, Hn.
    cbn [option_map]. unfold assigned_to_is.
    destruct (Asset.assigned_to a) as [e|] eqn:Hto; [|reflexivity].
    exfalso.
    assert (Ha : assignment_invariant a).
    { rewrite Forall_forall in Hinv. apply Hinv.
      apply (nth_error_In _ _ Hn). }
    destruct Ha as [_ Ha]. rewrite Hto in Ha.
    destruct (Ha ltac:(discriminate)); congruence.
Qed.

(** X16. Once an employee is deleted, the list of the assets assigned
    to them is empty. *)
Theorem deleted_employee_has_no_assets
    (db : Db) (employee_id : Z) (current_user user : User.t) (employee : Employee.t) :
  query_employee db employee_id = Some employee ->
  let db' := durable db (serve (delete_employee employee_id current_user) db) in
  serve (get_employee_assets employee_id user) db'
  = Returned [] (mkWorld db' []).
Proof.
  intros Hq. cbv zeta.
  rewrite (delete_employee_durable _ _ _ _ Hq).
  unfold serve, get_employee_assets, bind, get_employee_or_404.
  cbn [session outbox].
  rewrite (query_deactivated _ _ _ _ Hq).
  f_equal. apply filter_none.
  intros a Ha. cbn [assets set_employees set_assets] in Ha.
  apply (unassign_all_none_left _ _ _ Ha).
Qed.

End EmployeeExtras.

(* ================================================================== *)
(** * Properties of the mail service *)

Module EmailExtras.
Import WarrantyNotificationService WarrantySpec WarrantyProofs.
Import EmailService EmailSpec.

Lemma send_email_unconfigured
    (transport : Transport) (self : t) to_emails subject html text :
  is_configured self = false ->
  send_email transport self to_emails subject html text = false.
Proof. intros H. unfold send_email. rewrite H. reflexivity. Qed.

Lemma failing_mailer_run (send : Mailer) (today : date) (now : datetime) (db : Db) :
  (forall to_emails assets alert, send to_emails assets alert = false) ->
  fst (check_and_send_warranty_alerts send today now db) = db
  /\ Forall (fun d => success d = false)
            (snd (check_and_send_warranty_alerts send today now db)).
Proof.
  intros Hsend. unfold check_and_send_warranty_alerts.
  destruct (alert_batches db today now) as [b|]; [|split; [reflexivity|constructor]].
  destruct (get_admin_emails db) as [|r rs]; [split; [reflexivity|constructor]|].
  cbv zeta. unfold send_and_record.
  destruct (expired b), (expiring_30 b), (expiring_90 b);
    rewrite ?Hsend; cbn [fst snd app];
    (split; [reflexivity|]);
    repeat (apply Forall_cons; [reflexivity|]); apply Forall_nil.
Qed.

(** X17. While the mail service is not configured (no SMTP user or no
    SMTP password, as in the default settings), whatever the transport
    would do, an alert run leaves the database as it is: every alert it
    attempts fails, and no notification is recorded. *)
Theorem unconfigured_run_records_nothing
    (transport : Transport) (render : Render) (settings : Settings.t)
    (today : date) (now : datetime) (db : Db) :
  is_configured (init settings) = false ->
  let run :=
    check_and_send_warranty_alerts
      (email_service transport render settings) today now db in
  fst run = db /\ Forall (fun d => success d = false) (snd run).
Proof.
  intros Hconf. cbv zeta. apply failing_mailer_run.
  intros to_emails assets alert.
  unfold email_service, send_warranty_alert.
  apply send_email_unconfigured. exact Hconf.
Qed.

Lemma prepare_asset_card (t : Tier) (db : Db) (now : datetime) (a : Asset.t)
    (data : AssetData) :
  selects db now t (data_days_remaining data) a = true ->
  card_matches_alert (tier_alert t) (prepare_asset data).
Proof.
  unfold selects, prepare_asset, card_matches_alert.
  destruct (data_days_remaining data <? 0) eqn:H0;
    destruct (data_days_remaining data <=? 30) eqn:H30;
    destruct t; cbn [negb andb]; intros H; try discriminate H;
    split; reflexivity.
Qed.

(** X18. In every alert an alert run mails, the card of each asset has
    the colour and the class of the alert itself: amber and [warning]
    in a 90-day alert, red and [critical] in a 30-day alert and in an
    alert for expired warranties. *)
Theorem alert_cards_match_alert
    (send : Mailer) (today : date) (now : datetime) (db : Db) :
  Forall cards_match_alert
         (snd (check_and_send_warranty_alerts send today now db)).
Proof.
  destruct (run_closed_form send today now db) as [b [_ [Hrows ->]]].
  destruct (get_admin_emails db) as [|r rs] eqn:Hadm; [constructor|].
  cbn [snd]. apply Forall_forall. intros d Hd.
  apply in_attempts in Hd. destruct Hd as [t [_ ->]].
  unfold cards_match_alert. cbn [alert_type alert_assets].
  rewrite Forall_map, Forall_map. apply Forall_forall.
  intros [a data] Hin. cbn [snd].
  rewrite Hrows in Hin. apply in_rows_of in Hin.
  destruct Hin as [_ [we [_ [Hsel ->]]]].
  apply (prepare_asset_card t db now a). exact Hsel.
Qed.

End EmailExtras.

(* ================================================================== *)
(** * Properties of the dashboard *)

Module DashboardExtras.
Import WarrantyNotificationService WarrantySpec WarrantyProofs.
Import Dashboard DashboardSpec.

(** ** The counters *)

Lemma count_warranty_infos
    (db : Db) (today : date) (acc : WarrantyCounts) (a : Asset.t) (we : date) :
  Asset.warranty_end a = Some we ->
  count_warranty today acc a =
  Some (mkWarrantyCounts
          (warranties_30 acc
           + Z.of_nat (List.length (info_if db today (Some TierCritical) a)))
          (warranties_90 acc
           + Z.of_nat (List.length (info_if db today (Some TierWarning) a)))
          (warranties_expired_count acc
           + Z.of_nat (List.length (info_if db today (Some TierExpired) a)))).
Proof.
  intros Hwe. unfold count_warranty, info_if, bucket_test. rewrite Hwe.
  cbv zeta.
  destruct (we - today <? 0); [|destruct (we - today <=? 30);
                                 [|destruct (we - today <=? 90)]];
    cbn [negb andb List.length Z.of_nat]; rewrite ?Z.add_0_r;
    try reflexivity; destruct acc; reflexivity.
Qed.

Lemma count_warranties_infos (db : Db) (today : date) (l : list Asset.t) :
  forall acc,
    Forall (fun a => Asset.warranty_end a <> None) l ->
    count_warranties today acc l =
    Some (mkWarrantyCounts
            (warranties_30 acc
             + Z.of_nat (List.length (infos_of db today (Some TierCritical) l)))
            (warranties_90 acc
             + Z.of_nat (List.length (infos_of db today (Some TierWarning) l)))
            (warranties_expired_count acc
             + Z.of_nat (List.length (infos_of db today (Some TierExpired) l)))).
Proof.
  induction l as [|a l IH]; intros acc Hall.
  - cbn. rewrite !Z.add_0_r. destruct acc; reflexivity.
  - inversion Hall as [|? ? Ha Hl]; subst.
    destruct (Asset.warranty_end a) as [we|] eqn:Hwe; [|congruence].
    cbn [count_warranties].
    rewrite (count_warranty_infos db today acc a we Hwe).
    rewrite (IH _ Hl). cbn [warranties_30 warranties_90 warranties_expired_count].
    unfold infos_of. cbn [flat_map]. rewrite !length_app, !Nat2Z.inj_add.
    f_equal. f_equal; symmetry; apply Z.add_assoc.
Qed.

Lemma in_service_typed (db : Db) :
  Forall (fun a => required_columns a = true) (assets db) ->
  existsb (fun a => Routes.is_none (Asset.asset_type a))
          (filter in_service (assets db)) = false.
Proof.
  intros Hall. apply not_true_is_false. intros Hex.
  apply existsb_exists in Hex. destruct Hex as [a [Ha Hnone]].
  apply filter_In in Ha. destruct Ha as [Ha _].
  rewrite Forall_forall in Hall. specialize (Hall a Ha).
  unfold required_columns in Hall. rewrite Hnone in Hall. discriminate.
Qed.

Lemma get_dashboard_stats_result (sql_sum : SqlSum) (today : date) (db : Db) :
  Forall (fun a => required_columns a = true) (assets db) ->
  get_dashboard_stats sql_sum today db =
  Ok (mkDashboardStats
        (Z.of_nat (List.length (assets db)))
        (count_status db ACTIVE) (count_status db AVAILABLE)
        (count_status db REPAIR) (count_status db DECOMMISSIONED)
        (Z.of_nat (List.length
           (infos_of db today (Some TierCritical) (warranty_candidates db))))
        (Z.of_nat (List.length
           (infos_of db today (Some TierWarning) (warranty_candidates db))))
        (Z.of_nat (List.length
           (infos_of db today (Some TierExpired) (warranty_candidates db))))
        (float_or_zero (sql_sum (map Repair.cost (repairs db))))
        (type_counts (filter in_service (assets db)))).
Proof.
  intros Hall. unfold get_dashboard_stats.
  rewrite (count_warranties_infos db) by apply candidates_have_warranty.
  cbv zeta. rewrite (in_service_typed db Hall).
  cbn [warranties_30 warranties_90 warranties_expired_count Z.add].
  reflexivity.
Qed.

(** X19. When every asset has its [asset_type] and [name], the
    statistics of the dashboard are returned, and their three warranty
    counters are the lengths of the lists [expired], [critical_30] and
    [warning_90] of the warranty summary for the same day. *)
Theorem stats_count_the_summary
    (sql_sum : SqlSum) (today : date) (db : Db) :
  Forall (fun a => required_columns a = true) (assets db) ->
  exists stats s,
    get_dashboard_stats sql_sum today db = Ok stats
    /\ get_warranty_summary db today = Some s
    /\ warranties_expired stats = Z.of_nat (List.length (summary_expired s))
    /\ warranties_expiring_30 stats
       = Z.of_nat (List.length (summary_critical_30 s))
    /\ warranties_expiring_90 stats
       = Z.of_nat (List.length (summary_warning_90 s)).
Proof.
  intros Hall.
  destruct (get_warranty_summary_infos db today) as [s [Hs Hbuckets]].
  eexists. exists s. split; [apply get_dashboard_stats_result; exact Hall|].
  split; [exact Hs|].
  cbn [warranties_expired warranties_expiring_30 warranties_expiring_90].
  rewrite <- (Hbuckets (Some TierExpired)), <- (Hbuckets (Some TierCritical)),
          <- (Hbuckets (Some TierWarning)).
  repeat split; reflexivity.
Qed.

Lemma status_is_match (a : Asset.t) (s : AssetStatus) :
  Routes.status_is a s =
  match Asset.status a with
  | Some s' => AssetStatus_eqb s' s
  | None => false
  end.
Proof.
  unfold Routes.status_is, Routes.opt_ne.
  destruct (Asset.status a) as [s'|]; [|reflexivity].
  destruct (AssetStatus_eqb s' s); reflexivity.
Qed.

Lemma status_partition (l : list Asset.t) :
  Z.of_nat (List.length l) =
  Z.of_nat (List.length (filter (fun a => Routes.status_is a ACTIVE) l))
  + Z.of_nat (List.length (filter (fun a => Routes.status_is a AVAILABLE) l))
  + Z.of_nat (List.length (filter (fun a => Routes.status_is a REPAIR) l))
  + Z.of_nat (List.length (filter (fun a => Routes.status_is a DECOMMISSIONED) l))
  + Z.of_nat (List.length (filter (fun a => Routes.is_none (Asset.status a)) l)).
Proof.
  induction l as [|a l IH]; [reflexivity|].
  cbn [filter]. rewrite !status_is_match.
  destruct (Asset.status a) as [[| | |]|];
    cbn [AssetStatus_eqb Routes.is_none List.length]; lia.
Qed.

Lemma in_service_partition (l : list Asset.t) :
  Z.of_nat (List.length (filter in_service l)) =
  Z.of_nat (List.length (filter (fun a => Routes.status_is a ACTIVE) l))
  + Z.of_nat (List.length (filter (fun a => Routes.status_is a AVAILABLE) l))
  + Z.of_nat (List.length (filter (fun a => Routes.status_is a REPAIR) l)).
Proof.
  induction l as [|a l IH]; [reflexivity|].
  cbn [filter]. rewrite !status_is_match. unfold in_service at 1.
  destruct (Asset.status a) as [[| | |]|];
    cbn [AssetStatus_eqb negb List.length]; lia.
Qed.

Lemma sum_type_counts (rows : list Asset.t) :
  sum_counts (type_counts rows) =
  fold_right
    (fun t acc => Z.of_nat (List.length (filter (has_type t) rows)) + acc)
    0 all_asset_types.
Proof.
  unfold type_counts. induction all_asset_types as [|t ts IH]; [reflexivity|].
  cbn [flat_map fold_right]. cbv zeta. unfold sum_counts in *.
  rewrite fold_right_app, <- IH.
  destruct (Z.ltb_spec 0 (Z.of_nat (List.length (filter (has_type t) rows))))
    as [Hpos|Hzero]; cbn [fold_right snd]; [reflexivity|].
  lia.
Qed.

Lemma typed_rows_partition (rows : list Asset.t) :
  Forall (fun a => Asset.asset_type a <> None) rows ->
  fold_right
    (fun t acc => Z.of_nat (List.length (filter (has_type t) rows)) + acc)
    0 all_asset_types
  = Z.of_nat (List.length rows).
Proof.
  induction rows as [|a rows IH]; intros Hall; [reflexivity|].
  inversion Hall as [|? ? Ha Hrows]; subst. specialize (IH Hrows).
  unfold all_asset_types in *. cbn [fold_right filter] in *.
  assert (Htype : forall t,
             has_type t a =
             match Asset.asset_type a with
             | Some t' => AssetType_eqb t' t
             | None => false
             end) by reflexivity.
  rewrite !Htype. clear Htype.
  destruct (Asset.asset_type a) as [[]|]; [..|congruence];
    cbn [AssetType_eqb List.length]; lia.
Qed.

Lemma type_counts_positive (rows : list Asset.t) :
  Forall (fun kv => 0 < snd kv) (type_counts rows).
Proof.
  unfold type_counts. apply Forall_flat_map. apply Forall_forall.
  intros t _. cbv zeta.
  destruct (Z.ltb_spec 0 (Z.of_nat (List.length (filter (has_type t) rows))));
    [|constructor].
  apply Forall_cons; [exact H|constructor].
Qed.

(** X20. In the statistics of the dashboard, the four status counters
    and the number of assets without a status add up to the total; the
    counts by type add up to the assets that are active, available or
    in repair; and every type listed has at least one asset. *)
Theorem stats_counters_add_up
    (sql_sum : SqlSum) (today : date) (db : Db) (stats : DashboardStats) :
  get_dashboard_stats sql_sum today db = Ok stats ->
  total_assets stats
  = active_assets stats + available_assets stats + in_repair stats
    + decommissioned stats + count_no_status db
  /\ sum_counts (assets_by_type stats)
     = active_assets stats + available_assets stats + in_repair stats
  /\ Forall (fun kv => 0 < snd kv) (assets_by_type stats).
Proof.
  unfold get_dashboard_stats.
  destruct (count_warranties _ _ _) as [counts|]; [|discriminate].
  cbv zeta.
  destruct (existsb _ _) eqn:Htyped; [discriminate|].
  intros Hok. injection Hok as <-.
  cbn [total_assets active_assets available_assets in_repair decommissioned
       assets_by_type].
  unfold count_status, count_no_status.
  split; [apply status_partition|]. split; [|apply type_counts_positive].
  rewrite sum_type_counts, typed_rows_partition.
  - apply in_service_partition.
  - apply Forall_forall. intros a Ha.
    pose proof (existsb_exists
                  (fun a => Routes.is_none (Asset.asset_type a))
                  (filter in_service (assets db))) as [_ Hex].
    intros Hnone. rewrite Hex in Htyped; [discriminate|].
    exists a. split; [exact Ha|]. rewrite Hnone. reflexivity.
Qed.

(** ** The alerts *)

Lemma alert_asset_step_alerts
    (py_sum : PySum) (db : Db) (today : date)
    (acc : list WarrantyAlert) (a : Asset.t) :
  Asset.warranty_end a <> None -> Asset.status a <> None ->
  required_columns a = true ->
  alert_asset_step py_sum db today acc a
  = Ok (acc ++ alert_if py_sum db today a).
Proof.
  intros Hwe Hst Hreq. unfold alert_asset_step, alert_if, tier_of_days.
  destruct (Asset.warranty_end a) as [we|]; [|congruence].
  cbv zeta. unfold model_validate, required_columns in *.
  destruct (Asset.asset_type a); [|discriminate].
  destruct (Asset.name a); [|discriminate].
  destruct (Asset.status a); [|congruence].
  cbn [response_row].
  destruct (Z.ltb_spec (we - today) 0); [reflexivity|].
  destruct (Z.leb_spec 0 (we - today)); [|lia].
  destruct (Z.leb_spec (we - today) 30); [reflexivity|].
  destruct (Z.leb_spec 31 (we - today)); [|lia].
  destruct (Z.leb_spec (we - today) 90); cbn [andb];
    [reflexivity|rewrite app_nil_r; reflexivity].
Qed.

Lemma alert_assets_loop_alerts
    (py_sum : PySum) (db : Db) (today : date) (l : list Asset.t) :
  forall acc,
    Forall (fun a => Asset.warranty_end a <> None /\ Asset.status a <> None
                     /\ required_columns a = true) l ->
    alert_assets_loop py_sum db today acc l
    = Ok (acc ++ alerts_of py_sum db today l).
Proof.
  induction l as [|a l IH]; intros acc Hall.
  - cbn. rewrite app_nil_r. reflexivity.
  - inversion Hall as [|? ? [Hwe [Hst Hreq]] Hl]; subst.
    cbn [alert_assets_loop].
    rewrite (alert_asset_step_alerts py_sum db today acc a Hwe Hst Hreq).
    rewrite (IH _ Hl). unfold alerts_of. cbn [flat_map].
    rewrite app_assoc. reflexivity.
Qed.

Lemma candidates_validate (db : Db) :
  Forall (fun a => required_columns a = true) (assets db) ->
  Forall (fun a => Asset.warranty_end a <> None /\ Asset.status a <> None
                   /\ required_columns a = true) (warranty_candidates db).
Proof.
  intros Hall. apply Forall_forall. intros a Ha.
  unfold warranty_candidates in Ha. apply filter_In in Ha.
  destruct Ha as [Hin Hf]. rewrite Forall_forall in Hall.
  split; [|split; [|apply Hall; exact Hin]];
    destruct (Asset.status a), (Asset.warranty_end a); congruence.
Qed.

Lemma get_warranty_alerts_result (py_sum : PySum) (today : date) (db : Db) :
  Forall (fun a => required_columns a = true) (assets db) ->
  get_warranty_alerts py_sum today db
  = Ok (sort_alerts (alerts_of py_sum db today (warranty_candidates db))).
Proof.
  intros Hall. unfold get_warranty_alerts.
  rewrite alert_assets_loop_alerts by (apply candidates_validate; exact Hall).
  reflexivity.
Qed.

Lemma insert_alert_in (x y : WarrantyAlert) (l : list WarrantyAlert) :
  In y (insert_alert x l) <-> y = x \/ In y l.
Proof.
  induction l as [|z l IH]; cbn [insert_alert].
  - cbn. intuition.
  - destruct (days_remaining x <=? days_remaining z); cbn [In].
    + intuition.
    + rewrite IH. intuition.
Qed.

Lemma sort_alerts_in (y : WarrantyAlert) (l : list WarrantyAlert) :
  In y (sort_alerts l) <-> In y l.
Proof.
  induction l as [|x l IH]; [reflexivity|].
  cbn [sort_alerts fold_right]. fold (sort_alerts l).
  rewrite insert_alert_in, IH. cbn [In]. intuition.
Qed.

Lemma insert_alert_sorted (x : WarrantyAlert) (l : list WarrantyAlert) :
  StronglySorted more_urgent l -> StronglySorted more_urgent (insert_alert x l).
Proof.
  induction l as [|y l IH]; intros Hs; cbn [insert_alert].
  - constructor; constructor.
  - inversion Hs as [|? ? Hl Hy]; subst.
    destruct (Z.leb_spec (days_remaining x) (days_remaining y)) as [Hle|Hgt].
    + constructor; [exact Hs|].
      constructor; [exact Hle|].
      rewrite Forall_forall in *. intros z Hz. specialize (Hy z Hz).
      unfold more_urgent in *. lia.
    + constructor; [apply IH; exact Hl|].
      rewrite Forall_forall in *. intros z Hz.
      apply insert_alert_in in Hz. destruct Hz as [->|Hz].
      * unfold more_urgent. lia.
      * apply Hy. exact Hz.
Qed.

Lemma sort_alerts_sorted (l : list WarrantyAlert) :
  StronglySorted more_urgent (sort_alerts l).
Proof.
  induction l as [|x l IH]; [constructor|].
  cbn [sort_alerts fold_right]. apply insert_alert_sorted. exact IH.
Qed.

Lemma insert_alert_with_days (k : Z) (x : WarrantyAlert) (l : list WarrantyAlert) :
  with_days k (insert_alert x l) = with_days k [x] ++ with_days k l.
Proof.
  unfold with_days. induction l as [|y l IH]; cbn [insert_alert].
  - cbn [filter]. rewrite app_nil_r. reflexivity.
  - destruct (Z.leb_spec (days_remaining x) (days_remaining y)) as [Hle|Hgt].
    + cbn [filter]. destruct (days_remaining x =? k); reflexivity.
    + cbn [filter] in *. rewrite IH.
      destruct (Z.eqb_spec (days_remaining x) k) as [Hx|Hx];
        destruct (Z.eqb_spec (days_remaining y) k) as [Hy|Hy];
        try reflexivity.
      lia.
Qed.

Lemma sort_alerts_with_days (k : Z) (l : list WarrantyAlert) :
  with_days k (sort_alerts l) = with_days k l.
Proof.
  induction l as [|x l IH]; [reflexivity|].
  cbn [sort_alerts fold_right]. fold (sort_alerts l).
  rewrite insert_alert_with_days, IH. unfold with_days. cbn [filter].
  destruct (days_remaining x =? k); reflexivity.
Qed.

Lemma in_alerts_of
    (py_sum : PySum) (db : Db) (today : date) (l : list Asset.t)
    (x : WarrantyAlert) :
  In x (alerts_of py_sum db today l) <->
  exists a we t,
    In a l /\ Asset.warranty_end a = Some we
    /\ tier_of_days (we - today) = Some t
    /\ x = alert_of py_sum db today a we t.
Proof.
  unfold alerts_of. rewrite in_flat_map. split.
  - intros [a [Ha Hx]]. unfold alert_if in Hx.
    destruct (Asset.warranty_end a) as [we|] eqn:Hwe; [|contradiction].
    destruct (tier_of_days (we - today)) as [t|] eqn:Ht; [|contradiction].
    destruct Hx as [<-|[]]. exists a, we, t. auto.
  - intros [a [we [t [Ha [Hwe [Ht ->]]]]]]. exists a. split; [exact Ha|].
    unfold alert_if. rewrite Hwe, Ht. left. reflexivity.
Qed.

(** X21. When every asset has its [asset_type] and [name], the
    warranty alerts of the dashboard are returned most urgent first;
    the alerts with the same number of days remaining keep the order of
    their assets in the table; and there is an alert exactly for the
    assets that have a status other than decommissioned and a warranty
    that ended or ends within 90 days. *)
Theorem warranty_alerts_most_urgent_first
    (py_sum : PySum) (today : date) (db : Db) :
  Forall (fun a => required_columns a = true) (assets db) ->
  exists alerts,
    get_warranty_alerts py_sum today db = Ok alerts
    /\ StronglySorted more_urgent alerts
    /\ (forall k,
          with_days k alerts
          = with_days k (alerts_of py_sum db today (warranty_candidates db)))
    /\ (forall x,
          In x alerts <->
          exists a we t,
            In a (warranty_candidates db)
            /\ Asset.warranty_end a = Some we
            /\ tier_of_days (we - today) = Some t
            /\ x = alert_of py_sum db today a we t).
Proof.
  intros Hall. eexists.
  split; [apply get_warranty_alerts_result; exact Hall|].
  split; [apply sort_alerts_sorted|].
  split; [intros k; apply sort_alerts_with_days|].
  intros x. rewrite sort_alerts_in. apply in_alerts_of.
Qed.

Lemma label_of_inj (t t' : Tier) : label_of t = label_of t' -> t = t'.
Proof. destruct t, t'; cbn; intros H; try reflexivity; discriminate. Qed.

(** X22. When every asset has its [asset_type] and [name], the
    dashboard labels an asset's alert [expired], [critical] or
    [warning] exactly when the warranty summary for the same day files
    the asset under [expired], [critical_30] or [warning_90]. *)
Theorem warranty_alerts_agree_with_summary
    (py_sum : PySum) (today : date) (db : Db) :
  Forall (fun a => required_columns a = true) (assets db) ->
  exists alerts s,
    get_warranty_alerts py_sum today db = Ok alerts
    /\ get_warranty_summary db today = Some s
    /\ forall a we t,
         In a (warranty_candidates db) ->
         Asset.warranty_end a = Some we ->
         (In (alert_of py_sum db today a we t) alerts <->
          In (asset_info_of db a we (we - today)) (summary_bucket (Some t) s)).
Proof.
  intros Hall.
  destruct (get_warranty_summary_infos db today) as [s [Hs Hbuckets]].
  eexists. exists s.
  split; [apply get_warranty_alerts_result; exact Hall|].
  split; [exact Hs|].
  intros a we t Ha Hwe.
  rewrite sort_alerts_in, in_alerts_of, Hbuckets, in_infos_of. split.
  - intros [a' [we' [t' [Ha' [Hwe' [Ht' Heq]]]]]].
    unfold alert_of in Heq. injection Heq as Hrow _ _ Hdays Hlabel.
    apply label_of_inj in Hlabel. subst a' t'.
    assert (we' = we) by congruence. subst we'.
    exists a, we. split; [exact Ha|]. split; [exact Hwe|].
    split; [|reflexivity]. apply bucket_test_tier. exact Ht'.
  - intros [a' [we' [Ha' [Hwe' [Hb Heq]]]]].
    unfold asset_info_of in Heq. injection Heq as _ _ _ Hend _ _.
    subst we'.
    exists a, we, t. split; [exact Ha|]. split; [exact Hwe|].
    split; [|reflexivity]. apply bucket_test_tier. exact Hb.
Qed.

End DashboardExtras.

(* ================================================================== *)
(** * The further properties on the small fleet *)

Module MoreExamples.
Import WarrantyNotificationService WarrantySpec.
Import Routes RoutesSpec Fleet.
Import EmployeeRoutes EmailService Dashboard.
Import LifecycleSpec ReportSpec EmailSpec DashboardSpec Desk.
Import RoutesExtras UpdateExtras EmployeeExtras EmailExtras DashboardExtras.

Ltac fleet_forall :=
  repeat (apply Forall_cons; [reflexivity|]); apply Forall_nil.

Lemma mark_asset_fixed_outcome_witness :
  query_asset (durable fleet (serve (mark_asset_fixed 3 tech) fleet)) 3
  = Some (Asset.set_status asset_C (Some ACTIVE)).
Proof.
  destruct (mark_asset_fixed_outcome fleet 3 tech asset_C eq_refl) as [H _].
  destruct (H eq_refl) as [_ Hq]. exact Hq.
Defined.

Lemma assign_asset_to_employee_witness :
  query_asset
    (durable fleet
       (serve (assign_asset today 1 (AssetAssign.mk (Some 42)) tech) fleet))
    1
  = Some (assigned_asset asset_A employee42 today).
Proof.
  destruct (assign_asset_to_employee fleet today 1 42 tech asset_A employee42
              LAPTOP eq_refl ltac:(cbn; discriminate) eq_refl
              ltac:(discriminate) eq_refl)
    as [_ [_ [_ [_ [H _]]]]].
  exact H.
Defined.

Lemma assign_asset_unknown_employee_witness :
  serve (assign_asset today 1 (AssetAssign.mk (Some 7)) tech) fleet
  = Raised (HTTPException HTTP_404_NOT_FOUND "Employee not found") [].
Proof.
  destruct (assign_asset_unknown_employee fleet today 1 7 tech asset_A
              eq_refl ltac:(cbn; discriminate) ltac:(discriminate) eq_refl)
    as [H _].
  exact H.
Defined.

Lemma assign_asset_unassigns_witness :
  query_asset
    (durable fleet
       (serve (assign_asset today 2 (AssetAssign.mk None) tech) fleet))
    2
  = Some (unassigned_asset asset_B).
Proof.
  destruct (assign_asset_unassigns fleet today 2 None tech asset_B
              eq_refl ltac:(cbn; discriminate) (or_introl eq_refl))
    as [_ [_ [_ [_ H]]]].
  exact H.
Defined.

Lemma decommission_then_lifecycle_refused_witness :
  serve (mark_asset_fixed 2 tech)
        (durable fleet
           (serve (post_decommission today 2 "ten chars!" tech) fleet))
  = Raised (InvalidTransition "Asset is not in repair status") [].
Proof.
  destruct (serve (post_decommission today 2 "ten chars!" tech) fleet)
    as [asset w|e mails] eqn:Hrun.
  - destruct (decommission_then_lifecycle_refused fleet today 2 "ten chars!"
                tech asset w Hrun)
      as [_ [_ H]].
    apply H.
  - vm_compute in Hrun. discriminate Hrun.
Defined.

Lemma update_asset_stores_request_witness :
  exists asset w,
    serve (update_asset 1 move_request tech) fleet = Returned asset w
    /\ Asset.location asset = Some "Berlin"
    /\ Asset.assigned_to asset = None.
Proof.
  destruct (serve (update_asset 1 move_request tech) fleet)
    as [asset w|e mails] eqn:Hrun.
  - exists asset, w. split; [reflexivity|].
    destruct (update_asset_stores_request fleet 1 move_request tech asset w Hrun)
      as [loaded [Hq [_ [_ [_ [_ [_ [_ [_ [_ [_ [_ [_ [_ [Hloc [_ [_
           [_ [Hto _]]]]]]]]]]]]]]]]]]].
    change (Some asset_A = Some loaded) in Hq. injection Hq as <-.
    split; [exact Hloc|exact Hto].
  - vm_compute in Hrun. discriminate Hrun.
Defined.

Lemma update_asset_audited_witness :
  exists asset w,
    serve (update_asset 1 move_request tech) fleet = Returned asset w
    /\ (List.length (audit_logs (session w)) <= 1)%nat.
Proof.
  destruct (serve (update_asset 1 move_request tech) fleet)
    as [asset w|e mails] eqn:Hrun.
  - exists asset, w. split; [reflexivity|].
    destruct (update_asset_audited fleet 1 move_request tech asset w Hrun)
      as [loaded [_ [[_ [_ Hlogs]]|[c [cs Hlogs]]]]];
      rewrite Hlogs; cbn; lia.
  - vm_compute in Hrun. discriminate Hrun.
Defined.

Lemma update_asset_constraint_violation_witness :
  serve (update_asset 1 clear_name_request tech) fleet
  = Raised (IntegrityError "constraint failed") []
  /\ durable fleet (serve (update_asset 1 clear_name_request tech) fleet)
     = fleet.
Proof.
  apply (update_asset_constraint_violation fleet 1 clear_name_request tech
           asset_A eq_refl).
  left. split; [cbn; discriminate|reflexivity].
Defined.

Lemma delete_employee_keeps_invariant_witness :
  Forall assignment_invariant
    (assets (durable fleet (serve (delete_employee 42 tech) fleet))).
Proof.
  destruct (delete_employee_keeps_invariant fleet 42 tech) as [H _].
  - unfold fleet. cbn [assets].
    repeat (apply Forall_cons;
            [split; cbn; intros H; try discriminate; try congruence; auto|]).
    apply Forall_nil.
  - exact H.
Defined.

Lemma deleted_employee_has_no_assets_witness :
  serve (get_employee_assets 42 admin)
        (durable fleet (serve (delete_employee 42 tech) fleet))
  = Returned []
      (mkWorld (durable fleet (serve (delete_employee 42 tech) fleet)) []).
Proof.
  apply (deleted_employee_has_no_assets fleet 42 tech admin employee42 eq_refl).
Defined.

Lemma unconfigured_run_records_nothing_witness :
  fst (check_and_send_warranty_alerts
         (email_service open_relay count_cards Settings.defaults)
         today now fleet)
  = fleet.
Proof.
  destruct (unconfigured_run_records_nothing open_relay count_cards
              Settings.defaults today now fleet eq_refl)
    as [H _].
  exact H.
Defined.

Lemma stats_count_the_summary_witness :
  exists stats s,
    get_dashboard_stats sql_left_sum today fleet = Ok stats
    /\ get_warranty_summary fleet today = Some s
    /\ warranties_expired stats = Z.of_nat (List.length (summary_expired s))
    /\ warranties_expiring_30 stats
       = Z.of_nat (List.length (summary_critical_30 s))
    /\ warranties_expiring_90 stats
       = Z.of_nat (List.length (summary_warning_90 s)).
Proof.
  apply (stats_count_the_summary sql_left_sum today fleet).
  unfold fleet. cbn [assets]. fleet_forall.
Defined.

Lemma stats_counters_add_up_witness :
  exists stats,
    get_dashboard_stats sql_left_sum today fleet = Ok stats
    /\ total_assets stats
       = active_assets stats + available_assets stats + in_repair stats
         + decommissioned stats + count_no_status fleet
    /\ sum_counts (assets_by_type stats)
       = active_assets stats + available_assets stats + in_repair stats.
Proof.
  destruct (get_dashboard_stats sql_left_sum today fleet) as [stats|e] eqn:Hrun.
  - exists stats. split; [reflexivity|].
    destruct (stats_counters_add_up sql_left_sum today fleet stats Hrun)
      as [Htotal [Htypes _]].
    split; [exact Htotal|exact Htypes].
  - vm_compute in Hrun. discriminate Hrun.
Defined.

Lemma warranty_alerts_most_urgent_first_witness :
  exists alerts,
    get_warranty_alerts left_sum today fleet = Ok alerts
    /\ StronglySorted more_urgent alerts.
Proof.
  destruct (warranty_alerts_most_urgent_first left_sum today fleet)
    as [alerts [Hrun [Hsorted _]]].
  - unfold fleet. cbn [assets]. fleet_forall.
  - exists alerts. split; [exact Hrun|exact Hsorted].
Defined.

Lemma warranty_alerts_agree_with_summary_witness :
  exists alerts s,
    get_warranty_alerts left_sum today fleet = Ok alerts
    /\ get_warranty_summary fleet today = Some s
    /\ (In (alert_of left_sum fleet today asset_A (today - 5) TierExpired)
           alerts <->
        In (asset_info_of fleet asset_A (today - 5) (today - 5 - today))
           (summary_expired s)).
Proof.
  destruct (warranty_alerts_agree_with_summary left_sum today fleet)
    as [alerts [s [Hrun [Hs H]]]].
  - unfold fleet. cbn [assets]. fleet_forall.
  - exists alerts, s. split; [exact Hrun|]. split; [exact Hs|].
    apply (H asset_A (today - 5) TierExpired); [|reflexivity].
    vm_compute. left. reflexivity.
Defined.

End MoreExamples.
